(** * Multi-scale scheduling engine of the construction Gantt chart

    A shallow embedding of the scheduling code of the repository
    (types, [TaskBar], [ChartCalendar], the print/export previews and
    [lib/holidays]) together with the properties of its specification.

    Conventions of the embedding.
    - Schedule values, hours and day counts are JavaScript numbers that the
      program only ever produces as integers ([parseInt], [Math.floor],
      integer constants); they are modelled as [Z].
    - Pixel quantities (pointer coordinates, cell widths, bar geometry) are
      binary64 numbers in the source.  The components are modelled with
      exact rationals [Q]: a product or quotient of the source is the exact
      one rounded to the nearest binary64 number, so the two agree wherever
      the exact value is such a number, as with the integer cell widths
      that the calendar passes (24, 32, 20 and 14).  [Double] and [TaskBar64]
      give the pixel computations in binary64, for the one place where the
      rounding can change an integer, the floor of a pixel quotient: at an
      integer cell width the two floors are the same for a coordinate at or
      right of the origin ([cellIndexAt_binary64]); at a width such as 0.7
      they can differ by one.
    - A React component is a [Section] whose [Variable]s are its props; the
      closures of the component become functions of those props.
    - [schedule[scale]?.[field] ?? DEFAULT...]: the type [ScaleBasedSchedule]
      makes the four intervals and their two fields mandatory, so the
      optional chaining only ever falls back when the whole schedule of a
      task is absent; that case is the [option] of [scaleSchedule]. *)

From Stdlib Require Import ZArith QArith Qround Qminmax Qpower.
From Stdlib Require Import List String Ascii Bool Lia.
From Stdlib Require Import Sorting.Sorted Sorting.Permutation.
From Stdlib Require Import Floats.SpecFloat.
From Equations Require Import Equations.
Import ListNotations.

Local Open Scope Z_scope.

(** ** JavaScript helpers *)

(** [a || b] on numbers: [0] (and [NaN]) are falsy. *)
Definition js_or (a b : Z) : Z := if a =? 0 then b else a.

(** [parseInt(s) || b]: [parseInt] yields [NaN] ([None]) on a non-numeric
    string, and [NaN] is falsy as well. *)
Definition parsed_or (v : option Z) (b : Z) : Z :=
  match v with
  | Some a => js_or a b
  | None => b
  end.

(** [a % b] keeps the sign of the dividend. *)
Definition js_rem (a b : Z) : Z := Z.rem a b.

(** [Math.round(m / 5) * 5] for an integer [m]: [Math.round x] is
    [floor (x + 1/2)]. *)
Definition round5 (m : Z) : Z := ((2 * m + 5) / 10) * 5.

(** *** Numbers in binary64

    The JavaScript number type, IEEE 754 binary64 with rounding to nearest
    even, on the specification of floating-point arithmetic of the
    Standard Library. *)
Module Double.

Definition prec : Z := 53.
Definition emax : Z := 1024.
Definition t : Type := spec_float.

(** The number of an integer (exact below 2^53). *)
Definition ofZ (n : Z) : t := binary_normalize prec emax n 0 false.

(** [a * b] and [a / b] *)
Definition mul (a b : t) : t := SFmul prec emax a b.
Definition div (a b : t) : t := SFdiv prec emax a b.

(** [Math.max(a, b)]: [NaN] when one of them is, and [+0] above [-0]. *)
Definition max (a b : t) : t :=
  match SFcompare a b with
  | None => S754_nan
  | Some Lt => b
  | Some Gt => a
  | Some Eq => match a with S754_zero true => b | _ => a end
  end.

(** [Math.floor(x)] when it is an integer; [None] for [NaN] and the two
    infinities, which [Math.floor] returns as they are. *)
Definition floor (x : t) : option Z :=
  match x with
  | S754_zero _ => Some 0
  | S754_finite s m e =>
      let n := if s then Z.neg m else Z.pos m in
      Some (if 0 <=? e then n * 2 ^ e else n / 2 ^ (- e))
  | _ => None
  end.



(** The representation of a positive integer below 2^53: its bits moved
    up to 53 digits, with the exponent that undoes it. *)
Definition mantissa (z : Z) : positive :=
  Z.to_pos (z * 2 ^ (52 - Z.log2 z)).
Definition normal (z : Z) : t :=
  S754_finite false (mantissa z) (Z.log2 z - 52).

End Double.

(** ** types *)

Inductive ViewScale : Type := Hour | Day | Week | Month.

Record HourScaleSettings : Type := mkHourScaleSettings {
  startHour : Z;
  endHour : Z
}.

Record DayScaleSettings : Type := mkDayScaleSettings {
  dayCount : Z;
  weekCount : Z;
  monthCount : Z
}.

Record WorkdaySettings : Type := mkWorkdaySettings {
  skipSaturday : bool;
  skipSunday : bool;
  skipHolidays : bool;
  customHolidays : list string;
  customWorkdays : list string;
  showOnlyWorkdays : bool
}.

Record Project : Type := mkProject {
  projectIdent : string;
  startDate : string;
  isProvisional : bool;
  viewScale : ViewScale;
  workdaySettings : WorkdaySettings;
  hourScaleSettings : option HourScaleSettings;
  dayScaleSettings : option DayScaleSettings
}.

Definition DEFAULT_HOUR_SCALE_SETTINGS : HourScaleSettings :=
  {| startHour := 8; endHour := 18 |}.

Definition DEFAULT_DAY_SCALE_SETTINGS : DayScaleSettings :=
  {| dayCount := 7; weekCount := 30; monthCount := 60 |}.

(** [{ start: number; end: number }] *)
Record Interval : Type := mkInterval {
  start : Z;
  end_ : Z
}.

Record ScaleBasedSchedule : Type := mkSchedule {
  hour : Interval;
  day : Interval;
  week : Interval;
  month : Interval
}.

Record Task : Type := mkTask {
  id : string;
  projectId : string;
  tradeId : option string;
  name : string;
  assignee : string;
  taskStartDate : string;
  taskEndDate : string;
  color : option string;
  order : Z;
  scaleSchedule : option ScaleBasedSchedule
}.

Definition DEFAULT_SCALE_SCHEDULE : ScaleBasedSchedule :=
  {| hour := {| start := 480; end_ := 540 |};
     day := {| start := 1; end_ := 3 |};
     week := {| start := 1; end_ := 7 |};
     month := {| start := 1; end_ := 14 |} |}.

Definition DEFAULT_WORKDAY_SETTINGS : WorkdaySettings :=
  {| skipSaturday := false; skipSunday := true; skipHolidays := true;
     customHolidays := []; customWorkdays := []; showOnlyWorkdays := false |}.

(** The two keys of an interval, ['start' | 'end']. *)
Inductive Field : Type := FStart | FEnd.

(** [schedule[scale]] *)
Definition sched_get (s : ScaleBasedSchedule) (sc : ViewScale) : Interval :=
  match sc with
  | Hour => hour s
  | Day => day s
  | Week => week s
  | Month => month s
  end.

(** [{ ...schedule, [scale]: i }] *)
Definition sched_set (s : ScaleBasedSchedule) (sc : ViewScale) (i : Interval)
  : ScaleBasedSchedule :=
  match sc with
  | Hour => {| hour := i; day := day s; week := week s; month := month s |}
  | Day => {| hour := hour s; day := i; week := week s; month := month s |}
  | Week => {| hour := hour s; day := day s; week := i; month := month s |}
  | Month => {| hour := hour s; day := day s; week := week s; month := i |}
  end.

(** [interval[field]] *)
Definition field_get (i : Interval) (f : Field) : Z :=
  match f with
  | FStart => start i
  | FEnd => end_ i
  end.

(** [{ ...interval, [field]: v }] *)
Definition field_set (i : Interval) (f : Field) (v : Z) : Interval :=
  match f with
  | FStart => {| start := v; end_ := end_ i |}
  | FEnd => {| start := start i; end_ := v |}
  end.

(** [task.scaleSchedule || DEFAULT_SCALE_SCHEDULE] (a spread copy of the
    default is the same value). *)
Definition scheduleOrDefault (t : Task) : ScaleBasedSchedule :=
  match scaleSchedule t with
  | Some s => s
  | None => DEFAULT_SCALE_SCHEDULE
  end.

(** ** stores/useStore: the task collection *)

(** [{ ...t, scaleSchedule: s }], the only patch the scheduling code sends. *)
Definition withSchedule (t : Task) (s : ScaleBasedSchedule) : Task :=
  {| id := id t; projectId := projectId t; tradeId := tradeId t;
     name := name t; assignee := assignee t;
     taskStartDate := taskStartDate t; taskEndDate := taskEndDate t;
     color := color t; order := order t; scaleSchedule := Some s |}.

(** [updateTask(id, { scaleSchedule })] *)
Definition updateTask (ident : string) (s : ScaleBasedSchedule)
  (tasks : list Task) : list Task :=
  map (fun t => if String.eqb (id t) ident then withSchedule t s else t) tasks.

(** ** components/chart/TaskBar *)

Inductive DragType : Type := move | resize_start | resize_end.

Record BarPosition : Type := mkBarPosition {
  left : Q;
  width : Q
}.

Module TaskBar.

Section Component.
Variable task : Task.
Variable project : Project.
Variable cellWidth : Q.

Definition hourSettings : HourScaleSettings :=
  match hourScaleSettings project with
  | Some h => h
  | None => DEFAULT_HOUR_SCALE_SETTINGS
  end.
Definition startMinutes : Z := startHour hourSettings * 60.
Definition endMinutes : Z := endHour hourSettings * 60.

Definition daySettings : DayScaleSettings :=
  match dayScaleSettings project with
  | Some d => d
  | None => DEFAULT_DAY_SCALE_SETTINGS
  end.

Definition getScaleValue (field : Field) : Z :=
  field_get (sched_get (scheduleOrDefault task) (viewScale project)) field.

Definition getMinValue : Z :=
  match viewScale project with
  | Hour => startMinutes
  | _ => 1
  end.

Definition getMaxValue : Z :=
  match viewScale project with
  | Hour => endMinutes
  | Day => dayCount daySettings
  | Week => weekCount daySettings
  | Month => monthCount daySettings
  end.

(** [left] and [width] are the exact products; the source rounds each
    operation to binary64 ([TaskBar64.barLeft] below), which gives the same
    numbers wherever the exact ones are integers below 2^53. *)
Definition getBarPosition : BarPosition :=
  let startValue := getScaleValue FStart in
  let endValue := getScaleValue FEnd in
  let '(startOffset, duration) :=
    match viewScale project with
    | Hour =>
        ((inject_Z (startValue - startMinutes) / 5)%Q,
         (inject_Z (endValue - startValue) / 5 + 1)%Q)
    | _ =>
        (inject_Z (startValue - 1), inject_Z (endValue - startValue + 1))
    end in
  {| left := (Qmax 0 startOffset * cellWidth)%Q;
     width := (Qmax 1 duration * cellWidth - 4)%Q |}.

(** The [newSchedule] that [updateScaleValue] hands to [onUpdate]. *)
Definition updateScaleValue (field : Field) (value : Z)
  : ScaleBasedSchedule :=
  let currentSchedule := scheduleOrDefault task in
  let scale := viewScale project in
  let clampedValue := Z.max getMinValue (Z.min getMaxValue value) in
  sched_set currentSchedule scale
    (field_set (sched_get currentSchedule scale) field clampedValue).

(** [Math.floor(relativeX / cellWidth)], on the exact quotient.  The
    source floors the quotient rounded to binary64 ([TaskBar64.cellIndexAt]
    below): the same index at an integer cell width, while at another
    width the two can differ by one.  The index enters the gesture only as
    the candidate value of [handleMouseMove]. *)
Definition cellIndexAt (relativeX : Q) : Z :=
  Qfloor (relativeX / cellWidth).

(** The [newValue] of a pointer position. *)
Definition newValueAt (relativeX : Q) : Z :=
  let cellIndex := cellIndexAt relativeX in
  match viewScale project with
  | Hour => startMinutes + cellIndex * 5
  | _ => cellIndex + 1
  end.

(** One pointer-move frame.  [Some s] is the call
    [onUpdate(task.id, { scaleSchedule: s })]; [None] is a frame that
    calls nothing. *)
Definition handleMouseMove (dragType : DragType)
  (dragStartValues : Interval) (relativeX : Q)
  : option ScaleBasedSchedule :=
  let minValue := getMinValue in
  let maxValue := getMaxValue in
  let newValue := newValueAt relativeX in
  match dragType with
  | move =>
      let duration := end_ dragStartValues - start dragStartValues in
      let newStart :=
        Z.max minValue (Z.min (maxValue - duration) newValue) in
      let newEnd := newStart + duration in
      let currentSchedule := scheduleOrDefault task in
      Some (sched_set currentSchedule (viewScale project)
              {| start := newStart; end_ := newEnd |})
  | resize_start =>
      let currentEnd := getScaleValue FEnd in
      if (newValue <? currentEnd) && (newValue >=? minValue)
      then Some (updateScaleValue FStart newValue)
      else None
  | resize_end =>
      let currentStart := getScaleValue FStart in
      let increment :=
        match viewScale project with Hour => 5 | _ => 1 end in
      let endValue := newValue + increment in
      if (endValue >? currentStart) && (endValue <=? maxValue)
      then Some (updateScaleValue FEnd endValue)
      else None
  end.
End Component.

(** *** The gesture state of the component

    [isDragging], [dragType], [dragStartX], [dragStartValues] are the four
    [useState] cells; the window listeners exist only while the effect's
    guard [isDragging && dragType && dragStartValues] holds. *)
Record Gesture : Type := mkGesture {
  isDragging : bool;
  dragType : option DragType;
  dragStartX : Q;
  dragStartValues : option Interval
}.

Definition idle : Gesture :=
  {| isDragging := false; dragType := None; dragStartX := 0%Q;
     dragStartValues := None |}.

Inductive Event : Type :=
| MouseDown (type : DragType) (clientX : Q)
| MouseMove (relativeX : Q)
| MouseUp.

Definition handleMouseDown (task : Task) (project : Project)
  (type : DragType) (clientX : Q) : Gesture :=
  {| isDragging := true; dragType := Some type; dragStartX := clientX;
     dragStartValues :=
       Some {| start := getScaleValue task project FStart;
               end_ := getScaleValue task project FEnd |} |}.

Definition handleMouseUp (g : Gesture) : Gesture :=
  {| isDragging := false; dragType := None; dragStartX := dragStartX g;
     dragStartValues := dragStartValues g |}.

(** The guard of the effect that installs the window listeners:
    [if (!isDragging || !dragType || !dragStartValues) return;]. *)
Definition listening (g : Gesture) : option (DragType * Interval) :=
  match isDragging g, dragType g, dragStartValues g with
  | true, Some ty, Some origin => Some (ty, origin)
  | _, _, _ => None
  end.

(** The component together with the store entry of its task. *)
Definition step (project : Project) (cellWidth : Q)
  (st : Task * Gesture) (ev : Event) : Task * Gesture :=
  let '(task, g) := st in
  match ev with
  | MouseDown type clientX =>
      (task, handleMouseDown task project type clientX)
  | MouseMove relativeX =>
      match listening g with
      | Some (ty, origin) =>
          match handleMouseMove task project cellWidth ty origin relativeX
          with
          | Some s => (withSchedule task s, g)
          | None => (task, g)
          end
      | None => (task, g)
      end
  | MouseUp =>
      match listening g with
      | Some _ => (task, handleMouseUp g)
      | None => (task, g)
      end
  end.

Definition run (project : Project) (cellWidth : Q)
  (st : Task * Gesture) (evs : list Event) : Task * Gesture :=
  fold_left (step project cellWidth) evs st.

End TaskBar.

(** *** The pixel arithmetic of the task bar in binary64

    The left edge of [getBarPosition] and the cell index of
    [handleMouseMove] as the source computes them.  Schedule values are
    integers; the quotient by 5, the product with the cell width and the
    quotient by the cell width are binary64 operations. *)
Module TaskBar64.

Section Component.
Variable task : Task.
Variable project : Project.
Variable cellWidth : Double.t.

Definition startOffset : Double.t :=
  let startValue := TaskBar.getScaleValue task project FStart in
  match viewScale project with
  | Hour =>
      Double.div (Double.ofZ (startValue - TaskBar.startMinutes project))
                 (Double.ofZ 5)
  | _ => Double.ofZ (startValue - 1)
  end.

(** [Math.max(0, startOffset) * cellWidth] *)
Definition barLeft : Double.t :=
  Double.mul (Double.max (Double.ofZ 0) startOffset) cellWidth.

(** [Math.floor(relativeX / cellWidth)] *)
Definition cellIndexAt (relativeX : Double.t) : option Z :=
  Double.floor (Double.div relativeX cellWidth).

(** The [newValue] of a pointer position, when the cell index is an
    integer. *)
Definition newValueAt (relativeX : Double.t) : option Z :=
  match cellIndexAt relativeX with
  | Some cellIndex =>
      Some match viewScale project with
           | Hour => TaskBar.startMinutes project + cellIndex * 5
           | _ => cellIndex + 1
           end
  | None => None
  end.
End Component.

End TaskBar64.

(** ** components/chart/ChartCalendar *)

Inductive InputEvent : Type :=
| HoursInput (field : Field) (parsed : option Z)
| MinutesInput (field : Field) (parsed : option Z)
| ValueInput (field : Field) (parsed : option Z).

(** [String.prototype.trim].  A string holds the UTF-8 bytes of the
    JavaScript string.  [trim] takes the white space and the line
    terminators of ECMAScript off both ends: U+0009 to U+000D, U+0020,
    U+00A0, U+1680, U+2000 to U+200A, U+2028, U+2029, U+202F, U+205F, U+3000
    and U+FEFF, which are one, two or three bytes long. *)
Definition is_space (c : ascii) : bool :=
  let n := nat_of_ascii c in
  (n =? 32)%nat || ((9 <=? n)%nat && (n <=? 13)%nat).

(** U+00A0 is C2 A0. *)
Definition is_space2 (c1 c2 : ascii) : bool :=
  ((nat_of_ascii c1 =? 194) && (nat_of_ascii c2 =? 160))%nat.

(** U+1680 is E1 9A 80; U+2000 to U+200A, U+2028, U+2029 and U+202F are
    E2 80 followed by 80 to 8A, A8, A9 and AF; U+205F is E2 81 9F; U+3000 is
    E3 80 80; U+FEFF is EF BB BF. *)
Definition is_space3 (c1 c2 c3 : ascii) : bool :=
  let n1 := nat_of_ascii c1 in
  let n2 := nat_of_ascii c2 in
  let n3 := nat_of_ascii c3 in
  (((n1 =? 225) && (n2 =? 154) && (n3 =? 128))
   || ((n1 =? 226) && (n2 =? 128)
       && (((128 <=? n3) && (n3 <=? 138))
           || (n3 =? 168) || (n3 =? 169) || (n3 =? 175)))
   || ((n1 =? 226) && (n2 =? 129) && (n3 =? 159))
   || ((n1 =? 227) && (n2 =? 128) && (n3 =? 128))
   || ((n1 =? 239) && (n2 =? 187) && (n3 =? 191)))%nat.

(** The bytes left when the white space at the head is taken off. *)
Fixpoint trim_start (l : list ascii) : list ascii :=
  match l with
  | [] => []
  | c1 :: r1 =>
      if is_space c1 then trim_start r1
      else
        match r1 with
        | [] => l
        | c2 :: r2 =>
            if is_space2 c1 c2 then trim_start r2
            else
              match r2 with
              | [] => l
              | c3 :: r3 => if is_space3 c1 c2 c3 then trim_start r3 else l
              end
        end
  end.

(** The same on the bytes read from the end, where the bytes of a
    character come last first. *)
Fixpoint trim_end_reversed (l : list ascii) : list ascii :=
  match l with
  | [] => []
  | c1 :: r1 =>
      if is_space c1 then trim_end_reversed r1
      else
        match r1 with
        | [] => l
        | c2 :: r2 =>
            if is_space2 c2 c1 then trim_end_reversed r2
            else
              match r2 with
              | [] => l
              | c3 :: r3 =>
                  if is_space3 c3 c2 c1 then trim_end_reversed r3 else l
              end
        end
  end.

Definition trim (s : string) : string :=
  string_of_list_ascii
    (rev (trim_end_reversed (rev (trim_start (list_ascii_of_string s))))).

Module ChartCalendar.

Section Component.
Variable project : Project.
Variable tasks : list Task.

Definition hourSettings : HourScaleSettings :=
  match hourScaleSettings project with
  | Some h => h
  | None => DEFAULT_HOUR_SCALE_SETTINGS
  end.
Definition startMinutes : Z := startHour hourSettings * 60.
Definition endMinutes : Z := endHour hourSettings * 60.

Definition daySettings : DayScaleSettings :=
  match dayScaleSettings project with
  | Some d => d
  | None => DEFAULT_DAY_SCALE_SETTINGS
  end.

Definition getScaleValue (task : Task) (field : Field) : Z :=
  field_get (sched_get (scheduleOrDefault task) (viewScale project)) field.

(** The [newSchedule] sent to [updateTask]; the value is written as it
    comes. *)
Definition updateScaleValue (task : Task) (field : Field) (value : Z)
  : ScaleBasedSchedule :=
  let currentSchedule := scheduleOrDefault task in
  let scale := viewScale project in
  sched_set currentSchedule scale
    (field_set (sched_get currentSchedule scale) field value).

Definition getMinValue : Z :=
  match viewScale project with
  | Hour => startMinutes
  | _ => 1
  end.

Definition getMaxValue : Z :=
  match viewScale project with
  | Hour => endMinutes
  | Day => dayCount daySettings
  | Week => weekCount daySettings
  | Month => monthCount daySettings
  end.

Definition minutesToHoursAndMinutes (minutes : Z) : Z * Z :=
  (minutes / 60, js_rem minutes 60).

Definition hoursAndMinutesToMinutes (hours minutes : Z) : Z :=
  let roundedMinutes := round5 minutes in
  hours * 60 + roundedMinutes.

(** The body of [for (let m = ...; m <= endMinutes; m += 5) slots.push(m)]. *)
Equations? timeSlotsLoop (endM : Z) (slots : list Z) (m : Z) : list Z
  by wf (Z.to_nat (endM - m + 1)) lt :=
timeSlotsLoop endM slots m with Z_le_dec m endM := {
  | Specif.left _ => timeSlotsLoop endM (slots ++ [m]) (m + 5)
  | Specif.right _ => slots }.
Proof. lia. Qed.

Definition timeSlots : list Z := timeSlotsLoop endMinutes [] startMinutes.

Definition cellWidth : Q :=
  match viewScale project with
  | Hour => 24
  | Day => 32
  | Week => 20
  | Month => 14
  end.

(** The calendar's own [getTaskBarStyle].  The component never calls it:
    each row renders a [TaskBar], which is handed [cellWidth]. *)
Definition getTaskBarStyle (task : Task) : BarPosition :=
  let startValue := getScaleValue task FStart in
  let endValue := getScaleValue task FEnd in
  let '(startOffset, duration) :=
    match viewScale project with
    | Hour =>
        ((inject_Z (startValue - startMinutes) / 5)%Q,
         (inject_Z (endValue - startValue) / 5 + 1)%Q)
    | _ =>
        (inject_Z (startValue - 1), inject_Z (endValue - startValue + 1))
    end in
  {| left := (startOffset * cellWidth)%Q;
     width := (Qmax duration 1 * cellWidth - 4)%Q |}.

(** The record handed to [addTask], or [None] when the trimmed name is
    empty and the handler returns at once.  The [id] is filled in by the
    store.  [tasks[tasks.length - 1]] is [nth_error] at [length - 1], which
    is [None] exactly when [tasks.length > 0] fails. *)
Definition handleAddTask (newTaskName : string) : option Task :=
  if String.eqb (trim newTaskName) EmptyString then None
  else
    let scaleSchedule :=
      match viewScale project, nth_error tasks (List.length tasks - 1) with
      | Hour, Some lastTask =>
          let lastSchedule := scheduleOrDefault lastTask in
          let lastEndTime :=
            js_or (end_ (hour lastSchedule))
                  (end_ (hour DEFAULT_SCALE_SCHEDULE)) in
          Some {| hour := {| start := lastEndTime;
                             end_ := lastEndTime + 60 |};
                  day := day DEFAULT_SCALE_SCHEDULE;
                  week := week DEFAULT_SCALE_SCHEDULE;
                  month := month DEFAULT_SCALE_SCHEDULE |}
      | _, _ => None
      end in
    Some {| id := EmptyString; projectId := projectIdent project; tradeId := None;
            name := trim newTaskName; assignee := EmptyString;
            taskStartDate := startDate project;
            taskEndDate := startDate project; color := None;
            order := Z.of_nat (List.length tasks);
            scaleSchedule := scaleSchedule |}.

(** The [onChange] handlers of the start and end cells; the two cells run
    the same code on their own field. *)
Definition hoursOnChange (task : Task) (field : Field) (parsed : option Z)
  : ScaleBasedSchedule :=
  let '(_, minutes) := minutesToHoursAndMinutes (getScaleValue task field) in
  let h := parsed_or parsed (startHour hourSettings) in
  let clampedH :=
    Z.max (startHour hourSettings) (Z.min (endHour hourSettings) h) in
  let newMinutes := hoursAndMinutesToMinutes clampedH minutes in
  updateScaleValue task field
    (Z.max startMinutes (Z.min endMinutes newMinutes)).

Definition minutesOnChange (task : Task) (field : Field) (parsed : option Z)
  : ScaleBasedSchedule :=
  let '(hours, _) := minutesToHoursAndMinutes (getScaleValue task field) in
  let m := parsed_or parsed 0 in
  let roundedM := round5 m in
  let clampedM := Z.max 0 (Z.min 55 roundedM) in
  let newMinutes := hoursAndMinutesToMinutes hours clampedM in
  updateScaleValue task field
    (Z.max startMinutes (Z.min endMinutes newMinutes)).

Definition valueOnChange (task : Task) (field : Field) (parsed : option Z)
  : ScaleBasedSchedule :=
  let value := parsed_or parsed getMinValue in
  updateScaleValue task field
    (Z.max getMinValue (Z.min (js_or getMaxValue 999) value)).

(** The hour scale renders the hours and minutes inputs, the other scales
    the single value input; an input that is not rendered cannot fire. *)
Definition onInput (task : Task) (ev : InputEvent) : Task :=
  match viewScale project, ev with
  | Hour, HoursInput f v => withSchedule task (hoursOnChange task f v)
  | Hour, MinutesInput f v => withSchedule task (minutesOnChange task f v)
  | Hour, ValueInput _ _ => task
  | _, ValueInput f v => withSchedule task (valueOnChange task f v)
  | _, _ => task
  end.
End Component.

End ChartCalendar.

(** ** components/chart/PrintPreview and the export modal

    Both carry their own copy of [getTaskBarStyle]; they differ only in the
    cell widths.  Their [getScaleValue] and [startMinutes] are the same text
    as the calendar's. *)
Module PrintPreview.

Section Component.
Variable project : Project.

Definition cellWidth : Q :=
  match viewScale project with
  | Hour => 12
  | Day => 20
  | Week => 14
  | Month => 10
  end.

Definition getTaskBarStyle (task : Task) : BarPosition :=
  let startValue := ChartCalendar.getScaleValue project task FStart in
  let endValue := ChartCalendar.getScaleValue project task FEnd in
  let startMinutes := ChartCalendar.startMinutes project in
  let '(startOffset, duration) :=
    match viewScale project with
    | Hour =>
        ((inject_Z (startValue - startMinutes) / 5)%Q,
         (inject_Z (endValue - startValue) / 5 + 1)%Q)
    | _ =>
        (inject_Z (startValue - 1), inject_Z (endValue - startValue + 1))
    end in
  {| left := (Qmax 0 startOffset * cellWidth)%Q;
     width := (Qmax 1 duration * cellWidth - 2)%Q |}.
End Component.

End PrintPreview.

Module ExportModal.

Section Component.
Variable project : Project.

Definition cellWidth : Q :=
  match viewScale project with
  | Hour => 12
  | Day => 24
  | Week => 16
  | Month => 12
  end.

Definition getTaskBarStyle (task : Task) : BarPosition :=
  let startValue := ChartCalendar.getScaleValue project task FStart in
  let endValue := ChartCalendar.getScaleValue project task FEnd in
  let startMinutes := ChartCalendar.startMinutes project in
  let '(startOffset, duration) :=
    match viewScale project with
    | Hour =>
        ((inject_Z (startValue - startMinutes) / 5)%Q,
         (inject_Z (endValue - startValue) / 5 + 1)%Q)
    | _ =>
        (inject_Z (startValue - 1), inject_Z (endValue - startValue + 1))
    end in
  {| left := (Qmax 0 startOffset * cellWidth)%Q;
     width := (Qmax 1 duration * cellWidth - 2)%Q |}.
End Component.

End ExportModal.

(** ** lib/holidays

    A [Date] is used by this module only through its local calendar day
    ([format(date, 'yyyy-MM-dd')], [isSaturday], [isSunday], [addDays]); it is
    modelled as the number of days since 1970-01-01, a Thursday.  The functions
    of date-fns are modelled on that representation. *)
Definition Date : Type := Z.

(** Year, month and day of a day number (proleptic Gregorian calendar). *)
Definition civil (d : Date) : Z * Z * Z :=
  let z := d + 719468 in
  let era := z / 146097 in
  let doe := z - era * 146097 in
  let yoe := (doe - doe / 1460 + doe / 36524 - doe / 146096) / 365 in
  let doy := doe - (365 * yoe + yoe / 4 - yoe / 100) in
  let mp := (5 * doy + 2) / 153 in
  let dd := doy - (153 * mp + 2) / 5 + 1 in
  let mm := if mp <? 10 then mp + 3 else mp - 9 in
  let yy := yoe + era * 400 + (if mm <=? 2 then 1 else 0) in
  (yy, mm, dd).

Definition digit (n : Z) : ascii := ascii_of_nat (48 + Z.to_nat (n mod 10)).

Definition pad2 (n : Z) : string :=
  String (digit (n / 10)) (String (digit n) EmptyString).

Definition pad4 (n : Z) : string :=
  String (digit (n / 1000)) (String (digit (n / 100)) (pad2 n)).

(** [format(date, 'yyyy-MM-dd')], for the years 0 to 9999. *)
Definition format_yyyy_MM_dd (d : Date) : string :=
  let '(yy, mm, dd) := civil d in
  (pad4 yy ++ "-" ++ pad2 mm ++ "-" ++ pad2 dd)%string.

(** [date.getDay()], 0 for Sunday. *)
Definition getDay (d : Date) : Z := (d + 4) mod 7.
Definition isSaturday (d : Date) : bool := getDay d =? 6.
Definition isSunday (d : Date) : bool := getDay d =? 0.
Definition addDays (d : Date) (n : Z) : Date := d + n.

(** The loop of [eachDayOfInterval]: the days from [date] on, one by one,
    while they are not after [endTime]. *)
Definition daysUpTo (date endTime : Date) : list Date :=
  map (fun k => date + Z.of_nat k) (seq 0 (Z.to_nat (endTime - date + 1))).

(** [array.includes(s)] on strings. *)
Definition includes (l : list string) (s : string) : bool :=
  existsb (String.eqb s) l.

Module Holidays.

Section Library.
(** The holiday table of the package holiday_jp. *)
Variable jpIsHoliday : Date -> bool.

Definition isHoliday (date : Date) : bool := jpIsHoliday date.

Definition isNonWorkday (date : Date) (settings : WorkdaySettings) : bool :=
  let dateStr := format_yyyy_MM_dd date in
  if includes (customWorkdays settings) dateStr then false
  else if includes (customHolidays settings) dateStr then true
  else if skipSaturday settings && isSaturday date then true
  else if skipSunday settings && isSunday date then true
  else if skipHolidays settings && isHoliday date then true
  else false.

(** [eachDayOfInterval({ start, end })]: the days from [start] to [end].
    When [end] is before [start], date-fns (version 3 and later) walks from
    [end] up to [start] and reverses the list, so that the days run from
    [start] back to [end]. *)
Definition eachDayOfInterval (start_ end__ : Date) : list Date :=
  let reversed := end__ <? start_ in
  let endTime := if reversed then start_ else end__ in
  let date := if reversed then end__ else start_ in
  let dates := daysUpTo date endTime in
  if reversed then rev dates else dates.

Definition countWorkdays (start_ end__ : Date) (settings : WorkdaySettings)
  : Z :=
  let days := eachDayOfInterval start_ end__ in
  Z.of_nat
    (List.length (filter (fun d => negb (isNonWorkday d settings)) days)).

(** The loop of [addWorkdays] from the state [(current, count)].  The loop
    has no bound of its own (it spins for ever when no later day is a working
    day), so the model counts the remaining iterations: [None] means that
    [fuel] iterations did not reach [count >= workdays]. *)
Fixpoint addWorkdaysLoop (fuel : nat) (settings : WorkdaySettings)
  (workdays : Z) (current : Date) (count : Z) : option Date :=
  if count <? workdays then
    match fuel with
    | O => None
    | S fuel' =>
        let current' := addDays current 1 in
        if negb (isNonWorkday current' settings)
        then addWorkdaysLoop fuel' settings workdays current' (count + 1)
        else addWorkdaysLoop fuel' settings workdays current' count
    end
  else Some current.

Definition addWorkdays (fuel : nat) (start_ : Date) (workdays : Z)
  (settings : WorkdaySettings) : option Date :=
  addWorkdaysLoop fuel settings workdays start_ 0.
End Library.

End Holidays.

(** ** Specification-side definitions

    The definitions below follow the words of the specification; the
    theorems compare them with the code above. *)
Module Spec.

(** "Evaluated in strict precedence order (first match wins)": a rule is a
    condition with the answer it gives. *)
Fixpoint firstMatch (rules : list (bool * bool)) (otherwise : bool) : bool :=
  match rules with
  | (cond, answer) :: rest => if cond then answer else firstMatch rest otherwise
  | [] => otherwise
  end.

(** The five rules of CalendarRules, in the order of the specification. *)
Definition calendarRules (isNationalHoliday : Date -> bool)
  (date : Date) (rules : WorkdaySettings) : list (bool * bool) :=
  [ (includes (customWorkdays rules) (format_yyyy_MM_dd date), false);
    (includes (customHolidays rules) (format_yyyy_MM_dd date), true);
    (skipSaturday rules && isSaturday date, true);
    (skipSunday rules && isSunday date, true);
    (skipHolidays rules && isNationalHoliday date, true) ].

(** "Hour: value rounded to nearest multiple of 5, then bounded to
    [startMinutes, endMinutes]". *)
Definition clampHour (startMinutes endMinutes rawValue : Z) : Z :=
  Z.max startMinutes (Z.min endMinutes (round5 rawValue)).

(** "every minute-of-day value from startHour*60 to endHour*60 inclusive,
    stepping by 5". *)
Definition hourGrid (startHour endHour : Z) : list Z :=
  map (fun k => startHour * 60 + 5 * Z.of_nat k)
      (seq 0 (Z.to_nat ((endHour - startHour) * 12 + 1))).

(** "start <= end" for the interval a task resolves to on a scale. *)
Definition ordered (i : Interval) : Prop := start i <= end_ i.

End Spec.

(** [resolve(task, scale)]: the interval of the task on a scale, with the
    default for a task without schedule; this is [getScaleValue] of the
    components read for both fields. *)
Definition resolve (t : Task) (sc : ViewScale) : Interval :=
  sched_get (scheduleOrDefault t) sc.

(** ** The chart editor as one machine

    The calendar renders one [TaskBar] per task with its own [cellWidth] and
    the input cells next to it; both write to the same store entry. *)
Module App.

Inductive UIEvent : Type :=
| Pointer (ev : TaskBar.Event)
| Input (ev : InputEvent).

Definition step (project : Project) (st : Task * TaskBar.Gesture)
  (ev : UIEvent) : Task * TaskBar.Gesture :=
  match ev with
  | Pointer e => TaskBar.step project (ChartCalendar.cellWidth project) st e
  | Input e => (ChartCalendar.onInput project (fst st) e, snd st)
  end.

Definition run (project : Project) (st : Task * TaskBar.Gesture)
  (evs : list UIEvent) : Task * TaskBar.Gesture :=
  fold_left (step project) evs st.

End App.

(** ** Invariants *)

(** [start <= end] on each of the four scales. *)
Definition wellOrdered (t : Task) : Prop :=
  forall sc : ViewScale, Spec.ordered (resolve t sc).

(** The interval captured at pointer-down, if any, has [start <= end]. *)
Definition originOrdered (g : TaskBar.Gesture) : Prop :=
  match TaskBar.dragStartValues g with
  | Some o => Spec.ordered o
  | None => True
  end.

(** Both fields on the 5-minute grid ([% 5 == 0]). *)
Definition aligned5 (i : Interval) : Prop :=
  js_rem (start i) 5 = 0 /\ js_rem (end_ i) 5 = 0.

Definition hourAligned (t : Task) : Prop := aligned5 (resolve t Hour).

(** The duration captured at pointer-down is a whole number of 5-minute
    cells. *)
Definition originAligned (g : TaskBar.Gesture) : Prop :=
  match TaskBar.dragStartValues g with
  | Some o => js_rem (end_ o - start o) 5 = 0
  | None => True
  end.

(** ** Concrete projects and tasks used in the examples *)
Module Fixture.

Definition projectOn (sc : ViewScale) (h : option HourScaleSettings)
  (d : option DayScaleSettings) : Project :=
  {| projectIdent := "p"; startDate := "2024-04-01"; isProvisional := false;
     viewScale := sc; workdaySettings := DEFAULT_WORKDAY_SETTINGS;
     hourScaleSettings := h; dayScaleSettings := d |}.

Definition taskWith (s : option ScaleBasedSchedule) : Task :=
  {| id := "t"; projectId := "p"; tradeId := None; name := "frame";
     assignee := EmptyString; taskStartDate := "2024-04-01";
     taskEndDate := "2024-04-01"; color := None; order := 0;
     scaleSchedule := s |}.

(** A task that was never scheduled. *)
Definition freshTask : Task := taskWith None.

Definition hourProject : Project := projectOn Hour None None.
Definition hourProject_8_18 : Project :=
  projectOn Hour (Some {| startHour := 8; endHour := 18 |}) None.
Definition hourProject_10_18 : Project :=
  projectOn Hour (Some {| startHour := 10; endHour := 18 |}) None.
Definition hourProject_0_18 : Project :=
  projectOn Hour (Some {| startHour := 0; endHour := 18 |}) None.
Definition dayProject : Project := projectOn Day None None.
Definition dayProject_3 : Project :=
  projectOn Day None
    (Some {| dayCount := 3; weekCount := 30; monthCount := 60 |}).

(** 9:35 to 10:00 on the hour scale. *)
Definition task_0935 : Task :=
  taskWith (Some (sched_set DEFAULT_SCALE_SCHEDULE Hour
                    {| start := 575; end_ := 600 |})).

(** Days 2 to 4 on the day scale. *)
Definition task_d2_4 : Task :=
  taskWith (Some (sched_set DEFAULT_SCALE_SCHEDULE Day
                    {| start := 2; end_ := 4 |})).

(** Days 4 to 6 on the day scale. *)
Definition task_d4_6 : Task :=
  taskWith (Some (sched_set DEFAULT_SCALE_SCHEDULE Day
                    {| start := 4; end_ := 6 |})).

(** The number 0.7. *)
Definition width_0_7 : Double.t := Double.div (Double.ofZ 7) (Double.ofZ 10).

(** 2024-01-01 is day 19723. *)
Definition newYear2024 : Date := 19723.

Definition rulesBothOverrides : WorkdaySettings :=
  {| skipSaturday := true; skipSunday := true; skipHolidays := true;
     customHolidays := ["2024-01-01"%string];
     customWorkdays := ["2023-12-31"; "2024-01-01"]%string;
     showOnlyWorkdays := false |}.

Definition rulesNoSkip : WorkdaySettings :=
  {| skipSaturday := false; skipSunday := false; skipHolidays := false;
     customHolidays := []; customWorkdays := []; showOnlyWorkdays := false |}.

Definition onlyNewYear (d : Date) : bool := d =? newYear2024.

End Fixture.

(** ** Further invariants of the editor *)

(** The interval of the active scale lies in the window and is ordered:
    [minValue <= start <= end <= maxValue]. *)
Definition inWindow (project : Project) (t : Task) : Prop :=
  TaskBar.getMinValue project <= start (resolve t (viewScale project)) /\
  start (resolve t (viewScale project)) <= end_ (resolve t (viewScale project)) /\
  end_ (resolve t (viewScale project)) <= TaskBar.getMaxValue project.

(** The interval captured at pointer-down is not longer than the window. *)
Definition originFits (project : Project) (g : TaskBar.Gesture) : Prop :=
  match TaskBar.dragStartValues g with
  | Some o =>
      0 <= end_ o - start o
      <= TaskBar.getMaxValue project - TaskBar.getMinValue project
  | None => True
  end.

(** The field an input event edits. *)
Definition inputField (ev : InputEvent) : Field :=
  match ev with
  | HoursInput f _ => f
  | MinutesInput f _ => f
  | ValueInput f _ => f
  end.

(** The input cell of the event is rendered on the scale. *)
Definition inputRendered (sc : ViewScale) (ev : InputEvent) : bool :=
  match sc, ev with
  | Hour, HoursInput _ _ => true
  | Hour, MinutesInput _ _ => true
  | Hour, ValueInput _ _ => false
  | _, ValueInput _ _ => true
  | _, _ => false
  end.

(** ** components/chart/ChartCalendar: date columns and month header *)

(** The two ideographs of the format ['yyyy年M月'], as UTF-8 bytes. *)
Definition kanjiYear : string :=
  String (ascii_of_nat 229) (String (ascii_of_nat 185)
    (String (ascii_of_nat 180) EmptyString)).
Definition kanjiMonth : string :=
  String (ascii_of_nat 230) (String (ascii_of_nat 156)
    (String (ascii_of_nat 136) EmptyString)).

(** [format(date, 'yyyy年M月', { locale: ja })], for the years 0 to 9999:
    the month is printed without a leading zero. *)
Definition formatMonthHeader (d : Date) : string :=
  let '(yy, mm, _) := civil d in
  let monthText :=
    if mm <? 10 then String (digit mm) EmptyString else pad2 mm in
  (pad4 yy ++ kanjiYear ++ monthText ++ kanjiMonth)%string.

(** A string is truthy when it is not empty. *)
Definition truthy (s : string) : bool := negb (String.eqb s EmptyString).

Module CalendarGrid.

(** The [forEach] of [monthGroups] from the state
    [(groups, currentMonth, count)]. *)
Fixpoint monthGroupsLoop (ds : list Date) (groups : list (string * Z))
  (currentMonth : string) (count : Z) : list (string * Z) * string * Z :=
  match ds with
  | [] => (groups, currentMonth, count)
  | date :: rest =>
      let month := formatMonthHeader date in
      if negb (String.eqb month currentMonth) then
        let groups' :=
          if truthy currentMonth then groups ++ [(currentMonth, count)]
          else groups in
        monthGroupsLoop rest groups' month 1
      else monthGroupsLoop rest groups currentMonth (count + 1)
  end.

(** The loop followed by the final [if (currentMonth) groups.push(...)]. *)
Definition groupByMonth (ds : list Date) : list (string * Z) :=
  let '(groups, currentMonth, count) := monthGroupsLoop ds [] EmptyString 0 in
  if truthy currentMonth then groups ++ [(currentMonth, count)] else groups.

Section Component.
(** [parseISO] of date-fns. *)
Variable parseISO : string -> Date.
Variable project : Project.

Definition dates : list Date :=
  let start_ := parseISO (startDate project) in
  let daySettings := ChartCalendar.daySettings project in
  match viewScale project with
  | Hour => []
  | Day =>
      Holidays.eachDayOfInterval start_
        (addDays start_ (dayCount daySettings - 1))
  | Week =>
      Holidays.eachDayOfInterval start_
        (addDays start_ (weekCount daySettings - 1))
  | Month =>
      Holidays.eachDayOfInterval start_
        (addDays start_ (monthCount daySettings - 1))
  end.

(** [monthGroups] of the calendar. *)
Definition monthGroups : list (string * Z) :=
  match viewScale project with
  | Hour => []
  | _ => groupByMonth dates
  end.

(** [monthGroups] of the print preview and of the export modal, which also
    drop the month header of a provisional project. *)
Definition previewMonthGroups : list (string * Z) :=
  if isProvisional project
     || match viewScale project with Hour => true | _ => false end
  then []
  else groupByMonth dates.

(** The [colSpan] of the bar cell: the number of grid columns. *)
Definition columns : nat :=
  match viewScale project with
  | Hour => List.length (ChartCalendar.timeSlots project)
  | _ => List.length dates
  end.
End Component.

(** The text a month header spells out, one label per date column. *)
Definition expand (groups : list (string * Z)) : list string :=
  flat_map (fun g => repeat (fst g) (Z.to_nat (snd g))) groups.

End CalendarGrid.

(** ** components/chart/WorkdaySettings

    Each handler is given with the merge that the editor applies to its
    patch, [{ ...project.workdaySettings, ...settings }]. *)
Module WorkdaySettingsPanel.

Definition withCustomHolidays (s : WorkdaySettings) (l : list string)
  : WorkdaySettings :=
  {| skipSaturday := skipSaturday s; skipSunday := skipSunday s;
     skipHolidays := skipHolidays s; customHolidays := l;
     customWorkdays := customWorkdays s;
     showOnlyWorkdays := showOnlyWorkdays s |}.

Definition withCustomWorkdays (s : WorkdaySettings) (l : list string)
  : WorkdaySettings :=
  {| skipSaturday := skipSaturday s; skipSunday := skipSunday s;
     skipHolidays := skipHolidays s; customHolidays := customHolidays s;
     customWorkdays := l;
     showOnlyWorkdays := showOnlyWorkdays s |}.

Definition handleAddHoliday (settings : WorkdaySettings)
  (newHoliday : string) : WorkdaySettings :=
  if negb (truthy newHoliday) then settings
  else withCustomHolidays settings (customHolidays settings ++ [newHoliday]).

Definition handleRemoveHoliday (settings : WorkdaySettings) (date : string)
  : WorkdaySettings :=
  withCustomHolidays settings
    (filter (fun d => negb (String.eqb d date)) (customHolidays settings)).

Definition handleAddWorkday (settings : WorkdaySettings)
  (newWorkday : string) : WorkdaySettings :=
  if negb (truthy newWorkday) then settings
  else withCustomWorkdays settings (customWorkdays settings ++ [newWorkday]).

Definition handleRemoveWorkday (settings : WorkdaySettings) (date : string)
  : WorkdaySettings :=
  withCustomWorkdays settings
    (filter (fun d => negb (String.eqb d date)) (customWorkdays settings)).

End WorkdaySettingsPanel.

(** ** components/chart/ScaleSelector, with the handlers of the editor

    The values come from [<select>] options, which are numbers. *)
Module ScaleSelector.

Definition hourOptions : list Z := map Z.of_nat (seq 0 25).
Definition dayCountOptions : list Z := [3; 5; 7; 10; 14; 21; 28; 30].
Definition weekCountOptions : list Z := [7; 14; 21; 28; 30; 45; 60; 90].
Definition monthCountOptions : list Z := [30; 45; 60; 90; 120; 180; 365].

Inductive Event : Type :=
| SelectScale (sc : ViewScale)
| SelectStartHour (v : Z)
| SelectEndHour (v : Z)
| SelectDayCount (v : Z)
| SelectWeekCount (v : Z)
| SelectMonthCount (v : Z).

(** [updateProject(projectId, { viewScale })] and its two siblings. *)
Definition withViewScale (p : Project) (sc : ViewScale) : Project :=
  {| projectIdent := projectIdent p; startDate := startDate p;
     isProvisional := isProvisional p; viewScale := sc;
     workdaySettings := workdaySettings p;
     hourScaleSettings := hourScaleSettings p;
     dayScaleSettings := dayScaleSettings p |}.

Definition withHourSettings (p : Project) (h : HourScaleSettings) : Project :=
  {| projectIdent := projectIdent p; startDate := startDate p;
     isProvisional := isProvisional p; viewScale := viewScale p;
     workdaySettings := workdaySettings p;
     hourScaleSettings := Some h;
     dayScaleSettings := dayScaleSettings p |}.

Definition withDaySettings (p : Project) (d : DayScaleSettings) : Project :=
  {| projectIdent := projectIdent p; startDate := startDate p;
     isProvisional := isProvisional p; viewScale := viewScale p;
     workdaySettings := workdaySettings p;
     hourScaleSettings := hourScaleSettings p;
     dayScaleSettings := Some d |}.

(** One event of the selector on the project it shows.  The settings panel
    holds the inputs of the active scale only. *)
Definition step (p : Project) (ev : Event) : Project :=
  let hSettings := ChartCalendar.hourSettings p in
  let dSettings := ChartCalendar.daySettings p in
  match ev, viewScale p with
  | SelectScale sc, _ => withViewScale p sc
  | SelectStartHour newStart, Hour =>
      if newStart <? endHour hSettings
      then withHourSettings p
             {| startHour := newStart; endHour := endHour hSettings |}
      else p
  | SelectEndHour newEnd, Hour =>
      if newEnd >? startHour hSettings
      then withHourSettings p
             {| startHour := startHour hSettings; endHour := newEnd |}
      else p
  | SelectDayCount v, Day =>
      withDaySettings p
        {| dayCount := v; weekCount := weekCount dSettings;
           monthCount := monthCount dSettings |}
  | SelectWeekCount v, Week =>
      withDaySettings p
        {| dayCount := dayCount dSettings; weekCount := v;
           monthCount := monthCount dSettings |}
  | SelectMonthCount v, Month =>
      withDaySettings p
        {| dayCount := dayCount dSettings; weekCount := weekCount dSettings;
           monthCount := v |}
  | _, _ => p
  end.

Definition run (p : Project) (evs : list Event) : Project :=
  fold_left step evs p.

(** The value of the event is one of the options its [<select>] offers. *)
Definition offered (ev : Event) : Prop :=
  match ev with
  | SelectScale _ => True
  | SelectStartHour v => In v (removelast hourOptions)
  | SelectEndHour v => In v (tl hourOptions)
  | SelectDayCount v => In v dayCountOptions
  | SelectWeekCount v => In v weekCountOptions
  | SelectMonthCount v => In v monthCountOptions
  end.

(** The windows a project can be left with. *)
Definition windowsValid (p : Project) : Prop :=
  0 <= startHour (ChartCalendar.hourSettings p)
  /\ startHour (ChartCalendar.hourSettings p)
     < endHour (ChartCalendar.hourSettings p)
  /\ endHour (ChartCalendar.hourSettings p) <= 24
  /\ 3 <= dayCount (ChartCalendar.daySettings p)
  /\ 7 <= weekCount (ChartCalendar.daySettings p)
  /\ 30 <= monthCount (ChartCalendar.daySettings p).

End ScaleSelector.

(** ** stores/useStore: projects and tasks

    The trade list of the store is not touched by the operations below and
    is left out.  A patch is one of the objects the components hand to
    [updateTask]: each sets one field. *)
Inductive TaskPatch : Type :=
| PatchSchedule (s : ScaleBasedSchedule)
| PatchOrder (o : Z)
| PatchName (n : string)
| PatchAssignee (a : string)
| PatchColor (c : option string)
| PatchTrade (tr : option string).

(** [{ ...t, ...taskData }] *)
Definition applyTaskPatch (t : Task) (patch : TaskPatch) : Task :=
  match patch with
  | PatchSchedule s => withSchedule t s
  | PatchOrder o =>
      {| id := id t; projectId := projectId t; tradeId := tradeId t;
         name := name t; assignee := assignee t;
         taskStartDate := taskStartDate t; taskEndDate := taskEndDate t;
         color := color t; order := o; scaleSchedule := scaleSchedule t |}
  | PatchName n =>
      {| id := id t; projectId := projectId t; tradeId := tradeId t;
         name := n; assignee := assignee t;
         taskStartDate := taskStartDate t; taskEndDate := taskEndDate t;
         color := color t; order := order t;
         scaleSchedule := scaleSchedule t |}
  | PatchAssignee a =>
      {| id := id t; projectId := projectId t; tradeId := tradeId t;
         name := name t; assignee := a;
         taskStartDate := taskStartDate t; taskEndDate := taskEndDate t;
         color := color t; order := order t;
         scaleSchedule := scaleSchedule t |}
  | PatchColor c =>
      {| id := id t; projectId := projectId t; tradeId := tradeId t;
         name := name t; assignee := assignee t;
         taskStartDate := taskStartDate t; taskEndDate := taskEndDate t;
         color := c; order := order t; scaleSchedule := scaleSchedule t |}
  | PatchTrade tr =>
      {| id := id t; projectId := projectId t; tradeId := tr;
         name := name t; assignee := assignee t;
         taskStartDate := taskStartDate t; taskEndDate := taskEndDate t;
         color := color t; order := order t;
         scaleSchedule := scaleSchedule t |}
  end.

(** [{ ...t, order: o }] *)
Definition withOrder (t : Task) (o : Z) : Task := applyTaskPatch t (PatchOrder o).

(** [array.indexOf(x)], [-1] when [x] is not in the array. *)
Fixpoint indexOf (l : list string) (x : string) : Z :=
  match l with
  | [] => -1
  | y :: r =>
      if String.eqb y x then 0
      else let k := indexOf r x in if k <? 0 then -1 else k + 1
  end.

(** [array.findIndex(t => t.id === x)] *)
Definition findIndexById (l : list Task) (x : string) : Z :=
  indexOf (map id l) x.

(** [array.sort((a, b) => a.order - b.order)]: the sort is stable, elements
    of equal order keep their relative position. *)
Fixpoint insertByOrder (t : Task) (l : list Task) : list Task :=
  match l with
  | [] => [t]
  | u :: r =>
      if order t <=? order u then t :: l else u :: insertByOrder t r
  end.

Definition sortByOrder (l : list Task) : list Task :=
  fold_right insertByOrder [] l.

Module Store.

Record AppState : Type := mkAppState {
  projects : list Project;
  currentProjectId : option string;
  tasks : list Task
}.

(** The identifier is [uuidv4()]. *)
Definition addProject (newId : string) (projectData : Project)
  (st : AppState) : AppState :=
  let project :=
    {| projectIdent := newId; startDate := startDate projectData;
       isProvisional := isProvisional projectData;
       viewScale := viewScale projectData;
       workdaySettings := workdaySettings projectData;
       hourScaleSettings := hourScaleSettings projectData;
       dayScaleSettings := dayScaleSettings projectData |} in
  {| projects := projects st ++ [project]; currentProjectId := Some newId;
     tasks := tasks st |}.

Definition deleteProject (ident : string) (st : AppState) : AppState :=
  {| projects :=
       filter (fun p => negb (String.eqb (projectIdent p) ident))
         (projects st);
     tasks :=
       filter (fun t => negb (String.eqb (projectId t) ident)) (tasks st);
     currentProjectId :=
       match currentProjectId st with
       | Some c => if String.eqb c ident then None else Some c
       | None => None
       end |}.

Definition setCurrentProject (ident : option string) (st : AppState)
  : AppState :=
  {| projects := projects st; currentProjectId := ident;
     tasks := tasks st |}.

Definition addTask (newId : string) (taskData : Task) (st : AppState)
  : AppState :=
  {| projects := projects st; currentProjectId := currentProjectId st;
     tasks :=
       tasks st
       ++ [ {| id := newId; projectId := projectId taskData;
               tradeId := tradeId taskData; name := name taskData;
               assignee := assignee taskData;
               taskStartDate := taskStartDate taskData;
               taskEndDate := taskEndDate taskData;
               color := color taskData; order := order taskData;
               scaleSchedule := scaleSchedule taskData |} ] |}.

Definition updateTaskList (ident : string) (patch : TaskPatch)
  (l : list Task) : list Task :=
  map (fun t => if String.eqb (id t) ident then applyTaskPatch t patch else t)
      l.

Definition updateTask (ident : string) (patch : TaskPatch) (st : AppState)
  : AppState :=
  {| projects := projects st; currentProjectId := currentProjectId st;
     tasks := updateTaskList ident patch (tasks st) |}.

Definition deleteTask (ident : string) (st : AppState) : AppState :=
  {| projects := projects st; currentProjectId := currentProjectId st;
     tasks := filter (fun t => negb (String.eqb (id t) ident)) (tasks st) |}.

Definition reorderTasks (pid : string) (taskIds : list string)
  (st : AppState) : AppState :=
  {| projects := projects st; currentProjectId := currentProjectId st;
     tasks :=
       map (fun t =>
              if negb (String.eqb (projectId t) pid) then t
              else
                let newOrder := indexOf taskIds (id t) in
                if newOrder >=? 0 then withOrder t newOrder else t)
           (tasks st) |}.

Definition setViewScale (pid : string) (scale : ViewScale) (st : AppState)
  : AppState :=
  {| projects :=
       map (fun p => if String.eqb (projectIdent p) pid
                     then ScaleSelector.withViewScale p scale else p)
           (projects st);
     currentProjectId := currentProjectId st; tasks := tasks st |}.

Definition getCurrentProject (st : AppState) : option Project :=
  match currentProjectId st with
  | Some c => find (fun p => String.eqb (projectIdent p) c) (projects st)
  | None => None
  end.

Definition getProjectTasks (pid : string) (st : AppState) : list Task :=
  sortByOrder (filter (fun t => String.eqb (projectId t) pid) (tasks st)).

End Store.

(** ** components/chart/ChartCalendar: reordering tasks by drag and drop *)
Module TaskReorder.

(** [splice(i, 1)] and [splice(i, 0, x)] on an index inside the list. *)
Definition removeAt {A : Type} (i : nat) (l : list A) : list A :=
  firstn i l ++ skipn (S i) l.
Definition insertAt {A : Type} (i : nat) (x : A) (l : list A) : list A :=
  firstn i l ++ x :: skipn i l.

(** The calls [updateTask(task.id, { order: index })] of the final
    [forEach], from position [index] on. *)
Fixpoint orderCalls (index : Z) (l : list Task) : list (string * Z) :=
  match l with
  | [] => []
  | task :: rest =>
      if negb (order task =? index)
      then (id task, index) :: orderCalls (index + 1) rest
      else orderCalls (index + 1) rest
  end.

(** The list [newTasks] of [handleDrop], or [None] where the handler
    returns early. *)
Definition newTasksOf (tasks : list Task) (draggedTaskId : option string)
  (targetTaskId : string) : option (list Task) :=
  match draggedTaskId with
  | None => None
  | Some dragged =>
      if negb (truthy dragged) || String.eqb dragged targetTaskId then None
      else
        match find (fun t => String.eqb (id t) dragged) tasks,
              find (fun t => String.eqb (id t) targetTaskId) tasks with
        | Some _, Some _ =>
            let sortedTasks := sortByOrder tasks in
            let draggedIndex := findIndexById sortedTasks dragged in
            let targetIndex := findIndexById sortedTasks targetTaskId in
            if (draggedIndex =? -1) || (targetIndex =? -1) then None
            else
              match nth_error sortedTasks (Z.to_nat draggedIndex) with
              | Some removed =>
                  Some (insertAt (Z.to_nat targetIndex) removed
                          (removeAt (Z.to_nat draggedIndex) sortedTasks))
              | None => None
              end
        | _, _ => None
        end
  end.

(** [handleDrop]: the store tasks after the calls of the handler. *)
Definition handleDrop (tasks : list Task) (draggedTaskId : option string)
  (targetTaskId : string) (st : Store.AppState) : Store.AppState :=
  match newTasksOf tasks draggedTaskId targetTaskId with
  | Some newTasks =>
      fold_left (fun s call => Store.updateTask (fst call)
                                 (PatchOrder (snd call)) s)
                (orderCalls 0 newTasks) st
  | None => st
  end.

(** The tasks of a list with their positions as orders. *)
Fixpoint renumberFrom (index : Z) (l : list Task) : list Task :=
  match l with
  | [] => []
  | t :: rest => withOrder t index :: renumberFrom (index + 1) rest
  end.

End TaskReorder.

(** No two neighbours of the list are equal. *)
Fixpoint adjacentDistinct (l : list string) : Prop :=
  match l with
  | a :: r =>
      match r with
      | b :: _ => a <> b /\ adjacentDistinct r
      | [] => True
      end
  | [] => True
  end.

(** ** More concrete data for the examples *)
Module Sample.

Definition taskOf (ident pid : string) (o : Z) : Task :=
  {| id := ident; projectId := pid; tradeId := None; name := ident;
     assignee := EmptyString; taskStartDate := "2024-04-01";
     taskEndDate := "2024-04-01"; color := None; order := o;
     scaleSchedule := None |}.

(** Three tasks of project "p" stored out of order, one of project "q". *)
Definition store : Store.AppState :=
  {| Store.projects :=
       [Fixture.projectOn Day None None;
        {| projectIdent := "q"; startDate := "2024-05-01";
           isProvisional := true; viewScale := Hour;
           workdaySettings := DEFAULT_WORKDAY_SETTINGS;
           hourScaleSettings := None; dayScaleSettings := None |}];
     Store.currentProjectId := Some "p"%string;
     Store.tasks :=
       [taskOf "b" "p" 1; taskOf "x" "q" 0; taskOf "c" "p" 2;
        taskOf "a" "p" 0] |}.

(** 2024-01-30, so that a three-day window crosses into February. *)
Definition parseISO (s : string) : Date := 19752.

(** What [handleAddTask] hands to [addTask] for the name " roof " in the day
    view of project "p" with its three tasks. *)
Definition newTask : Task :=
  {| id := EmptyString; projectId := "p"; tradeId := None; name := "roof";
     assignee := EmptyString; taskStartDate := "2024-04-01";
     taskEndDate := "2024-04-01"; color := None; order := 3;
     scaleSchedule := None |}.

End Sample.

(** The comparison of the sort, and its strict version. *)
Definition orderLe (a b : Task) : Prop := order a <= order b.
Definition orderLt (a b : Task) : Prop := order a < order b.

(** The function [reorderTasks] maps over the stored tasks. *)
Definition reorderOne (pid : string) (taskIds : list string) (t : Task)
  : Task :=
  if negb (String.eqb (projectId t) pid) then t
  else if indexOf taskIds (id t) >=? 0
       then withOrder t (indexOf taskIds (id t)) else t.

(* END-EXTRA-DEFS *)

(** * Properties *)

(** ** Shared lemmas on schedules *)

Lemma sched_get_set_same (s : ScaleBasedSchedule) (sc : ViewScale)
  (i : Interval) : sched_get (sched_set s sc i) sc = i.
Proof. destruct sc; reflexivity. Qed.

Lemma sched_get_set_other (s : ScaleBasedSchedule) (sc sc' : ViewScale)
  (i : Interval) : sc <> sc' -> sched_get (sched_set s sc i) sc' = sched_get s sc'.
Proof. destruct sc, sc'; intros H; try reflexivity; contradiction H; reflexivity. Qed.

Lemma ViewScale_eq_dec (a b : ViewScale) : {a = b} + {a <> b}.
Proof. decide equality. Defined.

(** [getScaleValue] of the task bar and of the calendar read the fields of
    the interval resolved on the active scale. *)
Lemma resolve_getScaleValue (t : Task) (project : Project) (f : Field) :
  TaskBar.getScaleValue t project f = field_get (resolve t (viewScale project)) f
  /\ ChartCalendar.getScaleValue project t f
     = field_get (resolve t (viewScale project)) f.
Proof. split; reflexivity. Qed.

Lemma resolve_withSchedule (t : Task) (s : ScaleBasedSchedule)
  (sc : ViewScale) : resolve (withSchedule t s) sc = sched_get s sc.
Proof. reflexivity. Qed.

(** The store replaces the schedule of the task with the given identifier
    and of no other task. *)
Lemma updateTask_single (t : Task) (s : ScaleBasedSchedule) :
  updateTask (id t) s [t] = [withSchedule t s].
Proof. cbn. rewrite String.eqb_refl. reflexivity. Qed.

Lemma includes_In (l : list string) (s : string) :
  includes l s = true <-> In s l.
Proof.
  unfold includes. rewrite existsb_exists. split.
  - intros [x [Hx He]]. apply String.eqb_eq in He. subst. exact Hx.
  - intros H. exists s. split; [exact H | apply String.eqb_refl].
Qed.

(** ** CalendarRules *)

(** C2. [isNonWorkday] answers with the first rule that matches, in the
    order: working override, non-working override, Saturday, Sunday,
    national holiday, and [false] when none matches.  A date listed in both
    override sets is therefore a working day. *)
Theorem isNonWorkday_first_match :
  forall (jpIsHoliday : Date -> bool) (date : Date) (rules : WorkdaySettings),
    Holidays.isNonWorkday jpIsHoliday date rules
      = Spec.firstMatch (Spec.calendarRules jpIsHoliday date rules) false
    /\ (In (format_yyyy_MM_dd date) (customWorkdays rules) ->
        In (format_yyyy_MM_dd date) (customHolidays rules) ->
        Holidays.isNonWorkday jpIsHoliday date rules = false).
Proof.
  intros jp d r. split.
  - unfold Holidays.isNonWorkday, Spec.calendarRules, Holidays.isHoliday.
    cbn [Spec.firstMatch].
    repeat match goal with |- context [if ?c then _ else _] =>
      destruct c; try reflexivity end.
  - intros Hw _. apply includes_In in Hw.
    unfold Holidays.isNonWorkday. rewrite Hw. reflexivity.
Qed.

(** New Year's Day 2024 (a Monday and a national holiday) listed in both
    override sets, with every boolean rule switched on. *)
Lemma isNonWorkday_first_match_witness :
  In (format_yyyy_MM_dd Fixture.newYear2024)
     (customWorkdays Fixture.rulesBothOverrides) /\
  In (format_yyyy_MM_dd Fixture.newYear2024)
     (customHolidays Fixture.rulesBothOverrides) /\
  Holidays.isNonWorkday Fixture.onlyNewYear Fixture.newYear2024
    Fixture.rulesBothOverrides = false.
Proof.
  assert (Hw : In (format_yyyy_MM_dd Fixture.newYear2024)
                  (customWorkdays Fixture.rulesBothOverrides))
    by (right; left; reflexivity).
  assert (Hh : In (format_yyyy_MM_dd Fixture.newYear2024)
                  (customHolidays Fixture.rulesBothOverrides))
    by (left; reflexivity).
  split; [exact Hw | split; [exact Hh | ]].
  exact (proj2 (isNonWorkday_first_match Fixture.onlyNewYear
                  Fixture.newYear2024 Fixture.rulesBothOverrides) Hw Hh).
Defined.

(** ** DateSequenceGenerator: the hour grid *)

Lemma map_seq_shift (f : nat -> Z) (n : nat) :
  map f (seq 1 n) = map (fun k => f (S k)) (seq 0 n).
Proof. rewrite <- seq_shift, map_map. reflexivity. Qed.

Lemma timeSlotsLoop_spec (endM : Z) (slots : list Z) (m : Z) :
  ChartCalendar.timeSlotsLoop endM slots m
  = slots ++ map (fun k => m + 5 * Z.of_nat k)
                 (seq 0 (Z.to_nat ((endM - m + 5) / 5))).
Proof.
  funelim (ChartCalendar.timeSlotsLoop endM slots m).
  - rewrite H. rewrite <- app_assoc. f_equal.
    replace ((endM - m + 5) / 5) with ((endM - (m + 5) + 5) / 5 + 1).
    2:{ replace (endM - m + 5) with ((endM - (m + 5) + 5) + 1 * 5) by lia.
        rewrite Z.div_add by lia. reflexivity. }
    assert (0 <= (endM - (m + 5) + 5) / 5) by (apply Z.div_pos; lia).
    rewrite Z2Nat.inj_add by lia.
    change (Z.to_nat 1) with 1%nat. rewrite Nat.add_comm.
    cbn [Nat.add seq map app]. rewrite map_seq_shift.
    f_equal; [lia | ]. apply map_ext. intros k. lia.
  - assert ((endM - m + 5) / 5 <= 0).
    { assert ((endM - m + 5) / 5 < 1); [ | lia].
      apply Z.div_lt_upper_bound; lia. }
    replace (Z.to_nat ((endM - m + 5) / 5)) with 0%nat by lia.
    cbn. rewrite app_nil_r. reflexivity.
Qed.

(** C4. With [startHour < endHour] the hour grid is
    [startHour*60, startHour*60+5, ..., endHour*60]: it has
    [(endHour-startHour)*12 + 1] entries, starts at [startHour*60] and ends
    at [endHour*60]. *)
Theorem timeSlots_hour_grid :
  forall project : Project,
    let h := ChartCalendar.hourSettings project in
    startHour h < endHour h ->
    ChartCalendar.timeSlots project = Spec.hourGrid (startHour h) (endHour h)
    /\ Z.of_nat (List.length (ChartCalendar.timeSlots project))
       = (endHour h - startHour h) * 12 + 1
    /\ hd_error (ChartCalendar.timeSlots project) = Some (startHour h * 60)
    /\ last (ChartCalendar.timeSlots project) 0 = endHour h * 60.
Proof.
  intros project h Hlt.
  assert (E : ChartCalendar.timeSlots project
              = Spec.hourGrid (startHour h) (endHour h)).
  { unfold ChartCalendar.timeSlots. rewrite timeSlotsLoop_spec.
    unfold Spec.hourGrid, ChartCalendar.endMinutes, ChartCalendar.startMinutes.
    fold h. cbn [app]. do 3 f_equal.
    replace (endHour h * 60 - startHour h * 60 + 5)
      with (((endHour h - startHour h) * 12 + 1) * 5) by lia.
    rewrite Z.div_mul by lia. reflexivity. }
  rewrite E. unfold Spec.hourGrid.
  set (n := (endHour h - startHour h) * 12).
  assert (Hn : Z.to_nat (n + 1) = S (Z.to_nat n)) by lia.
  repeat split.
  - rewrite length_map, length_seq. lia.
  - rewrite Hn. cbn. f_equal. lia.
  - rewrite Hn, seq_S, map_app. cbn [map]. rewrite last_last. unfold n. lia.
Qed.

(** The window from 8 to 18 o'clock: 121 slots from 480 to 1080. *)
Lemma timeSlots_hour_grid_witness :
  8 < 18 /\
  Z.of_nat (List.length (ChartCalendar.timeSlots Fixture.hourProject_8_18))
    = 121 /\
  hd_error (ChartCalendar.timeSlots Fixture.hourProject_8_18) = Some 480 /\
  last (ChartCalendar.timeSlots Fixture.hourProject_8_18) 0 = 1080.
Proof.
  assert (H : 8 < 18) by lia.
  split; [exact H | ].
  exact (proj2 (timeSlots_hour_grid Fixture.hourProject_8_18 H)).
Defined.

(** ** GeometryMapper *)


(** *** Integers in binary64

    Products and quotients of integers are exact in binary64 as long as
    they are integers below 2^53: the rounded result of an operation is the
    exact one when that is representable. *)

Lemma digits2_pos_log2 (p : positive) :
  Zpos (digits2_pos p) = Z.log2 (Zpos p) + 1.
Proof.
  induction p as [p IH | p IH | ]; cbn [digits2_pos].
  - rewrite Pos2Z.inj_succ, IH.
    change (Zpos p~1) with (2 * Zpos p + 1).
    rewrite Z.log2_succ_double by lia. lia.
  - rewrite Pos2Z.inj_succ, IH.
    change (Zpos p~0) with (2 * Zpos p).
    rewrite Z.log2_double by lia. lia.
  - reflexivity.
Qed.

Lemma iter_pos_iter {A : Type} (f : A -> A) (p : positive) :
  forall x, iter_pos f p x = Pos.iter f x p.
Proof.
  induction p as [p IH | p IH | ]; intros x; cbn [iter_pos Pos.iter].
  - rewrite !IH. rewrite <- !Pos.iter_swap. reflexivity.
  - rewrite !IH. reflexivity.
  - reflexivity.
Qed.

Lemma shr_exact (n : positive) :
  forall q : positive,
  iter_pos shr_1 n
    {| shr_m := Zpos q * 2 ^ Zpos n; shr_r := false; shr_s := false |}
  = {| shr_m := Zpos q; shr_r := false; shr_s := false |}.
Proof.
  intros q. rewrite iter_pos_iter. revert q.
  induction n as [ | n IH] using Pos.peano_ind; intros q.
  - cbn [Pos.iter].
    replace (Zpos q * 2 ^ 1) with (Zpos q~0)
      by (rewrite Pos2Z.inj_xO; lia).
    reflexivity.
  - rewrite Pos.iter_succ_r.
    assert (H : exists r, Zpos q * 2 ^ Zpos n = Zpos r).
    { exists (Z.to_pos (Zpos q * 2 ^ Zpos n)). rewrite Z2Pos.id; [reflexivity | ].
      apply Z.mul_pos_pos; [lia | apply Z.pow_pos_nonneg; lia]. }
    destruct H as [r Hr].
    replace (Zpos q * 2 ^ Zpos (Pos.succ n)) with (Zpos r~0).
    2:{ rewrite Pos2Z.inj_succ, Z.pow_succ_r by lia.
        rewrite Pos2Z.inj_xO, <- Hr. lia. }
    cbn [shr_1 orb]. rewrite <- Hr. apply IH.
Qed.

Lemma Zdigits2_log2 (z : Z) : 0 < z -> Zdigits2 z = Z.log2 z + 1.
Proof.
  destruct z as [ | p | p]; intros H; try lia.
  cbn [Zdigits2]. apply digits2_pos_log2.
Qed.

Lemma fexp_normal (e : Z) :
  -1021 <= e -> fexp Double.prec Double.emax e = e - 53.
Proof. intros H. unfold fexp, emin, Double.prec, Double.emax. lia. Qed.

Lemma binary_round_aux_exact (s : bool) (q : positive) (n e : Z) :
  Zpos (digits2_pos q) = 53 -> 0 <= n -> -1074 <= e + n <= 971 ->
  binary_round_aux Double.prec Double.emax s (Zpos q * 2 ^ n) e loc_Exact
  = S754_finite s q (e + n).
Proof.
  intros Hq Hn He.
  assert (Hpos : 0 < Zpos q * 2 ^ n)
    by (apply Z.mul_pos_pos; [lia | apply Z.pow_pos_nonneg; lia]).
  assert (Hd : Zdigits2 (Zpos q * 2 ^ n) = 53 + n).
  { rewrite Zdigits2_log2 by exact Hpos.
    rewrite Z.log2_mul_pow2 by lia.
    rewrite digits2_pos_log2 in Hq. lia. }
  unfold binary_round_aux.
  assert (E1 : shr_fexp Double.prec Double.emax (Zpos q * 2 ^ n) e loc_Exact
               = ({| shr_m := Zpos q; shr_r := false; shr_s := false |},
                  e + n)).
  { unfold shr_fexp. rewrite Hd, fexp_normal by lia.
    replace (53 + n + e - 53 - e) with n by lia.
    cbn [shr_record_of_loc]. destruct n as [ | pn | pn]; [ | | lia].
    - cbn [shr]. rewrite Z.mul_1_r, Z.add_0_r. reflexivity.
    - cbn [shr]. rewrite shr_exact. reflexivity. }
  rewrite E1. cbn [shr_m loc_of_shr_record round_nearest_even].
  assert (E2 : shr_fexp Double.prec Double.emax (Zpos q) (e + n) loc_Exact
               = ({| shr_m := Zpos q; shr_r := false; shr_s := false |},
                  e + n)).
  { unfold shr_fexp. cbn [Zdigits2]. rewrite Hq, fexp_normal by lia.
    replace (53 + (e + n) - 53 - (e + n)) with 0 by lia. reflexivity. }
  rewrite E2. cbn [shr_m].
  replace (e + n <=? Double.emax - Double.prec) with true
    by (symmetry; apply Z.leb_le; unfold Double.emax, Double.prec; lia).
  reflexivity.
Qed.

Lemma log2_small (z : Z) : 0 < z < 2 ^ 53 -> 0 <= Z.log2 z <= 52.
Proof.
  intros H. split; [apply Z.log2_nonneg | ].
  assert (Z.log2 z < 53); [ | lia].
  apply Z.log2_lt_pow2; lia.
Qed.

Lemma mantissa_spec (z : Z) :
  0 < z < 2 ^ 53 -> Zpos (Double.mantissa z) = z * 2 ^ (52 - Z.log2 z).
Proof.
  intros H. pose proof (log2_small z H). unfold Double.mantissa.
  rewrite Z2Pos.id; [reflexivity | ].
  apply Z.mul_pos_pos; [lia | apply Z.pow_pos_nonneg; lia].
Qed.

Lemma mantissa_digits (z : Z) :
  0 < z < 2 ^ 53 -> Zpos (digits2_pos (Double.mantissa z)) = 53.
Proof.
  intros H. pose proof (log2_small z H).
  rewrite digits2_pos_log2, mantissa_spec by exact H.
  rewrite Z.log2_mul_pow2 by lia. lia.
Qed.

Lemma pos_iter_xO (p k : positive) :
  Zpos (Pos.iter xO p k) = Zpos p * 2 ^ Zpos k.
Proof.
  induction k as [ | k IH] using Pos.peano_ind.
  - cbn [Pos.iter]. rewrite Pos2Z.inj_xO. lia.
  - rewrite Pos.iter_succ, Pos2Z.inj_xO, IH, Pos2Z.inj_succ.
    rewrite Z.pow_succ_r by lia. lia.
Qed.

Lemma ofZ_normal (z : Z) : 0 < z < 2 ^ 53 -> Double.ofZ z = Double.normal z.
Proof.
  intros H. pose proof (log2_small z H) as Hl.
  destruct z as [ | p | p]; try lia.
  unfold Double.ofZ, binary_normalize, binary_round.
  rewrite fexp_normal by (rewrite digits2_pos_log2; lia).
  unfold shl_align. rewrite digits2_pos_log2.
  replace (Z.log2 (Zpos p) + 1 + 0 - 53) with (Z.log2 (Zpos p) - 52) by lia.
  rewrite Z.sub_0_r.
  pose proof (binary_round_aux_exact false (Double.mantissa (Zpos p)) 0
                (Z.log2 (Zpos p) - 52)
                (mantissa_digits _ H) ltac:(lia) ltac:(lia)) as E.
  rewrite mantissa_spec, Z.pow_0_r, Z.mul_1_r, Z.add_0_r in E by exact H.
  unfold Double.normal.
  destruct (Z.log2 (Zpos p) - 52) as [ | k | k] eqn:Ek; try lia.
  - replace (52 - Z.log2 (Zpos p)) with 0 in E by lia.
    rewrite Z.pow_0_r, Z.mul_1_r in E. exact E.
  - rewrite pos_iter_xO.
    replace (52 - Z.log2 (Zpos p)) with (Zpos k) in E by lia.
    exact E.
Qed.

Lemma log2_mul_bounds (a b : Z) :
  0 < a -> 0 < b ->
  Z.log2 a + Z.log2 b <= Z.log2 (a * b) <= Z.log2 a + Z.log2 b + 1.
Proof.
  intros Ha Hb. split.
  - apply Z.log2_mul_below; lia.
  - apply Z.log2_mul_above; lia.
Qed.

Lemma mul_normal (a b : Z) :
  0 < a -> 0 < b -> a * b < 2 ^ 53 ->
  Double.mul (Double.normal a) (Double.normal b) = Double.normal (a * b).
Proof.
  intros Ha Hb Hab.
  assert (Ha' : 0 < a < 2 ^ 53) by nia.
  assert (Hb' : 0 < b < 2 ^ 53) by nia.
  assert (Hab' : 0 < a * b < 2 ^ 53) by nia.
  pose proof (log2_small a Ha'). pose proof (log2_small b Hb').
  pose proof (log2_small (a * b) Hab').
  pose proof (log2_mul_bounds a b Ha Hb) as Hl.
  unfold Double.mul, Double.normal. cbn [SFmul xorb].
  rewrite Pos2Z.inj_mul, !mantissa_spec by assumption.
  set (n := 52 + Z.log2 (a * b) - Z.log2 a - Z.log2 b).
  replace (a * 2 ^ (52 - Z.log2 a) * (b * 2 ^ (52 - Z.log2 b)))
    with (Zpos (Double.mantissa (a * b)) * 2 ^ n).
  2:{ rewrite mantissa_spec by assumption. subst n.
      rewrite <- Z.mul_assoc, <- Z.pow_add_r by lia.
      replace (a * 2 ^ (52 - Z.log2 a) * (b * 2 ^ (52 - Z.log2 b)))
        with (a * b * (2 ^ (52 - Z.log2 a) * 2 ^ (52 - Z.log2 b))) by ring.
      rewrite <- Z.pow_add_r by lia. f_equal. f_equal. lia. }
  rewrite binary_round_aux_exact; [ | apply mantissa_digits; assumption | subst n; lia
                       | subst n; lia].
  f_equal. subst n. lia.
Qed.

Lemma new_location_zero (m : Z) : new_location m 0 = loc_Exact.
Proof.
  unfold new_location, new_location_even, new_location_odd.
  destruct (Z.even m); reflexivity.
Qed.

Lemma div_normal (a b : Z) :
  0 < a -> 0 < b -> a * b < 2 ^ 53 ->
  Double.div (Double.normal (a * b)) (Double.normal b) = Double.normal a.
Proof.
  intros Ha Hb Hab.
  assert (Ha' : 0 < a < 2 ^ 53) by nia.
  assert (Hb' : 0 < b < 2 ^ 53) by nia.
  assert (Hab' : 0 < a * b < 2 ^ 53) by nia.
  pose proof (log2_small a Ha'). pose proof (log2_small b Hb').
  pose proof (log2_small (a * b) Hab').
  pose proof (log2_mul_bounds a b Ha Hb) as Hl.
  unfold Double.div, Double.normal. cbn [SFdiv xorb].
  unfold SFdiv_core_binary. cbn [Zdigits2].
  rewrite !mantissa_digits by assumption.
  rewrite fexp_normal by lia.
  set (e1 := Z.log2 (a * b) - 52). set (e2 := Z.log2 b - 52).
  replace (Z.min (53 + e1 - (53 + e2) - 53) (e1 - e2)) with (e1 - e2 - 53)
    by lia.
  replace (e1 - e2 - (e1 - e2 - 53)) with 53 by lia.
  set (n := 1 + Z.log2 a + Z.log2 b - Z.log2 (a * b)).
  assert (Hq : Z.shiftl (Zpos (Double.mantissa (a * b))) 53
               = Zpos (Double.mantissa b) * (Zpos (Double.mantissa a) * 2 ^ n)).
  { rewrite Z.shiftl_mul_pow2, !mantissa_spec by (assumption || lia).
    subst n.
    replace (b * 2 ^ (52 - Z.log2 b)
             * (a * 2 ^ (52 - Z.log2 a)
                * 2 ^ (1 + Z.log2 a + Z.log2 b - Z.log2 (a * b))))
      with (a * b * (2 ^ (52 - Z.log2 b)
                     * (2 ^ (52 - Z.log2 a)
                        * 2 ^ (1 + Z.log2 a + Z.log2 b - Z.log2 (a * b)))))
      by ring.
    rewrite <- !Z.pow_add_r by lia. rewrite <- Z.mul_assoc.
    rewrite <- Z.pow_add_r by lia. f_equal. f_equal. lia. }
  cbv beta iota zeta. rewrite Hq.
  rewrite (surjective_pairing (Z.div_eucl _ _)).
  change (fst (Z.div_eucl ?x ?y)) with (x / y).
  change (snd (Z.div_eucl ?x ?y)) with (x mod y).
  rewrite (Z.mul_comm (Zpos (Double.mantissa b))).
  rewrite Z.div_mul, Z.mod_mul by lia.
  rewrite new_location_zero.
  rewrite binary_round_aux_exact; [ | apply mantissa_digits; assumption | subst n; lia
                       | subst n e1 e2; lia].
  f_equal. subst n e1 e2. lia.
Qed.

Lemma floor_normal (a : Z) :
  0 < a < 2 ^ 53 -> Double.floor (Double.normal a) = Some a.
Proof.
  intros H. pose proof (log2_small a H) as Hl.
  unfold Double.floor, Double.normal. rewrite mantissa_spec by exact H.
  f_equal.
  destruct (Z.leb_spec 0 (Z.log2 a - 52)) as [Hle | Hgt].
  - replace (52 - Z.log2 a) with 0 by lia.
    replace (Z.log2 a - 52) with 0 by lia.
    rewrite Z.pow_0_r. lia.
  - replace (- (Z.log2 a - 52)) with (52 - Z.log2 a) by lia.
    apply Z.div_mul. apply Z.pow_nonzero; lia.
Qed.

Lemma Double_round_trip (c k : Z) :
  0 < c < 2 ^ 53 -> 0 <= k -> k * c < 2 ^ 53 ->
  Double.floor
    (Double.div
       (Double.mul (Double.max (Double.ofZ 0) (Double.ofZ k)) (Double.ofZ c))
       (Double.ofZ c)) = Some k.
Proof.
  intros Hc' Hk Hkc.
  rewrite (ofZ_normal c Hc').
  destruct (Z.eq_dec k 0) as [-> | Hne].
  - reflexivity.
  - assert (Hk' : 0 < k < 2 ^ 53) by nia.
    rewrite (ofZ_normal k Hk').
    change (Double.max (Double.ofZ 0) (Double.normal k)) with (Double.normal k).
    rewrite mul_normal, div_normal by lia.
    apply floor_normal. exact Hk'.
Qed.

Lemma Double_fifth (k : Z) :
  0 <= k -> 5 * k < 2 ^ 53 ->
  Double.div (Double.ofZ (5 * k)) (Double.ofZ 5) = Double.ofZ k.
Proof.
  intros Hk H5.
  destruct (Z.eq_dec k 0) as [-> | Hne]; [reflexivity | ].
  rewrite (ofZ_normal k), (ofZ_normal (5 * k)) by lia.
  change (Double.ofZ 5) with (Double.normal 5).
  rewrite (Z.mul_comm 5 k). apply div_normal; lia.
Qed.

(** *** The floor of a quotient in binary64

    Dividing a coordinate by an integer cell width rounds the quotient, but
    never up to the next integer: the floor the source takes is the floor
    of the exact quotient. *)
















(** C6 (counterexample).  At the cell width 0.7 the bar of a task that
    starts on day 4 has its left edge at 3 * 0.7 = 2.0999999999999996
    (4728779608739020 * 2^-51); that edge divided by 0.7 is below 3, so the
    cell index is 2 and the value recovered is day 3. *)
Lemma roundtrip_fails_at_width_0_7 :
  viewScale Fixture.dayProject = Day
  /\ TaskBar.getScaleValue Fixture.task_d4_6 Fixture.dayProject FStart = 4
  /\ 1 <= 4 <= TaskBar.getMaxValue Fixture.dayProject
  /\ SFltb (Double.ofZ 0) Fixture.width_0_7 = true
  /\ TaskBar64.barLeft Fixture.task_d4_6 Fixture.dayProject Fixture.width_0_7
     = S754_finite false 4728779608739020 (-51)
  /\ TaskBar64.newValueAt Fixture.dayProject Fixture.width_0_7
       (TaskBar64.barLeft Fixture.task_d4_6 Fixture.dayProject
          Fixture.width_0_7)
     = Some 3.
Proof.
  repeat split; try (vm_compute; reflexivity); intros H; discriminate H.
Qed.

(** C6 (amended).  Round trip on the task bar, computed in binary64 as the
    source does: for a positive integer cell width, when the start of the
    resolved interval lies in the bounds of the scale (and on the 5-minute
    grid for the hour scale) and the pixel offset of that start is below
    2^53, the value computed from the left edge of the bar is that start
    again. *)
Theorem fromPosition_toGeometry_roundtrip :
  forall (task : Task) (project : Project) (c : Z),
    0 < c < 2 ^ 53 ->
    let s := TaskBar.getScaleValue task project FStart in
    match viewScale project with
    | Hour => TaskBar.startMinutes project <= s <= TaskBar.endMinutes project
              /\ s mod 5 = 0
    | _ => 1 <= s <= TaskBar.getMaxValue project
    end ->
    (s - TaskBar.getMinValue project) * c < 2 ^ 53 ->
    TaskBar64.newValueAt project (Double.ofZ c)
      (TaskBar64.barLeft task project (Double.ofZ c)) = Some s.
Proof.
  intros task project c Hc s Hb Hpx.
  unfold TaskBar64.newValueAt, TaskBar64.cellIndexAt, TaskBar64.barLeft,
    TaskBar64.startOffset.
  fold s. unfold TaskBar.getMinValue in Hpx.
  destruct (viewScale project) eqn:Hsc.
  - destruct Hb as [[Hlo Hhi] Hm].
    assert (Hk : s - TaskBar.startMinutes project
                 = 5 * ((s - TaskBar.startMinutes project) / 5)).
    { apply Z.div_exact; [lia | ].
      unfold TaskBar.startMinutes.
      rewrite Zminus_mod, Hm.
      replace (startHour (TaskBar.hourSettings project) * 60)
        with ((startHour (TaskBar.hourSettings project) * 12) * 5) by lia.
      rewrite Z_mod_mult. reflexivity. }
    set (k := (s - TaskBar.startMinutes project) / 5) in *.
    assert (Hk0 : 0 <= k) by lia.
    rewrite Hk, Double_fifth by nia.
    rewrite Double_round_trip by nia. f_equal. lia.
  - rewrite Double_round_trip by lia. f_equal. lia.
  - rewrite Double_round_trip by lia. f_equal. lia.
  - rewrite Double_round_trip by lia. f_equal. lia.
Qed.

(** A task at 9:35 to 10:00 in the default 8-to-18 window, cells of 24
    pixels: the bar starts at pixel 456 and pixel 456 maps back to 575. *)
Lemma fromPosition_toGeometry_roundtrip_witness :
  0 < 24 < 2 ^ 53 /\
  (480 <= 575 <= 1080 /\ 575 mod 5 = 0) /\
  (575 - 480) * 24 < 2 ^ 53 /\
  TaskBar64.barLeft Fixture.task_0935 Fixture.hourProject (Double.ofZ 24)
  = Double.ofZ 456 /\
  TaskBar64.newValueAt Fixture.hourProject (Double.ofZ 24)
    (TaskBar64.barLeft Fixture.task_0935 Fixture.hourProject (Double.ofZ 24))
  = Some 575.
Proof.
  assert (Hc : 0 < 24 < 2 ^ 53) by (split; reflexivity).
  assert (Hb : 480 <= 575 <= 1080 /\ 575 mod 5 = 0)
    by (split; [lia | reflexivity]).
  assert (Hpx : (575 - 480) * 24 < 2 ^ 53) by reflexivity.
  split; [exact Hc | split; [exact Hb | split; [exact Hpx | ]]].
  split; [vm_compute; reflexivity | ].
  exact (fromPosition_toGeometry_roundtrip Fixture.task_0935
           Fixture.hourProject 24 Hc Hb Hpx).
Defined.

(** The bar of [TaskBar] never starts left of the grid and is never narrower
    than one cell minus the 4-pixel gap. *)
Lemma TaskBar_geometry_floor (task : Task) (project : Project) (cw : Q) :
  (0 <= cw)%Q ->
  (0 <= left (TaskBar.getBarPosition task project cw))%Q /\
  (cw - 4 <= width (TaskBar.getBarPosition task project cw))%Q.
Proof.
  intros Hcw. unfold TaskBar.getBarPosition.
  destruct (viewScale project); cbn [left width];
    (split;
     [ apply Qmult_le_0_compat; [apply Q.le_max_l | exact Hcw]
     | apply Qplus_le_l; rewrite <- (Qmult_1_l cw) at 1;
       apply Qmult_le_compat_r; [apply Q.le_max_l | exact Hcw] ]).
Qed.

(** The two preview copies of [getTaskBarStyle] apply the same floors, with
    a 2-pixel gap. *)
Lemma preview_geometry_floor (task : Task) (project : Project) :
  (0 <= left (PrintPreview.getTaskBarStyle project task))%Q /\
  (PrintPreview.cellWidth project - 2
     <= width (PrintPreview.getTaskBarStyle project task))%Q /\
  (0 <= left (ExportModal.getTaskBarStyle project task))%Q /\
  (ExportModal.cellWidth project - 2
     <= width (ExportModal.getTaskBarStyle project task))%Q.
Proof.
  assert (Hp : (0 <= PrintPreview.cellWidth project)%Q)
    by (unfold PrintPreview.cellWidth; destruct (viewScale project);
        discriminate).
  assert (He : (0 <= ExportModal.cellWidth project)%Q)
    by (unfold ExportModal.cellWidth; destruct (viewScale project);
        discriminate).
  unfold PrintPreview.getTaskBarStyle, ExportModal.getTaskBarStyle.
  destruct (viewScale project) eqn:E; cbn [left width];
    repeat split;
    first
      [ apply Qmult_le_0_compat; [apply Q.le_max_l | assumption]
      | apply Qplus_le_l;
        match goal with |- (?c <= _ * ?c)%Q =>
          rewrite <- (Qmult_1_l c) at 1 end;
        apply Qmult_le_compat_r; [apply Q.le_max_l | assumption] ].
Qed.

(** C5. In every view that draws bars (the editor through [TaskBar], the
    print preview and the export), and for every positive cell width, the
    bar of a task has offset [max(0, (start - startMinutes)/5) * cellWidth]
    and width [max(1, (end - start)/5 + 1) * cellWidth - gap] on the hour
    scale, and offset [max(0, start - 1) * cellWidth] and width
    [max(1, end - start + 1) * cellWidth - gap] on the other scales, with
    the gap 4 in the editor and 2 in the two previews and their own cell
    widths there; so the offset is never negative and the width never
    below [cellWidth - gap], whatever the interval. *)
Theorem toGeometry_in_every_view :
  forall (task : Task) (project : Project) (cellWidth : Q),
    (0 < cellWidth)%Q ->
    let i := resolve task (viewScale project) in
    let offset :=
      match viewScale project with
      | Hour => (inject_Z (start i - TaskBar.startMinutes project) / 5)%Q
      | _ => inject_Z (start i - 1)
      end in
    let duration :=
      match viewScale project with
      | Hour => (inject_Z (end_ i - start i) / 5 + 1)%Q
      | _ => inject_Z (end_ i - start i + 1)
      end in
    let editor := TaskBar.getBarPosition task project cellWidth in
    let preview := PrintPreview.getTaskBarStyle project task in
    let export := ExportModal.getTaskBarStyle project task in
    ((left editor == Qmax 0 offset * cellWidth)%Q
     /\ (width editor == Qmax 1 duration * cellWidth - 4)%Q)
    /\ ((left preview == Qmax 0 offset * PrintPreview.cellWidth project)%Q
        /\ (width preview
            == Qmax 1 duration * PrintPreview.cellWidth project - 2)%Q)
    /\ ((left export == Qmax 0 offset * ExportModal.cellWidth project)%Q
        /\ (width export
            == Qmax 1 duration * ExportModal.cellWidth project - 2)%Q)
    /\ ((0 <= left editor)%Q /\ (cellWidth - 4 <= width editor)%Q)
    /\ ((0 <= left preview)%Q
        /\ (PrintPreview.cellWidth project - 2 <= width preview)%Q)
    /\ ((0 <= left export)%Q
        /\ (ExportModal.cellWidth project - 2 <= width export)%Q).
Proof.
  intros task project cw Hcw i offset duration editor preview export.
  pose proof (TaskBar_geometry_floor task project cw (Qlt_le_weak _ _ Hcw))
    as He.
  pose proof (preview_geometry_floor task project) as [Hp1 [Hp2 [Hx1 Hx2]]].
  split; [ | split; [ | split; [ | split; [exact He | split]]]];
    [ | | | split; assumption | split; assumption].
  all: subst editor preview export offset duration i.
  all: unfold TaskBar.getBarPosition, PrintPreview.getTaskBarStyle,
         ExportModal.getTaskBarStyle, TaskBar.getScaleValue,
         ChartCalendar.getScaleValue, ChartCalendar.startMinutes,
         ChartCalendar.hourSettings, TaskBar.startMinutes,
         TaskBar.hourSettings, resolve.
  all: destruct (viewScale project); cbn [left width field_get];
         split; reflexivity.
Qed.

(** The default task (8:00 to 9:00) in a window that starts at 10 o'clock:
    the raw offset is negative and the bar starts at pixel 0. *)
Lemma toGeometry_in_every_view_witness :
  (0 < 24)%Q /\
  (left (TaskBar.getBarPosition Fixture.freshTask Fixture.hourProject_10_18
           24) == 0)%Q /\
  (left (PrintPreview.getTaskBarStyle Fixture.hourProject_10_18
           Fixture.freshTask) == 0)%Q.
Proof.
  assert (Hcw : (0 < 24)%Q) by reflexivity.
  pose proof (toGeometry_in_every_view Fixture.freshTask
                Fixture.hourProject_10_18 24 Hcw) as H.
  cbv zeta in H.
  destruct H as [[He _] [[Hp _] _]].
  split; [exact Hcw | split].
  - rewrite He. vm_compute. reflexivity.
  - rewrite Hp. vm_compute. reflexivity.
Defined.

(** The calendar also declares a [getTaskBarStyle] of its own, which
    nothing calls (its bars are drawn by [TaskBar]); that copy multiplies
    the raw start offset by the cell width. *)
Remark ChartCalendar_getTaskBarStyle_unused_copy :
  (left (ChartCalendar.getTaskBarStyle Fixture.hourProject_10_18
           Fixture.freshTask) == -576)%Q.
Proof. vm_compute. reflexivity. Qed.

(** ** ScheduleModel and InteractionController: ordering *)

Lemma wellOrdered_set (t : Task) (sc : ViewScale) (i : Interval) :
  wellOrdered t -> Spec.ordered i ->
  wellOrdered (withSchedule t (sched_set (scheduleOrDefault t) sc i)).
Proof.
  intros Ht Hi sc'. rewrite resolve_withSchedule.
  destruct (ViewScale_eq_dec sc sc') as [<- | Hne].
  - rewrite sched_get_set_same. exact Hi.
  - rewrite sched_get_set_other by exact Hne. apply Ht.
Qed.

Lemma listening_origin (g : TaskBar.Gesture) (ty : DragType) (o : Interval) :
  TaskBar.listening g = Some (ty, o) -> TaskBar.dragStartValues g = Some o.
Proof.
  unfold TaskBar.listening.
  destruct (TaskBar.isDragging g), (TaskBar.dragType g),
    (TaskBar.dragStartValues g); intros H; inversion H; reflexivity.
Qed.

(** What a frame of each mode writes, and when. *)
Lemma handleMouseMove_cases (task : Task) (project : Project) (cw : Q)
  (ty : DragType) (origin : Interval) (x : Q) (s : ScaleBasedSchedule) :
  TaskBar.handleMouseMove task project cw ty origin x = Some s ->
  exists i : Interval,
    s = sched_set (scheduleOrDefault task) (viewScale project) i /\
    let cur := resolve task (viewScale project) in
    let c := TaskBar.newValueAt project cw x in
    let lo := TaskBar.getMinValue project in
    let hi := TaskBar.getMaxValue project in
    match ty with
    | move =>
        let d := end_ origin - start origin in
        i = {| start := Z.max lo (Z.min (hi - d) c);
               end_ := Z.max lo (Z.min (hi - d) c) + d |}
    | resize_start =>
        c < end_ cur /\ lo <= c /\
        i = {| start := Z.max lo (Z.min hi c); end_ := end_ cur |}
    | resize_end =>
        let u := match viewScale project with Hour => 5 | _ => 1 end in
        start cur < c + u /\ c + u <= hi /\
        i = {| start := start cur; end_ := Z.max lo (Z.min hi (c + u)) |}
    end.
Proof.
  unfold TaskBar.handleMouseMove, TaskBar.updateScaleValue,
    TaskBar.getScaleValue, resolve.
  destruct ty; cbn [field_get field_set].
  - intros H. inversion H. eexists. split; reflexivity.
  - destruct (_ <? _) eqn:E1; [ | discriminate].
    destruct (_ >=? _) eqn:E2; [ | discriminate].
    cbn [andb]. intros H. inversion H. eexists. split; [reflexivity | ].
    cbv zeta. repeat split; lia.
  - destruct (_ >? _) eqn:E1; [ | discriminate].
    destruct (_ <=? _) eqn:E2; [ | discriminate].
    cbn [andb]. intros H. inversion H. eexists. split; [reflexivity | ].
    cbv zeta. repeat split; lia.
Qed.

Lemma handleMouseMove_ordered (task : Task) (project : Project) (cw : Q)
  (ty : DragType) (origin : Interval) (x : Q) (s : ScaleBasedSchedule) :
  wellOrdered task -> Spec.ordered origin ->
  TaskBar.handleMouseMove task project cw ty origin x = Some s ->
  wellOrdered (withSchedule task s).
Proof.
  intros Ht Ho H.
  destruct (handleMouseMove_cases _ _ _ _ _ _ _ H) as [i [-> Hi]].
  apply wellOrdered_set; [exact Ht | ].
  unfold Spec.ordered in *.
  destruct ty; cbv zeta in Hi.
  - subst i. cbn. lia.
  - destruct Hi as [H1 [H2 ->]]. cbn. lia.
  - destruct Hi as [H1 [H2 ->]]. cbn. lia.
Qed.

Lemma step_ordered (project : Project) (cw : Q) (t : Task)
  (g : TaskBar.Gesture) (ev : TaskBar.Event) :
  wellOrdered t -> originOrdered g ->
  wellOrdered (fst (TaskBar.step project cw (t, g) ev)) /\
  originOrdered (snd (TaskBar.step project cw (t, g) ev)).
Proof.
  intros Ht Hg. destruct ev as [ty cx | x | ]; cbn [TaskBar.step].
  - split; [exact Ht | ]. unfold originOrdered. cbn. apply (Ht (viewScale project)).
  - destruct (TaskBar.listening g) as [[ty o] | ] eqn:El; [ | split; assumption].
    destruct (TaskBar.handleMouseMove t project cw ty o x) as [s | ] eqn:Em;
      [ | split; assumption].
    split; [ | exact Hg]. cbn [fst].
    apply (handleMouseMove_ordered t project cw ty o x s Ht); [ | exact Em].
    apply listening_origin in El. unfold originOrdered in Hg.
    rewrite El in Hg. exact Hg.
  - destruct (TaskBar.listening g); split; assumption.
Qed.

Lemma run_ordered (project : Project) (cw : Q) (evs : list TaskBar.Event) :
  forall st : Task * TaskBar.Gesture,
    wellOrdered (fst st) -> originOrdered (snd st) ->
    wellOrdered (fst (TaskBar.run project cw st evs)) /\
    originOrdered (snd (TaskBar.run project cw st evs)).
Proof.
  induction evs as [ | ev evs IH]; intros [t g] Ht Hg.
  - split; assumption.
  - cbn [TaskBar.run fold_left]. apply IH;
      apply (step_ordered project cw t g ev Ht Hg).
Qed.

Lemma freshTask_wellOrdered : wellOrdered Fixture.freshTask.
Proof. intros sc. destruct sc; cbv; discriminate. Qed.

(** C1 (counterexample).  A fresh task on the day scale resolves to days 1
    to 3; typing 5 into its start cell stores start 5 next to end 3. *)
Lemma start_cell_input_inverts_interval :
  wellOrdered Fixture.freshTask /\
  resolve (ChartCalendar.onInput Fixture.dayProject Fixture.freshTask
             (ValueInput FStart (Some 5))) Day
    = {| start := 5; end_ := 3 |} /\
  ~ wellOrdered (ChartCalendar.onInput Fixture.dayProject Fixture.freshTask
                   (ValueInput FStart (Some 5))).
Proof.
  split; [exact freshTask_wellOrdered | ].
  split; [reflexivity | ].
  intros H. specialize (H Day). cbv in H. apply H. reflexivity.
Qed.

(** C1 (amended).  Every sequence of pointer events on the task bar
    (pointer-down in any mode, move frames, pointer-up) keeps
    [start <= end] on all four scales when it starts from a task with that
    property (a task without schedule has it).  A single-field update leaves
    the other three scales and the other field as they were, and keeps
    [start <= end] exactly when the written value does not cross the other
    field. *)
Theorem pointer_events_keep_order :
  forall (project : Project) (cellWidth : Q) (evs : list TaskBar.Event)
         (t : Task) (g : TaskBar.Gesture),
    (0 < cellWidth)%Q ->
    wellOrdered t -> originOrdered g ->
    wellOrdered (fst (TaskBar.run project cellWidth (t, g) evs))
    /\ originOrdered (snd (TaskBar.run project cellWidth (t, g) evs))
    /\ forall (f : Field) (v : Z),
         let t' := withSchedule t
                     (ChartCalendar.updateScaleValue project t f v) in
         (forall sc, sc <> viewScale project -> resolve t' sc = resolve t sc)
         /\ resolve t' (viewScale project)
            = field_set (resolve t (viewScale project)) f v
         /\ (wellOrdered t' <->
             match f with
             | FStart => v <= end_ (resolve t (viewScale project))
             | FEnd => start (resolve t (viewScale project)) <= v
             end).
Proof.
  intros project cw evs t g _ Ht Hg.
  destruct (run_ordered project cw evs (t, g) Ht Hg) as [H1 H2].
  split; [exact H1 | split; [exact H2 | ]].
  intros f v t'. subst t'. unfold ChartCalendar.updateScaleValue.
  split; [ | split].
  - intros sc Hne. rewrite resolve_withSchedule.
    apply sched_get_set_other. congruence.
  - rewrite resolve_withSchedule. apply sched_get_set_same.
  - split.
    + intros H. specialize (H (viewScale project)).
      rewrite resolve_withSchedule, sched_get_set_same in H.
      destruct f; exact H.
    + intros H. apply wellOrdered_set; [exact Ht | ].
      destruct f; exact H.
Qed.

(** A fresh task on the day scale, 32-pixel cells: grab the bar, drag it to
    the sixth cell, let go. *)
Lemma pointer_events_keep_order_witness :
  (0 < 32)%Q /\ wellOrdered Fixture.freshTask /\
  originOrdered TaskBar.idle /\
  wellOrdered
    (fst (TaskBar.run Fixture.dayProject 32 (Fixture.freshTask, TaskBar.idle)
            [TaskBar.MouseDown move 10; TaskBar.MouseMove 170;
             TaskBar.MouseUp])).
Proof.
  assert (Hcw : (0 < 32)%Q) by reflexivity.
  assert (Hg : originOrdered TaskBar.idle) by exact I.
  split; [exact Hcw | split; [exact freshTask_wellOrdered | ]].
  split; [exact Hg | ].
  exact (proj1 (pointer_events_keep_order Fixture.dayProject 32
                  [TaskBar.MouseDown move 10; TaskBar.MouseMove 170;
                   TaskBar.MouseUp]
                  Fixture.freshTask TaskBar.idle Hcw
                  freshTask_wellOrdered Hg)).
Defined.

(** ** InteractionController: the move drag *)

(** C7 (counterexample).  On a fresh day-scale task, typing 5 into the
    start cell leaves the interval 5 to 3; grabbing the bar then captures
    the duration -2, and the frame over the second cell commits start 2 and
    end 0. *)
Lemma move_frame_keeps_inverted_origin :
  resolve
    (fst (App.run Fixture.dayProject (Fixture.freshTask, TaskBar.idle)
            [App.Input (ValueInput FStart (Some 5));
             App.Pointer (TaskBar.MouseDown move 40);
             App.Pointer (TaskBar.MouseMove 40)])) Day
    = {| start := 2; end_ := 0 |} /\
  ~ Spec.ordered
      (resolve
         (fst (App.run Fixture.dayProject (Fixture.freshTask, TaskBar.idle)
                 [App.Input (ValueInput FStart (Some 5));
                  App.Pointer (TaskBar.MouseDown move 40);
                  App.Pointer (TaskBar.MouseMove 40)])) Day).
Proof.
  split; [reflexivity | ].
  intros H. cbv in H. apply H. reflexivity.
Qed.

(** C7 (amended).  Every move frame, whatever interval was captured at
    pointer-down, writes both fields of the active scale in one update: the
    new start is the candidate bounded below by [minValue] and above by
    [maxValue - duration], the new end is the new start plus the duration
    captured at pointer-down; the other scales and the gesture are
    untouched.  The committed interval has [start <= end] exactly when the
    captured interval has it. *)
Theorem move_frame_commit :
  forall (task : Task) (project : Project) (cellWidth : Q)
         (g : TaskBar.Gesture) (origin : Interval) (x : Q),
    (0 < cellWidth)%Q ->
    TaskBar.listening g = Some (move, origin) ->
    let st' := TaskBar.step project cellWidth (task, g) (TaskBar.MouseMove x) in
    let d := end_ origin - start origin in
    let newStart :=
      Z.max (TaskBar.getMinValue project)
            (Z.min (TaskBar.getMaxValue project - d)
                   (TaskBar.newValueAt project cellWidth x)) in
    resolve (fst st') (viewScale project)
      = {| start := newStart; end_ := newStart + d |}
    /\ end_ (resolve (fst st') (viewScale project))
       - start (resolve (fst st') (viewScale project)) = d
    /\ (Spec.ordered origin
        <-> Spec.ordered (resolve (fst st') (viewScale project)))
    /\ (forall sc, sc <> viewScale project ->
                   resolve (fst st') sc = resolve task sc)
    /\ snd st' = g.
Proof.
  intros task project cw g origin x _ Hl st' d newStart.
  subst st'. cbn [TaskBar.step]. rewrite Hl.
  cbn [TaskBar.handleMouseMove fst snd]. fold d. fold newStart.
  rewrite resolve_withSchedule, sched_get_set_same. cbn [start end_].
  unfold Spec.ordered in *. cbn [start end_].
  split; [reflexivity | split; [lia | split; [ | split; [ | reflexivity]]]].
  - subst d. split; intros H; lia.
  - intros sc Hne. rewrite resolve_withSchedule.
    apply sched_get_set_other. congruence.
Qed.

(** Days 2 to 4 in a 7-day window, 32-pixel cells: the frame over the sixth
    cell (candidate start 6) commits days 5 to 7. *)
Lemma move_frame_commit_witness :
  (0 < 32)%Q /\
  TaskBar.listening
    (TaskBar.handleMouseDown Fixture.task_d2_4 Fixture.dayProject move 40)
    = Some (move, {| start := 2; end_ := 4 |}) /\
  TaskBar.newValueAt Fixture.dayProject 32 163 = 6 /\
  resolve
    (fst (TaskBar.step Fixture.dayProject 32
            (Fixture.task_d2_4,
             TaskBar.handleMouseDown Fixture.task_d2_4 Fixture.dayProject
               move 40)
            (TaskBar.MouseMove 163))) Day
    = {| start := 5; end_ := 7 |}.
Proof.
  assert (Hcw : (0 < 32)%Q) by reflexivity.
  assert (Hl : TaskBar.listening
                 (TaskBar.handleMouseDown Fixture.task_d2_4
                    Fixture.dayProject move 40)
               = Some (move, {| start := 2; end_ := 4 |}))
    by reflexivity.
  split; [exact Hcw | split; [exact Hl | ]].
  split; [reflexivity | ].
  exact (proj1 (move_frame_commit Fixture.task_d2_4 Fixture.dayProject 32
                  (TaskBar.handleMouseDown Fixture.task_d2_4
                     Fixture.dayProject move 40)
                  {| start := 2; end_ := 4 |} 163 Hcw Hl)).
Defined.

(** ** InteractionController: the resize drags *)

(** C8 (counterexample).  A fresh day-scale task is stretched to day 7 in
    the 7-day window; the window is then shortened to 3 days.  A
    resize-start frame over the fifth cell has candidate 5, which is below
    the end 7 and not below [minValue]: the frame is accepted, and it stores
    start 3, not the candidate. *)
Lemma resize_start_commits_bounded_value :
  resolve
    (fst (TaskBar.run Fixture.dayProject 32 (Fixture.freshTask, TaskBar.idle)
            [TaskBar.MouseDown resize_end 90; TaskBar.MouseMove 161;
             TaskBar.MouseUp])) Day
    = {| start := 1; end_ := 7 |} /\
  TaskBar.newValueAt Fixture.dayProject_3 32 129 = 5 /\
  resolve
    (fst (TaskBar.run Fixture.dayProject_3 32
            (TaskBar.run Fixture.dayProject 32
               (Fixture.freshTask, TaskBar.idle)
               [TaskBar.MouseDown resize_end 90; TaskBar.MouseMove 161;
                TaskBar.MouseUp])
            [TaskBar.MouseDown resize_start 2; TaskBar.MouseMove 129])) Day
    = {| start := 3; end_ := 7 |} /\
  3 <> 5.
Proof.
  repeat split; try reflexivity. discriminate.
Qed.

(** C8 (amended).  With [c] the candidate of the frame and [u] the unit of
    the scale (5 on the hour scale, 1 otherwise):
    - a resize-start frame updates the task if and only if [c < end] and
      [c >= minValue]; it then stores [c] bounded to [minValue, maxValue]
      as the start, which is [c] itself whenever [c <= maxValue];
    - a resize-end frame updates the task if and only if [c + u > start]
      and [c + u <= maxValue]; it then stores [c + u] bounded to
      [minValue, maxValue] as the end, which is [c + u] itself whenever
      [c + u >= minValue];
    - a frame that does not update calls nothing and leaves task and
      gesture as they were. *)
Theorem resize_frame_commit :
  forall (task : Task) (project : Project) (cellWidth : Q) (x : Q),
    (0 < cellWidth)%Q ->
    let cur := resolve task (viewScale project) in
    let c := TaskBar.newValueAt project cellWidth x in
    let u := match viewScale project with Hour => 5 | _ => 1 end in
    let lo := TaskBar.getMinValue project in
    let hi := TaskBar.getMaxValue project in
    let write (i : Interval) :=
      Some (sched_set (scheduleOrDefault task) (viewScale project) i) in
    (forall origin,
       (c < end_ cur /\ lo <= c ->
        TaskBar.handleMouseMove task project cellWidth resize_start origin x
        = write {| start := Z.max lo (Z.min hi c); end_ := end_ cur |}
        /\ (c <= hi -> Z.max lo (Z.min hi c) = c))
       /\ (~ (c < end_ cur /\ lo <= c) ->
           TaskBar.handleMouseMove task project cellWidth resize_start
             origin x = None))
    /\ (forall origin,
       (start cur < c + u /\ c + u <= hi ->
        TaskBar.handleMouseMove task project cellWidth resize_end origin x
        = write {| start := start cur;
                   end_ := Z.max lo (Z.min hi (c + u)) |}
        /\ (lo <= c + u -> Z.max lo (Z.min hi (c + u)) = c + u))
       /\ (~ (start cur < c + u /\ c + u <= hi) ->
           TaskBar.handleMouseMove task project cellWidth resize_end
             origin x = None))
    /\ (forall g ty origin,
          TaskBar.listening g = Some (ty, origin) ->
          TaskBar.handleMouseMove task project cellWidth ty origin x = None ->
          TaskBar.step project cellWidth (task, g) (TaskBar.MouseMove x)
          = (task, g)).
Proof.
  intros task project cw x _ cur c u lo hi write.
  split; [ | split].
  - intros origin.
    unfold TaskBar.handleMouseMove, TaskBar.updateScaleValue,
      TaskBar.getScaleValue.
    fold (resolve task (viewScale project)). fold cur c lo hi.
    cbn [field_get field_set]. split.
    + intros [H1 H2].
      replace (c <? end_ cur) with true by (symmetry; apply Z.ltb_lt; lia).
      replace (c >=? lo) with true by (symmetry; apply Z.geb_le; lia).
      cbn [andb]. split; [reflexivity | lia].
    + intros Hn.
      destruct (c <? end_ cur) eqn:E1; [ | reflexivity].
      destruct (c >=? lo) eqn:E2; [ | reflexivity].
      exfalso. apply Hn. apply Z.ltb_lt in E1. apply Z.geb_le in E2. lia.
  - intros origin.
    unfold TaskBar.handleMouseMove, TaskBar.updateScaleValue,
      TaskBar.getScaleValue.
    fold (resolve task (viewScale project)). fold cur c lo hi u.
    cbn [field_get field_set]. split.
    + intros [H1 H2].
      replace (c + u >? start cur) with true by (symmetry; apply Z.gtb_lt; lia).
      replace (c + u <=? hi) with true by (symmetry; apply Z.leb_le; lia).
      cbn [andb]. split; [reflexivity | lia].
    + intros Hn.
      destruct (c + u >? start cur) eqn:E1; [ | reflexivity].
      destruct (c + u <=? hi) eqn:E2; [ | reflexivity].
      exfalso. apply Hn. apply Z.gtb_lt in E1. apply Z.leb_le in E2. lia.
  - intros g ty origin Hl Hm. cbn [TaskBar.step]. rewrite Hl, Hm. reflexivity.
Qed.

(** Days 2 to 4 in a 7-day window, 32-pixel cells.  A resize-start frame
    over the third cell (candidate 3) stores start 3; a resize-start frame
    over the fifth cell (candidate 5, not below the end) changes nothing. *)
Lemma resize_frame_commit_witness :
  (0 < 32)%Q /\
  TaskBar.handleMouseMove Fixture.task_d2_4 Fixture.dayProject 32
    resize_start {| start := 2; end_ := 4 |} 70
  = Some (sched_set (scheduleOrDefault Fixture.task_d2_4) Day
            {| start := 3; end_ := 4 |}) /\
  TaskBar.step Fixture.dayProject 32
    (Fixture.task_d2_4,
     TaskBar.handleMouseDown Fixture.task_d2_4 Fixture.dayProject
       resize_start 40)
    (TaskBar.MouseMove 130)
  = (Fixture.task_d2_4,
     TaskBar.handleMouseDown Fixture.task_d2_4 Fixture.dayProject
       resize_start 40).
Proof.
  assert (Hcw : (0 < 32)%Q) by reflexivity.
  split; [exact Hcw | split].
  - assert (Hg : TaskBar.newValueAt Fixture.dayProject 32 70
                   < end_ (resolve Fixture.task_d2_4 Day)
                 /\ TaskBar.getMinValue Fixture.dayProject
                    <= TaskBar.newValueAt Fixture.dayProject 32 70)
      by (split; reflexivity || (intros H; discriminate H)).
    exact (proj1 (proj1 (proj1 (resize_frame_commit Fixture.task_d2_4
                                  Fixture.dayProject 32 70 Hcw)
                           {| start := 2; end_ := 4 |}) Hg)).
  - apply (proj2 (proj2 (resize_frame_commit Fixture.task_d2_4
                           Fixture.dayProject 32 130 Hcw))
             _ resize_start {| start := 2; end_ := 4 |});
      reflexivity.
Defined.

(** ** ScheduleModel: the 5-minute grid of the hour scale *)

Lemma rem5_divide (x : Z) : js_rem x 5 = 0 <-> (5 | x).
Proof. unfold js_rem. apply Z.rem_divide. discriminate. Qed.

Lemma divide5_max (a b : Z) : (5 | a) -> (5 | b) -> (5 | Z.max a b).
Proof. intros Ha Hb. apply Z.max_case; assumption. Qed.

Lemma divide5_min (a b : Z) : (5 | a) -> (5 | b) -> (5 | Z.min a b).
Proof. intros Ha Hb. apply Z.min_case; assumption. Qed.

Lemma divide5_hours (h : Z) : (5 | h * 60).
Proof. exists (h * 12). lia. Qed.

Lemma divide5_round5 (m : Z) : (5 | round5 m).
Proof. unfold round5. apply Z.divide_factor_r. Qed.

Lemma round5_on_grid (v : Z) : (5 | v) -> round5 v = v.
Proof.
  intros [k ->]. unfold round5.
  replace (2 * (k * 5) + 5) with (5 + k * 10) by lia.
  rewrite Z.div_add by lia. change (5 / 10) with 0. lia.
Qed.

Lemma divide5_bound (lo hi v : Z) :
  (5 | lo) -> (5 | hi) -> (5 | v) -> (5 | Z.max lo (Z.min hi v)).
Proof. intros. apply divide5_max; [ | apply divide5_min]; assumption. Qed.

Lemma aligned5_divide (i : Interval) :
  aligned5 i <-> (5 | start i) /\ (5 | end_ i).
Proof. unfold aligned5. rewrite !rem5_divide. reflexivity. Qed.

Lemma hourAligned_set_other (t : Task) (sc : ViewScale) (i : Interval) :
  sc <> Hour -> hourAligned t ->
  hourAligned (withSchedule t (sched_set (scheduleOrDefault t) sc i)).
Proof.
  intros Hne Ht. unfold hourAligned.
  rewrite resolve_withSchedule, sched_get_set_other by exact Hne. exact Ht.
Qed.

Lemma hourAligned_set_hour (t : Task) (i : Interval) :
  aligned5 i ->
  hourAligned (withSchedule t (sched_set (scheduleOrDefault t) Hour i)).
Proof. intros Hi. exact Hi. Qed.

Lemma newValueAt_hour_on_grid (project : Project) (cw x : Q) :
  viewScale project = Hour -> (5 | TaskBar.newValueAt project cw x).
Proof.
  intros E. unfold TaskBar.newValueAt. rewrite E.
  apply Z.divide_add_r; [apply divide5_hours | apply Z.divide_factor_r].
Qed.

Lemma handleMouseMove_aligned (task : Task) (project : Project) (cw : Q)
  (ty : DragType) (origin : Interval) (x : Q) (s : ScaleBasedSchedule) :
  hourAligned task ->
  (viewScale project = Hour -> (5 | end_ origin - start origin)) ->
  TaskBar.handleMouseMove task project cw ty origin x = Some s ->
  hourAligned (withSchedule task s).
Proof.
  intros Ht Ho H.
  destruct (handleMouseMove_cases _ _ _ _ _ _ _ H) as [i [-> Hi]].
  destruct (ViewScale_eq_dec (viewScale project) Hour) as [E | Hne];
    [ | apply hourAligned_set_other; assumption].
  rewrite E. apply hourAligned_set_hour. apply aligned5_divide.
  specialize (Ho E).
  pose proof (newValueAt_hour_on_grid project cw x E) as Hc.
  assert (Hlo : (5 | TaskBar.getMinValue project))
    by (unfold TaskBar.getMinValue; rewrite E; apply divide5_hours).
  assert (Hhi : (5 | TaskBar.getMaxValue project))
    by (unfold TaskBar.getMaxValue; rewrite E; apply divide5_hours).
  apply aligned5_divide in Ht. unfold resolve in Hi. rewrite E in Hi.
  fold (resolve task Hour) in Hi. destruct Ht as [Hs He].
  destruct ty; cbv zeta in Hi.
  - subst i. cbn [start end_].
    assert (Hn : (5 | Z.max (TaskBar.getMinValue project)
                      (Z.min (TaskBar.getMaxValue project
                              - (end_ origin - start origin))
                             (TaskBar.newValueAt project cw x)))).
    { apply divide5_bound; [assumption | | assumption].
      apply Z.divide_sub_r; assumption. }
    split; [exact Hn | apply Z.divide_add_r; assumption].
  - destruct Hi as [_ [_ ->]]. cbn [start end_].
    split; [apply divide5_bound; assumption | exact He].
  - destruct Hi as [_ [_ ->]]. cbn [start end_].
    split; [exact Hs | ]. apply divide5_bound; try assumption.
    apply Z.divide_add_r; [assumption | exists 1; reflexivity].
Qed.

Lemma onInput_aligned (project : Project) (t : Task) (ev : InputEvent) :
  hourAligned t -> hourAligned (ChartCalendar.onInput project t ev).
Proof.
  intros Ht. unfold ChartCalendar.onInput.
  assert (Hlo : (5 | ChartCalendar.startMinutes project))
    by apply divide5_hours.
  assert (Hhi : (5 | ChartCalendar.endMinutes project))
    by apply divide5_hours.
  assert (Hw : forall f v, viewScale project = Hour -> (5 | v) ->
            hourAligned (withSchedule t
                           (ChartCalendar.updateScaleValue project t f v))).
  { intros f v E Hv. unfold ChartCalendar.updateScaleValue. rewrite E.
    apply hourAligned_set_hour. apply aligned5_divide.
    apply aligned5_divide in Ht. destruct Ht as [Hs He].
    destruct f; cbn [field_set start end_]; split; assumption. }
  destruct (viewScale project) eqn:E, ev as [f v | f v | f v];
    try exact Ht;
    try (unfold ChartCalendar.valueOnChange, ChartCalendar.updateScaleValue;
         rewrite E; apply hourAligned_set_other; [discriminate | exact Ht]).
  - unfold ChartCalendar.hoursOnChange. cbn [ChartCalendar.minutesToHoursAndMinutes].
    apply Hw; [reflexivity | ]. apply divide5_bound; try assumption.
    unfold ChartCalendar.hoursAndMinutesToMinutes.
    apply Z.divide_add_r; [apply divide5_hours | apply divide5_round5].
  - unfold ChartCalendar.minutesOnChange. cbn [ChartCalendar.minutesToHoursAndMinutes].
    apply Hw; [reflexivity | ]. apply divide5_bound; try assumption.
    unfold ChartCalendar.hoursAndMinutesToMinutes.
    apply Z.divide_add_r; [apply divide5_hours | apply divide5_round5].
Qed.

Lemma app_step_aligned (project : Project) (t : Task) (g : TaskBar.Gesture)
  (ev : App.UIEvent) :
  hourAligned t -> (viewScale project = Hour -> originAligned g) ->
  hourAligned (fst (App.step project (t, g) ev)) /\
  (viewScale project = Hour -> originAligned (snd (App.step project (t, g) ev))).
Proof.
  intros Ht Hg. destruct ev as [[ty cx | x | ] | e]; cbn [App.step TaskBar.step fst snd].
  - split; [exact Ht | ]. intros E. unfold originAligned. cbn.
    apply rem5_divide. unfold TaskBar.getScaleValue. rewrite E.
    apply aligned5_divide in Ht. destruct Ht as [Hs He].
    apply Z.divide_sub_r; assumption.
  - destruct (TaskBar.listening g) as [[ty o] | ] eqn:El; [ | split; assumption].
    destruct (TaskBar.handleMouseMove t project
                (ChartCalendar.cellWidth project) ty o x) as [s | ] eqn:Em;
      [ | split; assumption].
    split; [ | exact Hg]. cbn [fst].
    apply (handleMouseMove_aligned t project
             (ChartCalendar.cellWidth project) ty o x s Ht); [ | exact Em].
    intros E. specialize (Hg E). apply listening_origin in El.
    unfold originAligned in Hg. rewrite El in Hg.
    apply rem5_divide. exact Hg.
  - destruct (TaskBar.listening g); split; assumption.
  - split; [apply onInput_aligned; exact Ht | exact Hg].
Qed.

Lemma app_run_aligned (project : Project) (evs : list App.UIEvent) :
  forall st : Task * TaskBar.Gesture,
    hourAligned (fst st) ->
    (viewScale project = Hour -> originAligned (snd st)) ->
    hourAligned (fst (App.run project st evs)).
Proof.
  induction evs as [ | ev evs IH]; intros [t g] Ht Hg.
  - exact Ht.
  - cbn [App.run fold_left]. apply IH;
      apply (app_step_aligned project t g ev Ht Hg).
Qed.

Lemma freshTask_hourAligned : hourAligned Fixture.freshTask.
Proof. split; reflexivity. Qed.

(** C3 (counterexample).  In the default 8-to-18 window the update of the
    task bar stores the raw value 483 as it is; rounding to the nearest
    multiple of 5 before bounding would store 485. *)
Lemma updateScaleValue_does_not_round :
  start (hour (TaskBar.updateScaleValue Fixture.freshTask
                 Fixture.hourProject FStart 483)) = 483 /\
  Spec.clampHour (TaskBar.startMinutes Fixture.hourProject)
    (TaskBar.endMinutes Fixture.hourProject) 483 = 485.
Proof. split; reflexivity. Qed.

(** C3 (amended).  On the hour scale the update of the task bar only bounds
    the value to [startHour*60, endHour*60]; this is the rounded-then-bounded
    value of the specification whenever the value is already a multiple
    of 5.  Every value the editor passes is one: pointer candidates are
    [startHour*60 + 5*index] and the hour and minute cells round through
    [hoursAndMinutesToMinutes].  Hence, under a given project, every sequence
    of pointer and input events keeps both fields of the hour interval
    multiples of 5 when it starts, with no drag in progress, from a task
    whose hour interval has that property (a task without schedule does). *)
Theorem hour_interval_stays_on_grid :
  forall (project : Project) (evs : list App.UIEvent) (t : Task),
    hourAligned t ->
    hourAligned (fst (App.run project (t, TaskBar.idle) evs))
    /\ (forall f v,
          viewScale project = Hour ->
          field_get
            (resolve (withSchedule t (TaskBar.updateScaleValue t project f v))
               Hour) f
          = Z.max (TaskBar.startMinutes project)
                  (Z.min (TaskBar.endMinutes project) v)
          /\ (js_rem v 5 = 0 ->
              Z.max (TaskBar.startMinutes project)
                    (Z.min (TaskBar.endMinutes project) v)
              = Spec.clampHour (TaskBar.startMinutes project)
                  (TaskBar.endMinutes project) v))
    /\ (forall cw x, viewScale project = Hour ->
          js_rem (TaskBar.newValueAt project cw x) 5 = 0)
    /\ (forall h m,
          js_rem (ChartCalendar.hoursAndMinutesToMinutes h m) 5 = 0).
Proof.
  intros project evs t Ht. split; [ | split; [ | split]].
  - apply app_run_aligned; [exact Ht | intros _; exact I].
  - intros f v E. split.
    + unfold TaskBar.updateScaleValue, TaskBar.getMinValue,
        TaskBar.getMaxValue. rewrite E.
      rewrite resolve_withSchedule, sched_get_set_same.
      destruct f; reflexivity.
    + intros Hv. unfold Spec.clampHour.
      rewrite round5_on_grid by (apply rem5_divide; exact Hv). reflexivity.
  - intros cw x E. apply rem5_divide. apply newValueAt_hour_on_grid. exact E.
  - intros h m. apply rem5_divide.
    unfold ChartCalendar.hoursAndMinutesToMinutes.
    apply Z.divide_add_r; [apply divide5_hours | apply divide5_round5].
Qed.

(** A fresh task in the default hour window: set the end hour to 12, type 7
    into the start minutes, then drag the bar. *)
Lemma hour_interval_stays_on_grid_witness :
  hourAligned Fixture.freshTask /\
  hourAligned
    (fst (App.run Fixture.hourProject (Fixture.freshTask, TaskBar.idle)
            [App.Input (HoursInput FEnd (Some 12));
             App.Input (MinutesInput FStart (Some 7));
             App.Pointer (TaskBar.MouseDown move 300);
             App.Pointer (TaskBar.MouseMove 1000);
             App.Pointer TaskBar.MouseUp])).
Proof.
  split; [exact freshTask_hourAligned | ].
  exact (proj1 (hour_interval_stays_on_grid Fixture.hourProject
                  [App.Input (HoursInput FEnd (Some 12));
                   App.Input (MinutesInput FStart (Some 7));
                   App.Pointer (TaskBar.MouseDown move 300);
                   App.Pointer (TaskBar.MouseMove 1000);
                   App.Pointer TaskBar.MouseUp]
                  Fixture.freshTask freshTask_hourAligned)).
Defined.

(** ** CalendarRules: adding working days *)

Section AddWorkdays.
Variable jpIsHoliday : Date -> bool.
Variable settings : WorkdaySettings.

Let nonWorking (d : Date) : bool := Holidays.isNonWorkday jpIsHoliday d settings.
Let loop (fuel : nat) (w : Z) (cur : Date) (count : Z) : option Date :=
  Holidays.addWorkdaysLoop jpIsHoliday fuel settings w cur count.
Let countIn (a b : Date) : Z :=
  Z.of_nat (List.length (filter (fun d => negb (nonWorking d)) (daysUpTo a b))).

Lemma loop_done (fuel : nat) (w : Z) (cur : Date) (count : Z) :
  w <= count -> loop fuel w cur count = Some cur.
Proof.
  intros H. unfold loop. destruct fuel; cbn;
    (replace (count <? w) with false by (symmetry; apply Z.ltb_ge; lia));
    reflexivity.
Qed.

Lemma loop_step (fuel : nat) (w : Z) (cur : Date) (count : Z) :
  count < w ->
  loop (S fuel) w cur count
  = if negb (nonWorking (cur + 1)) then loop fuel w (cur + 1) (count + 1)
    else loop fuel w (cur + 1) count.
Proof.
  intros H. unfold loop. cbn [Holidays.addWorkdaysLoop].
  replace (count <? w) with true by (symmetry; apply Z.ltb_lt; lia).
  reflexivity.
Qed.

(** From [cur] the loop walks to the first working day after it, and that
    day is the first one it counts. *)
Lemma loop_reaches_next_workday (n : nat) :
  forall cur d' : Date,
    d' - cur - 1 = Z.of_nat n -> nonWorking d' = false ->
    exists (fuel : nat) (r : Date),
      cur < r <= d' /\ nonWorking r = false /\
      (forall d, cur < d < r -> nonWorking d = true) /\
      forall (f : nat) (w count : Z),
        count < w -> loop (fuel + f) w cur count = loop f w r (count + 1).
Proof.
  induction n as [ | n IH]; intros cur d' Hd Hw.
  - exists 1%nat, (cur + 1). replace d' with (cur + 1) in * by lia.
    repeat split; try lia; [exact Hw | ].
    intros f w count Hc. cbn [Nat.add]. rewrite loop_step by exact Hc.
    rewrite Hw. reflexivity.
  - destruct (nonWorking (cur + 1)) eqn:E.
    + destruct (IH (cur + 1) d') as [fuel [r [Hr [Hrw [Hbetween Hloop]]]]];
        [lia | exact Hw | ].
      exists (S fuel), r. repeat split; try lia; [exact Hrw | | ].
      * intros d Hdr. destruct (Z.eq_dec d (cur + 1)) as [-> | Hne];
          [exact E | apply Hbetween; lia].
      * intros f w count Hc. cbn [Nat.add]. rewrite loop_step by exact Hc.
        rewrite E. cbn [negb]. apply Hloop. exact Hc.
    + exists 1%nat, (cur + 1). repeat split; try lia; [exact E | ].
      intros f w count Hc. cbn [Nat.add]. rewrite loop_step by exact Hc.
      rewrite E. reflexivity.
Qed.

Lemma map_seq_from (f : nat -> Z) (s n : nat) :
  map f (seq s n) = map (fun k => f (s + k)%nat) (seq 0 n).
Proof.
  revert f s. induction n as [ | n IH]; intros f s; [reflexivity | ].
  cbn [seq map]. rewrite Nat.add_0_r. f_equal.
  rewrite (IH f (S s)), (IH (fun k => f (s + k)%nat) 1%nat).
  apply map_ext. intros k. f_equal. lia.
Qed.

Lemma eachDayOfInterval_forward (a b : Date) :
  a <= b -> Holidays.eachDayOfInterval a b = daysUpTo a b.
Proof.
  intros H. unfold Holidays.eachDayOfInterval.
  replace (b <? a) with false by (symmetry; apply Z.ltb_ge; exact H).
  reflexivity.
Qed.

Lemma countWorkdays_forward (a b : Date) :
  a <= b -> Holidays.countWorkdays jpIsHoliday a b settings = countIn a b.
Proof.
  intros H. unfold Holidays.countWorkdays.
  rewrite (eachDayOfInterval_forward a b H). reflexivity.
Qed.

Lemma daysUpTo_split (a b c : Date) :
  a <= b + 1 -> b <= c ->
  daysUpTo a c = daysUpTo a b ++ daysUpTo (b + 1) c.
Proof.
  intros Hab Hbc. unfold daysUpTo.
  replace (Z.to_nat (c - a + 1))
    with (Z.to_nat (b - a + 1) + Z.to_nat (c - (b + 1) + 1))%nat by lia.
  rewrite seq_app, map_app. cbn [Nat.add]. apply f_equal.
  rewrite map_seq_from. apply map_ext. intros k. lia.
Qed.

Lemma countIn_split (a b c : Date) :
  a <= b + 1 -> b <= c -> countIn a c = countIn a b + countIn (b + 1) c.
Proof.
  intros Hab Hbc. unfold countIn.
  rewrite (daysUpTo_split a b c Hab Hbc).
  rewrite filter_app, length_app. lia.
Qed.

Lemma filter_none (p : Date -> bool) (l : list Date) :
  (forall d, In d l -> p d = false) -> filter p l = [].
Proof.
  induction l as [ | d l IH]; intros H; [reflexivity | ].
  cbn [filter]. rewrite (H d) by (left; reflexivity).
  apply IH. intros d' Hd'. apply H. right. exact Hd'.
Qed.

Lemma countIn_none (a b : Date) :
  (forall d, a <= d <= b -> nonWorking d = true) -> countIn a b = 0.
Proof.
  intros H. unfold countIn.
  rewrite filter_none; [reflexivity | ].
  intros d Hd.
  unfold daysUpTo in Hd. apply in_map_iff in Hd.
  destruct Hd as [k [<- Hk]]. apply in_seq in Hk.
  fold (nonWorking (a + Z.of_nat k)). rewrite H by lia. reflexivity.
Qed.

Lemma countIn_single (d : Date) : nonWorking d = false -> countIn d d = 1.
Proof.
  intros H. unfold countIn, daysUpTo.
  replace (Z.to_nat (d - d + 1)) with 1%nat by lia.
  cbn [seq map filter]. replace (d + Z.of_nat 0) with d by lia.
  fold (nonWorking d). rewrite H. reflexivity.
Qed.

Lemma loop_counts (k : nat) :
  forall (cur : Date) (w count : Z),
    w - count = Z.of_nat k ->
    (forall d, cur <= d -> exists d', d < d' /\ nonWorking d' = false) ->
    exists (fuel : nat) (r : Date),
      (forall f, loop (fuel + f) w cur count = Some r) /\
      cur <= r /\ ((0 < k)%nat -> cur < r /\ nonWorking r = false) /\
      countIn (cur + 1) r = Z.of_nat k.
Proof.
  induction k as [ | k IH]; intros cur w count Hk Hinf.
  - exists 0%nat, cur. repeat split; try lia.
    + intros f. apply loop_done. lia.
    + apply countIn_none. intros d Hd. lia.
  - destruct (Hinf cur) as [d' [Hd' Hw']]; [lia | ].
    destruct (loop_reaches_next_workday (Z.to_nat (d' - cur - 1)) cur d')
      as [fuel1 [r1 [Hr1 [Hr1w [Hbetween Hloop1]]]]]; [lia | exact Hw' | ].
    destruct (IH r1 w (count + 1)) as [fuel2 [r [Hloop2 [Hle [Hpos Hcount]]]]];
      [lia | intros d Hd; apply Hinf; lia | ].
    exists (fuel1 + fuel2)%nat, r. split; [ | split; [lia | split]].
    + intros f. rewrite <- Nat.add_assoc. rewrite Hloop1 by lia. apply Hloop2.
    + intros _. split; [lia | ].
      destruct k as [ | k];
        [ | apply Hpos; lia].
      assert (r = r1); [ | subst r; exact Hr1w].
      specialize (Hloop2 0%nat). rewrite loop_done in Hloop2 by lia.
      congruence.
    + rewrite (countIn_split (cur + 1) r1 r) by lia.
      rewrite (countIn_split (cur + 1) (r1 - 1) r1) by lia.
      rewrite countIn_none by (intros d Hd; apply Hbetween; lia).
      replace (r1 - 1 + 1) with r1 by lia.
      rewrite countIn_single by exact Hr1w. lia.
Qed.
End AddWorkdays.

(** C9. [addWorkdays(start, 0, settings)] is [start], whatever kind of day
    [start] is.  For [n >= 1], when every day from [start] on is followed
    by some working day, the loop stops: with enough iterations allowed it
    returns a day [r] after [start] that is a working day, and exactly [n]
    working days lie in [start+1 .. r], so [start] itself is not counted. *)
Theorem addWorkdays_returns_nth_workday :
  forall (jpIsHoliday : Date -> bool) (start_ : Date)
         (settings : WorkdaySettings),
    (forall fuel, Holidays.addWorkdays jpIsHoliday fuel start_ 0 settings
                  = Some start_)
    /\ forall n : Z,
         1 <= n ->
         (forall d, start_ <= d ->
            exists d', d < d'
                       /\ Holidays.isNonWorkday jpIsHoliday d' settings = false) ->
         exists (fuel : nat) (r : Date),
           (forall fuel', (fuel <= fuel')%nat ->
              Holidays.addWorkdays jpIsHoliday fuel' start_ n settings = Some r)
           /\ start_ < r
           /\ Holidays.isNonWorkday jpIsHoliday r settings = false
           /\ Holidays.countWorkdays jpIsHoliday (start_ + 1) r settings = n.
Proof.
  intros jp s0 settings. split.
  - intros fuel. apply loop_done. lia.
  - intros n Hn Hinf.
    destruct (loop_counts jp settings (Z.to_nat n) s0 n 0)
      as [fuel [r [Hloop [_ [Hpos Hcount]]]]]; [lia | exact Hinf | ].
    destruct Hpos as [Hlt Hw]; [lia | ].
    exists fuel, r. repeat split; try assumption;
      [ | rewrite (countWorkdays_forward jp settings) by lia;
          rewrite Hcount; lia].
    intros fuel' Hf. unfold Holidays.addWorkdays.
    replace fuel' with (fuel + (fuel' - fuel))%nat by lia. apply Hloop.
Qed.

(** With the default settings (Sundays and holidays off) and New Year's Day
    as the only holiday, every day is followed by a working day within two
    days. *)
Lemma default_settings_workday_follows (d : Date) :
  Fixture.newYear2024 <= d ->
  exists d', d < d' /\
    Holidays.isNonWorkday Fixture.onlyNewYear d' DEFAULT_WORKDAY_SETTINGS
    = false.
Proof.
  intros Hd. unfold Fixture.newYear2024 in Hd.
  assert (Hday : forall x, d < x -> isSunday x = false ->
            Holidays.isNonWorkday Fixture.onlyNewYear x
              DEFAULT_WORKDAY_SETTINGS = false).
  { intros x Hx Hs. unfold Holidays.isNonWorkday, Holidays.isHoliday, includes.
    cbn [DEFAULT_WORKDAY_SETTINGS customWorkdays customHolidays existsb
         skipSaturday skipSunday skipHolidays andb].
    rewrite Hs. unfold Fixture.onlyNewYear, Fixture.newYear2024.
    replace (x =? 19723) with false by (symmetry; apply Z.eqb_neq; lia).
    reflexivity. }
  destruct (isSunday (d + 1)) eqn:E.
  - exists (d + 2). split; [lia | ]. apply Hday; [lia | ].
    unfold isSunday, getDay in *. apply Z.eqb_eq in E. apply Z.eqb_neq.
    replace (d + 2 + 4) with ((d + 1 + 4) + 1) by lia.
    rewrite Zplus_mod, E. discriminate.
  - exists (d + 1). split; [lia | ]. apply Hday; [lia | exact E].
Qed.

(** Six working days after Monday 2024-01-01 under the default settings. *)
Lemma addWorkdays_returns_nth_workday_witness :
  1 <= 6 /\
  (forall d, Fixture.newYear2024 <= d ->
     exists d', d < d' /\
       Holidays.isNonWorkday Fixture.onlyNewYear d' DEFAULT_WORKDAY_SETTINGS
       = false) /\
  exists (fuel : nat) (r : Date),
    (forall fuel', (fuel <= fuel')%nat ->
       Holidays.addWorkdays Fixture.onlyNewYear fuel' Fixture.newYear2024 6
         DEFAULT_WORKDAY_SETTINGS = Some r)
    /\ Fixture.newYear2024 < r
    /\ Holidays.isNonWorkday Fixture.onlyNewYear r DEFAULT_WORKDAY_SETTINGS
       = false
    /\ Holidays.countWorkdays Fixture.onlyNewYear (Fixture.newYear2024 + 1) r
         DEFAULT_WORKDAY_SETTINGS = 6.
Proof.
  assert (Hn : 1 <= 6) by lia.
  split; [exact Hn | split; [exact default_settings_workday_follows | ]].
  exact (proj2 (addWorkdays_returns_nth_workday Fixture.onlyNewYear
                  Fixture.newYear2024 DEFAULT_WORKDAY_SETTINGS)
               6 Hn default_settings_workday_follows).
Defined.

(** The same run evaluated: Sunday the 7th is skipped, Saturday the 6th is
    not, and the sixth working day is Monday 2024-01-08. *)
Example addWorkdays_new_year_week :
  option_map format_yyyy_MM_dd
    (Holidays.addWorkdays Fixture.onlyNewYear 7 Fixture.newYear2024 6
       DEFAULT_WORKDAY_SETTINGS) = Some "2024-01-08"%string
  /\ Holidays.addWorkdays Fixture.onlyNewYear 6 Fixture.newYear2024 6
       DEFAULT_WORKDAY_SETTINGS = None.
Proof. split; reflexivity. Qed.

(** ** ScheduleModel: creating a task *)

Lemma nth_error_last (prefix : list Task) (lastTask : Task) :
  nth_error (prefix ++ [lastTask])
    (List.length (prefix ++ [lastTask]) - 1) = Some lastTask.
Proof.
  rewrite length_app. cbn [List.length].
  replace (List.length prefix + 1 - 1)%nat with (List.length prefix) by lia.
  rewrite nth_error_app2 by lia. rewrite Nat.sub_diag. reflexivity.
Qed.

(** On the hour scale with at least one task, the new task starts where the
    last task ends ([||] replaces an end of 0 by the default 540) and lasts
    60 minutes; nothing bounds the values to the hour window. *)
Lemma handleAddTask_hour (project : Project) (prefix : list Task)
  (lastTask : Task) (newTaskName : string) :
  viewScale project = Hour -> trim newTaskName <> EmptyString ->
  let e := js_or (end_ (resolve lastTask Hour)) 540 in
  exists data,
    ChartCalendar.handleAddTask project (prefix ++ [lastTask]) newTaskName
    = Some data /\
    scaleSchedule data
    = Some {| hour := {| start := e; end_ := e + 60 |};
              day := {| start := 1; end_ := 3 |};
              week := {| start := 1; end_ := 7 |};
              month := {| start := 1; end_ := 14 |} |}.
Proof.
  intros E Hn e. unfold ChartCalendar.handleAddTask.
  destruct (String.eqb_spec (trim newTaskName) EmptyString) as [H0 | _];
    [contradiction | ].
  rewrite E, nth_error_last. eexists. split; reflexivity.
Qed.

(** On another scale, or without any task yet, the new task carries no
    schedule, so that every scale resolves to the default. *)
Lemma handleAddTask_no_schedule (project : Project) (tasks : list Task)
  (newTaskName : string) (data : Task) :
  viewScale project <> Hour \/ tasks = [] ->
  ChartCalendar.handleAddTask project tasks newTaskName = Some data ->
  scaleSchedule data = None /\
  forall sc, resolve data sc = sched_get DEFAULT_SCALE_SCHEDULE sc.
Proof.
  intros Hc. unfold ChartCalendar.handleAddTask.
  destruct (String.eqb (trim newTaskName) EmptyString); [discriminate | ].
  assert (Hs : match viewScale project,
                     nth_error tasks (List.length tasks - 1) with
               | Hour, Some lastTask =>
                   Some {| hour :=
                             {| start := js_or (end_ (hour (scheduleOrDefault lastTask)))
                                           (end_ (hour DEFAULT_SCALE_SCHEDULE));
                                end_ := js_or (end_ (hour (scheduleOrDefault lastTask)))
                                          (end_ (hour DEFAULT_SCALE_SCHEDULE)) + 60 |};
                           day := day DEFAULT_SCALE_SCHEDULE;
                           week := week DEFAULT_SCALE_SCHEDULE;
                           month := month DEFAULT_SCALE_SCHEDULE |}
               | _, _ => None
               end = None).
  { destruct Hc as [Hne | ->].
    - destruct (viewScale project); try reflexivity. contradiction Hne. reflexivity.
    - destruct (viewScale project); reflexivity. }
  rewrite Hs. intros H. inversion H. split; reflexivity.
Qed.

(** A task created by [handleAddTask] is on the 5-minute grid when the
    last task is. *)
Lemma handleAddTask_hourAligned (project : Project) (tasks : list Task)
  (newTaskName : string) (data : Task) :
  Forall hourAligned tasks ->
  ChartCalendar.handleAddTask project tasks newTaskName = Some data ->
  hourAligned data.
Proof.
  intros Hall. unfold ChartCalendar.handleAddTask.
  destruct (String.eqb (trim newTaskName) EmptyString); [discriminate | ].
  destruct (viewScale project);
    try (intros H; inversion H; split; reflexivity).
  destruct (nth_error tasks (List.length tasks - 1)) as [lastTask | ] eqn:E;
    [ | intros H; inversion H; split; reflexivity].
  intros H. inversion H. clear H.
  apply nth_error_In in E.
  pose proof (proj1 (Forall_forall _ _) Hall lastTask E) as Hl.
  apply aligned5_divide in Hl. destruct Hl as [_ He].
  apply aligned5_divide. cbn.
  assert (Hd : (5 | js_or (end_ (hour (scheduleOrDefault lastTask))) 540)).
  { unfold js_or. destruct (_ =? 0); [exists 108; reflexivity | exact He]. }
  split; [exact Hd | ].
  apply Z.divide_add_r; [exact Hd | exists 12; reflexivity].
Qed.

(** C10. A fresh task in a window that starts at midnight gets its end hour
    set to 0 and so ends at minute 0.  The task added after it should start
    at that end, minute 0, and last until minute 60; [handleAddTask] takes
    the end 0 for a missing value and creates the task at 540 to 600.  With
    any other end [e] of the last task the new task is [e] to [e + 60], as
    for the end 1080 here, where 1140 lies beyond the window end 1080. *)
Theorem handleAddTask_after_midnight_end :
  resolve (ChartCalendar.onInput Fixture.hourProject_0_18 Fixture.freshTask
             (HoursInput FEnd (Some 0))) Hour
    = {| start := 480; end_ := 0 |}
  /\ option_map (fun data => resolve data Hour)
       (ChartCalendar.handleAddTask Fixture.hourProject_0_18
          [ChartCalendar.onInput Fixture.hourProject_0_18 Fixture.freshTask
             (HoursInput FEnd (Some 0))] "pour")
     = Some {| start := 540; end_ := 600 |}
  /\ option_map (fun data => resolve data Hour)
       (ChartCalendar.handleAddTask Fixture.hourProject_0_18
          [ChartCalendar.onInput Fixture.hourProject_0_18 Fixture.freshTask
             (HoursInput FEnd (Some 18))] "pour")
     = Some {| start := 1080; end_ := 1140 |}
  /\ ChartCalendar.endMinutes Fixture.hourProject_0_18 = 1080.
Proof. repeat split; reflexivity. Qed.

(** * Further properties of the code *)

(** ** The four scales are independent *)

Lemma sched_set_twice (s : ScaleBasedSchedule) (sc : ViewScale)
  (i j : Interval) : sched_set (sched_set s sc i) sc j = sched_set s sc j.
Proof. destruct sc; reflexivity. Qed.

(** Every event either leaves the task alone or replaces the interval of the
    active scale in its schedule. *)
Lemma app_step_shape (project : Project) (t : Task) (g : TaskBar.Gesture)
  (ev : App.UIEvent) :
  fst (App.step project (t, g) ev) = t \/
  exists i : Interval,
    fst (App.step project (t, g) ev)
    = withSchedule t (sched_set (scheduleOrDefault t) (viewScale project) i).
Proof.
  destruct ev as [[ty cx | x | ] | e]; cbn [App.step TaskBar.step fst snd].
  - left. reflexivity.
  - destruct (TaskBar.listening g) as [[ty o] | ]; [ | left; reflexivity].
    destruct (TaskBar.handleMouseMove t project
                (ChartCalendar.cellWidth project) ty o x) as [s | ] eqn:Em;
      [ | left; reflexivity].
    destruct (handleMouseMove_cases _ _ _ _ _ _ _ Em) as [i [-> _]].
    right. exists i. reflexivity.
  - destruct (TaskBar.listening g); left; reflexivity.
  - unfold ChartCalendar.onInput, ChartCalendar.hoursOnChange,
      ChartCalendar.minutesOnChange, ChartCalendar.valueOnChange,
      ChartCalendar.updateScaleValue.
    cbn [ChartCalendar.minutesToHoursAndMinutes].
    destruct (viewScale project), e;
      first [left; reflexivity | right; eexists; reflexivity].
Qed.

Lemma app_step_frame (project : Project) (t : Task) (g : TaskBar.Gesture)
  (ev : App.UIEvent) (sc : ViewScale) :
  sc <> viewScale project ->
  let t' := fst (App.step project (t, g) ev) in
  resolve t' sc = resolve t sc /\ id t' = id t /\ projectId t' = projectId t
  /\ name t' = name t /\ assignee t' = assignee t /\ order t' = order t
  /\ color t' = color t /\ tradeId t' = tradeId t.
Proof.
  intros Hne t'. subst t'.
  destruct (app_step_shape project t g ev) as [-> | [i ->]].
  - repeat split.
  - repeat split. rewrite resolve_withSchedule.
    apply sched_get_set_other. congruence.
Qed.

(** X1. Whatever the user does on the active scale (any sequence of pointer
    and input events), the intervals of the other three scales resolve to
    what they were, and the task keeps its identifier, project, name,
    assignee, order, colour and trade. *)
Theorem inactive_scales_untouched :
  forall (project : Project) (evs : list App.UIEvent) (t : Task)
         (g : TaskBar.Gesture) (sc : ViewScale),
    sc <> viewScale project ->
    let t' := fst (App.run project (t, g) evs) in
    resolve t' sc = resolve t sc /\ id t' = id t /\ projectId t' = projectId t
    /\ name t' = name t /\ assignee t' = assignee t /\ order t' = order t
    /\ color t' = color t /\ tradeId t' = tradeId t.
Proof.
  intros project evs. induction evs as [ | ev evs IH]; intros t g sc Hne.
  - cbn. repeat split.
  - cbn [App.run fold_left].
    destruct (App.step project (t, g) ev) as [t1 g1] eqn:E.
    pose proof (app_step_frame project t g ev sc Hne) as H1.
    rewrite E in H1. cbn [fst] in H1.
    specialize (IH t1 g1 sc Hne). cbv zeta in IH, H1. unfold App.run in IH.
    destruct IH as [I1 [I2 [I3 [I4 [I5 [I6 [I7 I8]]]]]]].
    destruct H1 as [J1 [J2 [J3 [J4 [J5 [J6 [J7 J8]]]]]]].
    cbv zeta. repeat split; congruence.
Qed.

(** Editing and dragging on the day scale leaves the week interval of a
    fresh task at its default. *)
Lemma inactive_scales_untouched_witness :
  Week <> viewScale Fixture.dayProject /\
  resolve
    (fst (App.run Fixture.dayProject (Fixture.freshTask, TaskBar.idle)
            [App.Input (ValueInput FEnd (Some 6));
             App.Pointer (TaskBar.MouseDown move 10);
             App.Pointer (TaskBar.MouseMove 100)])) Week
  = resolve Fixture.freshTask Week.
Proof.
  assert (H : Week <> viewScale Fixture.dayProject) by discriminate.
  split; [exact H | ].
  exact (proj1 (inactive_scales_untouched Fixture.dayProject
                  [App.Input (ValueInput FEnd (Some 6));
                   App.Pointer (TaskBar.MouseDown move 10);
                   App.Pointer (TaskBar.MouseMove 100)]
                  Fixture.freshTask TaskBar.idle Week H)).
Defined.

(** ** Pointer frames *)

Lemma withSchedule_twice (t : Task) (s s' : ScaleBasedSchedule) :
  withSchedule (withSchedule t s) s' = withSchedule t s'.
Proof. reflexivity. Qed.

(** X2. A pointer-move frame repeated at the same position changes nothing
    more: the second frame leaves task and gesture as the first one left
    them, in every drag mode and whether the first frame was accepted or
    skipped. *)
Theorem pointer_frame_idempotent :
  forall (project : Project) (cellWidth : Q) (t : Task)
         (g : TaskBar.Gesture) (x : Q),
    TaskBar.step project cellWidth
      (TaskBar.step project cellWidth (t, g) (TaskBar.MouseMove x))
      (TaskBar.MouseMove x)
    = TaskBar.step project cellWidth (t, g) (TaskBar.MouseMove x).
Proof.
  intros project cw t g x. cbn [TaskBar.step].
  destruct (TaskBar.listening g) as [[ty o] | ] eqn:El.
  2:{ cbn [TaskBar.step]. rewrite El. reflexivity. }
  destruct (TaskBar.handleMouseMove t project cw ty o x) as [s | ] eqn:Em.
  2:{ cbn [TaskBar.step]. rewrite El, Em. reflexivity. }
  cbn [TaskBar.step]. rewrite El.
  assert (E2 : TaskBar.handleMouseMove (withSchedule t s) project cw ty o x
               = Some s).
  { revert Em.
    unfold TaskBar.handleMouseMove, TaskBar.updateScaleValue,
      TaskBar.getScaleValue.
    change (scheduleOrDefault (withSchedule t s)) with s.
    destruct ty; cbn [field_get field_set].
    - intros H. injection H as <-. rewrite sched_set_twice. reflexivity.
    - destruct (_ <? _) eqn:E1; [ | discriminate].
      destruct (_ >=? _) eqn:E2; [ | discriminate].
      cbn [andb]. intros H. injection H as <-.
      rewrite !sched_get_set_same. cbn [start end_].
      try rewrite E1; try rewrite E2. cbn [andb].
      rewrite sched_set_twice. reflexivity.
    - destruct (_ >? _) eqn:E1; [ | discriminate].
      destruct (_ <=? _) eqn:E2; [ | discriminate].
      cbn [andb]. intros H. injection H as <-.
      rewrite !sched_get_set_same. cbn [start end_].
      try rewrite E1; try rewrite E2. cbn [andb].
      rewrite sched_set_twice. reflexivity. }
  rewrite E2. reflexivity.
Qed.

Lemma inWindow_set (project : Project) (t : Task) (i : Interval) :
  TaskBar.getMinValue project <= start i -> start i <= end_ i ->
  end_ i <= TaskBar.getMaxValue project ->
  inWindow project
    (withSchedule t (sched_set (scheduleOrDefault t) (viewScale project) i)).
Proof.
  intros H1 H2 H3. unfold inWindow.
  rewrite resolve_withSchedule, sched_get_set_same. auto.
Qed.

Lemma step_inWindow (project : Project) (cw : Q) (t : Task)
  (g : TaskBar.Gesture) (ev : TaskBar.Event) :
  inWindow project t -> originFits project g ->
  inWindow project (fst (TaskBar.step project cw (t, g) ev)) /\
  originFits project (snd (TaskBar.step project cw (t, g) ev)).
Proof.
  intros Ht Hg. pose proof Ht as [H1 [H2 H3]].
  destruct ev as [ty cx | x | ]; cbn [TaskBar.step].
  - split; [exact Ht | ]. unfold originFits. cbn.
    unfold TaskBar.getScaleValue. fold (resolve t (viewScale project)).
    cbn [field_get]. lia.
  - destruct (TaskBar.listening g) as [[ty o] | ] eqn:El; [ | split; assumption].
    destruct (TaskBar.handleMouseMove t project cw ty o x) as [s | ] eqn:Em;
      [ | split; assumption].
    split; [ | exact Hg]. cbn [fst].
    destruct (handleMouseMove_cases _ _ _ _ _ _ _ Em) as [i [-> Hi]].
    apply listening_origin in El. unfold originFits in Hg. rewrite El in Hg.
    destruct ty; cbv zeta in Hi.
    + subst i. apply inWindow_set; cbn [start end_]; lia.
    + destruct Hi as [Ha [Hb ->]]. apply inWindow_set; cbn [start end_]; lia.
    + destruct Hi as [Ha [Hb ->]]. apply inWindow_set; cbn [start end_]; lia.
  - destruct (TaskBar.listening g); split; assumption.
Qed.

(** X3. Dragging never pushes a bar out of the window and never inverts
    it: if the interval of the active scale satisfies
    [minValue <= start <= end <= maxValue], it still does after any sequence
    of pointer events (pointer-down, move, resize-start and resize-end
    frames, pointer-up) under the same project. *)
Theorem pointer_events_keep_window :
  forall (project : Project) (cellWidth : Q) (evs : list TaskBar.Event)
         (t : Task) (g : TaskBar.Gesture),
    (0 < cellWidth)%Q ->
    inWindow project t -> originFits project g ->
    inWindow project (fst (TaskBar.run project cellWidth (t, g) evs)).
Proof.
  intros project cw evs. induction evs as [ | ev evs IH]; intros t g Hcw Ht Hg.
  - exact Ht.
  - cbn [TaskBar.run fold_left].
    destruct (TaskBar.step project cw (t, g) ev) as [t1 g1] eqn:E.
    pose proof (step_inWindow project cw t g ev Ht Hg) as [Ha Hb].
    rewrite E in Ha, Hb. apply (IH t1 g1 Hcw Ha Hb).
Qed.

(** Days 2 to 4 in the 7-day window: drag the bar far right, then pull its
    start far left. *)
Lemma pointer_events_keep_window_witness :
  (0 < 32)%Q /\ inWindow Fixture.dayProject Fixture.task_d2_4 /\
  originFits Fixture.dayProject TaskBar.idle /\
  inWindow Fixture.dayProject
    (fst (TaskBar.run Fixture.dayProject 32 (Fixture.task_d2_4, TaskBar.idle)
            [TaskBar.MouseDown move 40; TaskBar.MouseMove 900;
             TaskBar.MouseUp; TaskBar.MouseDown resize_start 140;
             TaskBar.MouseMove (-50)])).
Proof.
  assert (Hcw : (0 < 32)%Q) by reflexivity.
  assert (Ht : inWindow Fixture.dayProject Fixture.task_d2_4)
    by (unfold inWindow; cbn; lia).
  assert (Hg : originFits Fixture.dayProject TaskBar.idle) by exact I.
  split; [exact Hcw | split; [exact Ht | split; [exact Hg | ]]].
  exact (pointer_events_keep_window Fixture.dayProject 32
           [TaskBar.MouseDown move 40; TaskBar.MouseMove 900;
            TaskBar.MouseUp; TaskBar.MouseDown resize_start 140;
            TaskBar.MouseMove (-50)]
           Fixture.task_d2_4 TaskBar.idle Hcw Ht Hg).
Defined.

(** X4. A resize frame that is accepted never produces an empty or inverted
    interval: after it, [start < end] strictly, whatever the interval was
    before. *)
Theorem accepted_resize_is_strict :
  forall (task : Task) (project : Project) (cellWidth : Q) (ty : DragType)
         (origin : Interval) (x : Q) (s : ScaleBasedSchedule),
    ty <> move ->
    TaskBar.handleMouseMove task project cellWidth ty origin x = Some s ->
    start (sched_get s (viewScale project))
    < end_ (sched_get s (viewScale project)).
Proof.
  intros task project cw ty origin x s Hty Em.
  destruct (handleMouseMove_cases _ _ _ _ _ _ _ Em) as [i [-> Hi]].
  rewrite sched_get_set_same.
  destruct ty; cbv zeta in Hi; [contradiction Hty; reflexivity | | ];
    destruct Hi as [Ha [Hb ->]]; cbn [start end_]; lia.
Qed.

Lemma accepted_resize_is_strict_witness :
  resize_start <> move /\
  TaskBar.handleMouseMove Fixture.task_d2_4 Fixture.dayProject 32
    resize_start {| start := 2; end_ := 4 |} 70
  = Some (sched_set (scheduleOrDefault Fixture.task_d2_4) Day
            {| start := 3; end_ := 4 |}) /\
  start (sched_get (sched_set (scheduleOrDefault Fixture.task_d2_4) Day
                      {| start := 3; end_ := 4 |})
                   (viewScale Fixture.dayProject))
  < end_ (sched_get (sched_set (scheduleOrDefault Fixture.task_d2_4) Day
                       {| start := 3; end_ := 4 |})
                    (viewScale Fixture.dayProject)).
Proof.
  assert (Hty : resize_start <> move) by discriminate.
  assert (Em : TaskBar.handleMouseMove Fixture.task_d2_4 Fixture.dayProject
                 32 resize_start {| start := 2; end_ := 4 |} 70
               = Some (sched_set (scheduleOrDefault Fixture.task_d2_4) Day
                         {| start := 3; end_ := 4 |})) by reflexivity.
  split; [exact Hty | split; [exact Em | ]].
  exact (accepted_resize_is_strict Fixture.task_d2_4 Fixture.dayProject 32
           resize_start {| start := 2; end_ := 4 |} 70 _ Hty Em).
Defined.




(** ** The hour grid and the hour inputs *)

Lemma affine_seq_sorted (a : Z) (n s : nat) :
  Sorted Z.lt (map (fun k => a + 5 * Z.of_nat k) (seq s n)).
Proof.
  revert s. induction n as [ | n IH]; intros s; cbn [seq map].
  - constructor.
  - constructor; [apply IH | ].
    destruct n; cbn [seq map]; constructor. lia.
Qed.

(** X7. A minute value is a column of the hour grid exactly when it lies in
    [startHour*60, endHour*60] and is a whole number of 5-minute steps after
    [startHour*60]; the columns are strictly increasing.  In particular the
    grid is empty when [endHour < startHour]. *)
Theorem timeSlots_membership :
  forall (project : Project) (m : Z),
    (In m (ChartCalendar.timeSlots project) <->
     ChartCalendar.startMinutes project <= m
     <= ChartCalendar.endMinutes project
     /\ (m - ChartCalendar.startMinutes project) mod 5 = 0)
    /\ Sorted Z.lt (ChartCalendar.timeSlots project).
Proof.
  intros project m. unfold ChartCalendar.timeSlots.
  rewrite timeSlotsLoop_spec. cbn [app].
  set (sm := ChartCalendar.startMinutes project).
  set (em := ChartCalendar.endMinutes project).
  split; [ | apply affine_seq_sorted].
  rewrite in_map_iff. split.
  - intros [k [<- Hk]]. apply in_seq in Hk.
    assert (Hn : Z.of_nat k < (em - sm + 5) / 5) by lia.
    assert (H5 : 5 * ((em - sm + 5) / 5) <= em - sm + 5)
      by (apply Z.mul_div_le; lia).
    repeat split; try lia.
    replace (sm + 5 * Z.of_nat k - sm) with (Z.of_nat k * 5) by lia.
    apply Z_mod_mult.
  - intros [[Hlo Hhi] Hmod].
    exists (Z.to_nat ((m - sm) / 5)).
    assert (Hq : m - sm = 5 * ((m - sm) / 5))
      by (apply Z.div_exact; [lia | exact Hmod]).
    assert (H0 : 0 <= (m - sm) / 5) by (apply Z.div_pos; lia).
    split; [lia | ]. apply in_seq. split; [lia | ].
    cbn [Nat.add].
    assert ((m - sm) / 5 < (em - sm + 5) / 5); [ | lia].
    replace (em - sm + 5) with (em - sm + 1 * 5) by lia.
    rewrite Z.div_add by lia.
    assert ((m - sm) / 5 <= (em - sm) / 5); [ | lia].
    apply Z.div_le_mono; lia.
Qed.

(** X8. Splitting a minute value into hours and minutes and putting it
    together again rounds it to the nearest multiple of 5, provided the
    value is not negative: the result differs from the value by at most 2,
    and a value on the 5-minute grid comes back unchanged. *)
Theorem split_and_recombine_rounds :
  forall v : Z,
    0 <= v ->
    let hm := ChartCalendar.minutesToHoursAndMinutes v in
    ChartCalendar.hoursAndMinutesToMinutes (fst hm) (snd hm) = round5 v
    /\ -2 <= ChartCalendar.hoursAndMinutesToMinutes (fst hm) (snd hm) - v <= 2
    /\ (js_rem v 5 = 0 ->
        ChartCalendar.hoursAndMinutesToMinutes (fst hm) (snd hm) = v).
Proof.
  intros v Hv hm. subst hm.
  unfold ChartCalendar.minutesToHoursAndMinutes,
    ChartCalendar.hoursAndMinutesToMinutes, js_rem. cbn [fst snd].
  rewrite Z.rem_mod_nonneg by lia.
  assert (E : v / 60 * 60 + round5 (v mod 60) = round5 v).
  { unfold round5.
    pose proof (Z.div_mod v 60 ltac:(lia)) as Hd.
    set (h := v / 60) in *. set (r := v mod 60) in *.
    replace (2 * v + 5) with (2 * r + 5 + (h * 12) * 10) by lia.
    rewrite Z.div_add by lia. lia. }
  rewrite E. split; [reflexivity | split].
  - unfold round5.
    pose proof (Z.div_mod (2 * v + 5) 10 ltac:(lia)) as Hd.
    pose proof (Z.mod_pos_bound (2 * v + 5) 10 ltac:(lia)) as Hb. lia.
  - intros H5. apply round5_on_grid. apply rem5_divide. exact H5.
Qed.

(** 9:58 is put together as 10:00. *)
Lemma split_and_recombine_rounds_witness :
  0 <= 598 /\
  ChartCalendar.hoursAndMinutesToMinutes
    (fst (ChartCalendar.minutesToHoursAndMinutes 598))
    (snd (ChartCalendar.minutesToHoursAndMinutes 598)) = round5 598.
Proof.
  assert (H : 0 <= 598) by lia.
  split; [exact H | ].
  exact (proj1 (split_and_recombine_rounds 598 H)).
Defined.

Lemma field_get_set_same (i : Interval) (f : Field) (v : Z) :
  field_get (field_set i f v) f = v.
Proof. destruct f; reflexivity. Qed.

Lemma field_set_twice (i : Interval) (f : Field) (v w : Z) :
  field_set (field_set i f v) f w = field_set i f w.
Proof. destruct f; reflexivity. Qed.

Lemma updateScaleValue_again (project : Project) (t : Task) (f : Field)
  (v w : Z) :
  ChartCalendar.updateScaleValue project
    (withSchedule t (ChartCalendar.updateScaleValue project t f v)) f w
  = ChartCalendar.updateScaleValue project t f w.
Proof.
  unfold ChartCalendar.updateScaleValue.
  change (scheduleOrDefault (withSchedule t ?s)) with s.
  rewrite sched_get_set_same, sched_set_twice, field_set_twice. reflexivity.
Qed.

Lemma getScaleValue_updated (project : Project) (t : Task) (f : Field)
  (v : Z) :
  ChartCalendar.getScaleValue project
    (withSchedule t (ChartCalendar.updateScaleValue project t f v)) f = v.
Proof.
  unfold ChartCalendar.getScaleValue, ChartCalendar.updateScaleValue.
  change (scheduleOrDefault (withSchedule t ?s)) with s.
  rewrite sched_get_set_same. apply field_get_set_same.
Qed.

Lemma hours_cell_fixpoint (sh eh H v0 : Z) :
  0 <= sh -> sh <= H <= eh -> sh * 60 <= v0 -> (5 | v0) ->
  let v1 := Z.max (sh * 60)
              (Z.min (eh * 60) (H * 60 + round5 (Z.rem v0 60))) in
  Z.max (sh * 60) (Z.min (eh * 60) (H * 60 + round5 (Z.rem v1 60))) = v1.
Proof.
  intros Hsh HH Hv0 H5 v1.
  assert (Hm : 0 <= Z.rem v0 60 < 60)
    by (rewrite Z.rem_mod_nonneg by lia; apply Z.mod_pos_bound; lia).
  assert (Hr : round5 (Z.rem v0 60) = Z.rem v0 60).
  { apply round5_on_grid. rewrite Z.rem_mod_nonneg by lia.
    rewrite Z.mod_eq by lia. apply Z.divide_sub_r; [exact H5 | ].
    exists (12 * (v0 / 60)). lia. }
  subst v1. rewrite Hr. set (m0 := Z.rem v0 60) in *.
  destruct (Z_le_gt_dec (H * 60 + m0) (eh * 60)) as [Hle | Hgt].
  - replace (Z.max (sh * 60) (Z.min (eh * 60) (H * 60 + m0)))
      with (H * 60 + m0) by lia.
    rewrite Z.rem_mod_nonneg by lia.
    replace ((H * 60 + m0) mod 60) with m0.
    2:{ rewrite (Z.add_comm (H * 60) m0), Z_mod_plus_full, Z.mod_small; lia. }
    rewrite Hr. lia.
  - replace (Z.max (sh * 60) (Z.min (eh * 60) (H * 60 + m0)))
      with (eh * 60) by lia.
    rewrite Z.rem_mul by lia. change (round5 0) with 0. lia.
Qed.

Lemma minutes_cell_fixpoint (sh eh M v0 : Z) :
  0 <= sh <= eh -> 0 <= M <= 55 -> (5 | M) -> sh * 60 <= v0 ->
  let v1 := Z.max (sh * 60) (Z.min (eh * 60) (v0 / 60 * 60 + round5 M)) in
  Z.max (sh * 60) (Z.min (eh * 60) (v1 / 60 * 60 + round5 M)) = v1.
Proof.
  intros Hsh HM H5 Hv0 v1.
  subst v1. rewrite (round5_on_grid M H5).
  assert (Hh : sh <= v0 / 60) by (apply Z.div_le_lower_bound; lia).
  destruct (Z_le_gt_dec (v0 / 60 * 60 + M) (eh * 60)) as [Hle | Hgt].
  - replace (Z.max (sh * 60) (Z.min (eh * 60) (v0 / 60 * 60 + M)))
      with (M + v0 / 60 * 60) by lia.
    rewrite Z.div_add by lia. rewrite Z.div_small by lia. lia.
  - replace (Z.max (sh * 60) (Z.min (eh * 60) (v0 / 60 * 60 + M)))
      with (eh * 60) by lia.
    rewrite Z.div_mul by lia. lia.
Qed.

(** X9. Entering the same value twice into a start or end cell gives the
    same task as entering it once.  On the day, week and month scales this
    holds without condition; on the hour scale it holds when the window has
    [0 <= startHour <= endHour] and the edited field is on the 5-minute grid
    and not before the window start. *)
Theorem input_idempotent :
  forall (project : Project) (t : Task) (ev : InputEvent),
    (viewScale project = Hour ->
     0 <= startHour (ChartCalendar.hourSettings project)
       <= endHour (ChartCalendar.hourSettings project)
     /\ ChartCalendar.startMinutes project
        <= field_get (resolve t Hour) (inputField ev)
     /\ js_rem (field_get (resolve t Hour) (inputField ev)) 5 = 0) ->
    ChartCalendar.onInput project (ChartCalendar.onInput project t ev) ev
    = ChartCalendar.onInput project t ev.
Proof.
  intros project t ev Hh. unfold ChartCalendar.onInput.
  destruct (viewScale project) eqn:E, ev as [f v | f v | f v];
    try reflexivity;
    try (unfold ChartCalendar.valueOnChange;
         rewrite updateScaleValue_again; reflexivity).
  - destruct (Hh eq_refl) as [Hw [Hlo H5]]. cbn [inputField] in *.
    unfold ChartCalendar.hoursOnChange.
    cbn [ChartCalendar.minutesToHoursAndMinutes].
    rewrite getScaleValue_updated, updateScaleValue_again.
    rewrite withSchedule_twice. do 2 f_equal.
    unfold ChartCalendar.hoursAndMinutesToMinutes, js_rem,
      ChartCalendar.startMinutes, ChartCalendar.endMinutes,
      ChartCalendar.getScaleValue in *.
    rewrite E. fold (resolve t Hour).
    apply hours_cell_fixpoint; try lia.
    apply rem5_divide. exact H5.
  - destruct (Hh eq_refl) as [Hw [Hlo H5]]. cbn [inputField] in *.
    unfold ChartCalendar.minutesOnChange.
    cbn [ChartCalendar.minutesToHoursAndMinutes].
    rewrite getScaleValue_updated, updateScaleValue_again.
    rewrite withSchedule_twice. do 2 f_equal.
    unfold ChartCalendar.hoursAndMinutesToMinutes,
      ChartCalendar.startMinutes, ChartCalendar.endMinutes,
      ChartCalendar.getScaleValue in *.
    rewrite E. fold (resolve t Hour).
    assert (HM : (5 | Z.max 0 (Z.min 55 (round5 (parsed_or v 0))))).
    { apply divide5_max; [exists 0; reflexivity | ].
      apply divide5_min; [exists 11; reflexivity | apply divide5_round5]. }
    rewrite (round5_on_grid _ HM).
    pose proof (minutes_cell_fixpoint
                  (startHour (ChartCalendar.hourSettings project))
                  (endHour (ChartCalendar.hourSettings project))
                  (Z.max 0 (Z.min 55 (round5 (parsed_or v 0))))
                  (field_get (resolve t Hour) f)) as Hfix.
    cbv zeta in Hfix. rewrite (round5_on_grid _ HM) in Hfix.
    apply Hfix; try lia. exact HM.
Qed.

(** A fresh task in the default hour window: setting the end hour to 12,
    twice. *)
Lemma input_idempotent_witness :
  (viewScale Fixture.hourProject = Hour ->
   0 <= startHour (ChartCalendar.hourSettings Fixture.hourProject)
     <= endHour (ChartCalendar.hourSettings Fixture.hourProject)
   /\ ChartCalendar.startMinutes Fixture.hourProject
      <= field_get (resolve Fixture.freshTask Hour)
           (inputField (HoursInput FEnd (Some 12)))
   /\ js_rem (field_get (resolve Fixture.freshTask Hour)
                (inputField (HoursInput FEnd (Some 12)))) 5 = 0) /\
  ChartCalendar.onInput Fixture.hourProject
    (ChartCalendar.onInput Fixture.hourProject Fixture.freshTask
       (HoursInput FEnd (Some 12)))
    (HoursInput FEnd (Some 12))
  = ChartCalendar.onInput Fixture.hourProject Fixture.freshTask
      (HoursInput FEnd (Some 12)).
Proof.
  assert (H : viewScale Fixture.hourProject = Hour ->
              0 <= startHour (ChartCalendar.hourSettings Fixture.hourProject)
                <= endHour (ChartCalendar.hourSettings Fixture.hourProject)
              /\ ChartCalendar.startMinutes Fixture.hourProject
                 <= field_get (resolve Fixture.freshTask Hour)
                      (inputField (HoursInput FEnd (Some 12)))
              /\ js_rem (field_get (resolve Fixture.freshTask Hour)
                           (inputField (HoursInput FEnd (Some 12)))) 5 = 0).
  { intros _. cbn. repeat split; try lia; intros H0; discriminate H0. }
  split; [exact H | ].
  exact (input_idempotent Fixture.hourProject Fixture.freshTask
           (HoursInput FEnd (Some 12)) H).
Defined.

(** X10. A value entered into a start or end cell is stored inside the
    window: when [minValue <= maxValue], the edited field of the active
    scale lies in [minValue, maxValue] afterwards, whatever was typed
    (also nothing, or a non-number), and the other field is as before. *)
Theorem input_lands_in_window :
  forall (project : Project) (t : Task) (ev : InputEvent),
    inputRendered (viewScale project) ev = true ->
    ChartCalendar.getMinValue project <= ChartCalendar.getMaxValue project ->
    let t' := ChartCalendar.onInput project t ev in
    ChartCalendar.getMinValue project
    <= field_get (resolve t' (viewScale project)) (inputField ev)
    <= ChartCalendar.getMaxValue project
    /\ forall f, f <> inputField ev ->
         field_get (resolve t' (viewScale project)) f
         = field_get (resolve t (viewScale project)) f.
Proof.
  intros project t ev Hr Hw t'. subst t'.
  assert (Hset : forall f v,
            resolve (withSchedule t
                       (ChartCalendar.updateScaleValue project t f v))
                    (viewScale project)
            = field_set (resolve t (viewScale project)) f v).
  { intros f v. unfold ChartCalendar.updateScaleValue.
    rewrite resolve_withSchedule. apply sched_get_set_same. }
  assert (Hother : forall (i : Interval) f g v,
            g <> f -> field_get (field_set i f v) g = field_get i g).
  { intros i f g v Hne. destruct f, g; try reflexivity; contradiction Hne;
      reflexivity. }
  unfold ChartCalendar.onInput, ChartCalendar.getMinValue,
    ChartCalendar.getMaxValue, ChartCalendar.hoursOnChange,
    ChartCalendar.minutesOnChange, ChartCalendar.valueOnChange in *.
  cbn [ChartCalendar.minutesToHoursAndMinutes].
  destruct (viewScale project) eqn:E, ev as [f v | f v | f v];
    try discriminate Hr; cbn [inputField];
    rewrite ?E; rewrite Hset, field_get_set_same;
    (split; [ | intros g Hg; apply Hother; exact Hg]);
    unfold js_or, ChartCalendar.getMinValue, ChartCalendar.getMaxValue;
    rewrite ?E;
    try match goal with |- context [?a =? 0] => destruct (Z.eqb_spec a 0) end;
    lia.
Qed.

(** A fresh day-scale task in the 7-day window: 40 typed into the end cell
    is stored as 7. *)
Lemma input_lands_in_window_witness :
  inputRendered (viewScale Fixture.dayProject) (ValueInput FEnd (Some 40))
  = true /\
  ChartCalendar.getMinValue Fixture.dayProject
  <= ChartCalendar.getMaxValue Fixture.dayProject /\
  ChartCalendar.getMinValue Fixture.dayProject
  <= field_get
       (resolve (ChartCalendar.onInput Fixture.dayProject Fixture.freshTask
                   (ValueInput FEnd (Some 40)))
                (viewScale Fixture.dayProject))
       (inputField (ValueInput FEnd (Some 40)))
  <= ChartCalendar.getMaxValue Fixture.dayProject.
Proof.
  assert (Hr : inputRendered (viewScale Fixture.dayProject)
                 (ValueInput FEnd (Some 40)) = true) by reflexivity.
  assert (Hw : ChartCalendar.getMinValue Fixture.dayProject
               <= ChartCalendar.getMaxValue Fixture.dayProject)
    by (intros H; discriminate H).
  split; [exact Hr | split; [exact Hw | ]].
  exact (proj1 (input_lands_in_window Fixture.dayProject Fixture.freshTask
                  (ValueInput FEnd (Some 40)) Hr Hw)).
Defined.

(** ** Counting and adding working days *)

Section Workdays.
Variable jpIsHoliday : Date -> bool.
Variable settings : WorkdaySettings.

Let nonWorking (d : Date) : bool := Holidays.isNonWorkday jpIsHoliday d settings.
Let loop (fuel : nat) (w : Z) (cur : Date) (count : Z) : option Date :=
  Holidays.addWorkdaysLoop jpIsHoliday fuel settings w cur count.
Let countIn (a b : Date) : Z :=
  Z.of_nat (List.length (filter (fun d => negb (nonWorking d)) (daysUpTo a b))).

Lemma daysUpTo_head (a b : Date) :
  a <= b -> daysUpTo a b = a :: daysUpTo (a + 1) b.
Proof.
  intros H. unfold daysUpTo.
  replace (Z.to_nat (b - a + 1)) with (S (Z.to_nat (b - (a + 1) + 1))) by lia.
  cbn [seq map]. replace (a + Z.of_nat 0) with a by lia. apply f_equal.
  rewrite map_seq_shift. apply map_ext. intros k. lia.
Qed.

Lemma countIn_head (a b : Date) :
  a <= b ->
  countIn a b = (if nonWorking a then 0 else 1) + countIn (a + 1) b.
Proof.
  intros H. unfold countIn.
  rewrite (daysUpTo_head a b H). cbn [filter].
  fold (nonWorking a). destruct (nonWorking a); cbn [negb List.length]; lia.
Qed.

Lemma countIn_bounds (a b : Date) :
  a <= b + 1 -> 0 <= countIn a b <= b - a + 1.
Proof.
  intros H. unfold countIn.
  pose proof (filter_length_le
                (fun d => negb (nonWorking d)) (daysUpTo a b)) as Hl.
  unfold daysUpTo in Hl at 2.
  rewrite length_map, length_seq in Hl. lia.
Qed.

Lemma loop_step' (fuel : nat) (w : Z) (cur : Date) (count : Z) :
  count < w ->
  loop (S fuel) w cur count
  = if negb (nonWorking (cur + 1)) then loop fuel w (cur + 1) (count + 1)
    else loop fuel w (cur + 1) count.
Proof.
  intros H. unfold loop. cbn [Holidays.addWorkdaysLoop].
  replace (count <? w) with true by (symmetry; apply Z.ltb_lt; lia).
  reflexivity.
Qed.

Lemma loop_done' (fuel : nat) (w : Z) (cur : Date) (count : Z) :
  w <= count -> loop fuel w cur count = Some cur.
Proof.
  intros H. unfold loop. destruct fuel; cbn;
    (replace (count <? w) with false by (symmetry; apply Z.ltb_ge; lia));
    reflexivity.
Qed.

Lemma loop_out_of_fuel (w : Z) (cur : Date) (count : Z) :
  count < w -> loop 0 w cur count = None.
Proof.
  intros H. unfold loop. cbn.
  replace (count <? w) with true by (symmetry; apply Z.ltb_lt; lia).
  reflexivity.
Qed.

(** The walk needs at most one iteration per calendar day up to a day [r]
    by which enough working days have passed. *)
Lemma loop_bounded (k : nat) :
  forall (cur : Date) (w count : Z) (r : Date),
    r - cur = Z.of_nat k -> w - count <= countIn (cur + 1) r ->
    exists r', loop k w cur count = Some r' /\ cur <= r' <= r.
Proof.
  induction k as [ | k IH]; intros cur w count r Hk Hc.
  - replace r with cur in * by lia.
    pose proof (countIn_bounds (cur + 1) cur ltac:(lia)).
    exists cur. split; [apply loop_done'; lia | lia].
  - destruct (Z_le_gt_dec w count) as [Hle | Hgt].
    + exists cur. split; [apply loop_done'; lia | lia].
    + rewrite loop_step' by lia.
      rewrite (countIn_head (cur + 1) r) in Hc by lia.
      destruct (nonWorking (cur + 1)); cbn [negb].
      * destruct (IH (cur + 1) w count r) as [r' [Hr' Hb]]; [lia | lia | ].
        exists r'. split; [exact Hr' | lia].
      * destruct (IH (cur + 1) w (count + 1) r) as [r' [Hr' Hb]];
          [lia | lia | ].
        exists r'. split; [exact Hr' | lia].
Qed.

Lemma loop_more_fuel (f : nat) :
  forall (k : nat) (w : Z) (cur : Date) (count : Z) (r : Date),
    loop f w cur count = Some r -> loop (f + k) w cur count = Some r.
Proof.
  induction f as [ | f IH]; intros k w cur count r H.
  - destruct (Z_le_gt_dec w count) as [Hle | Hgt].
    + rewrite loop_done' in * by lia. exact H.
    + rewrite loop_out_of_fuel in H by lia. discriminate.
  - destruct (Z_le_gt_dec w count) as [Hle | Hgt].
    + rewrite loop_done' in * by lia. exact H.
    + cbn [Nat.add]. rewrite loop_step' in * by lia.
      destruct (negb (nonWorking (cur + 1))); apply IH; exact H.
Qed.

(** What the loop has done when it returns. *)
Lemma loop_returns (f : nat) :
  forall (w : Z) (cur : Date) (count : Z) (r : Date),
    count < w -> loop f w cur count = Some r ->
    cur < r /\ nonWorking r = false /\ countIn (cur + 1) r = w - count.
Proof.
  induction f as [ | f IH]; intros w cur count r Hc H.
  - rewrite loop_out_of_fuel in H by lia. discriminate.
  - rewrite loop_step' in H by lia.
    destruct (nonWorking (cur + 1)) eqn:E; cbn [negb] in H.
    + destruct (IH w (cur + 1) count r Hc H) as [H1 [H2 H3]].
      split; [lia | split; [exact H2 | ]].
      rewrite (countIn_head (cur + 1) r) by lia. rewrite E. lia.
    + destruct (Z_le_gt_dec w (count + 1)) as [Hle | Hgt].
      * rewrite loop_done' in H by lia. injection H as <-.
        split; [lia | split; [exact E | ]].
        rewrite (countIn_head (cur + 1) (cur + 1)) by lia. rewrite E.
        pose proof (countIn_bounds (cur + 1 + 1) (cur + 1) ltac:(lia)). lia.
      * destruct (IH w (cur + 1) (count + 1) r ltac:(lia) H) as [H1 [H2 H3]].
        split; [lia | split; [exact H2 | ]].
        rewrite (countIn_head (cur + 1) r) by lia. rewrite E. lia.
Qed.

Lemma loop_shift (f : nat) :
  forall (w k : Z) (cur : Date) (count : Z),
    loop f (w + k) cur (count + k) = loop f w cur count.
Proof.
  induction f as [ | f IH]; intros w k cur count.
  - destruct (Z_le_gt_dec w count) as [Hle | Hgt].
    + rewrite !loop_done' by lia. reflexivity.
    + rewrite !loop_out_of_fuel by lia. reflexivity.
  - destruct (Z_le_gt_dec w count) as [Hle | Hgt].
    + rewrite !loop_done' by lia. reflexivity.
    + rewrite !loop_step' by lia.
      replace (count + k + 1) with (count + 1 + k) by lia.
      rewrite !IH. reflexivity.
Qed.

Lemma loop_compose (f1 : nat) :
  forall (f2 : nat) (w w2 : Z) (cur : Date) (count : Z) (r1 r2 : Date),
    count <= w <= w2 ->
    loop f1 w cur count = Some r1 -> loop f2 w2 r1 w = Some r2 ->
    loop (f1 + f2) w2 cur count = Some r2.
Proof.
  induction f1 as [ | f1 IH]; intros f2 w w2 cur count r1 r2 Hw H1 H2.
  - destruct (Z_le_gt_dec w count) as [Hle | Hgt].
    + rewrite loop_done' in H1 by lia. injection H1 as <-.
      replace count with w by lia. exact H2.
    + rewrite loop_out_of_fuel in H1 by lia. discriminate.
  - destruct (Z_le_gt_dec w count) as [Hle | Hgt].
    + rewrite loop_done' in H1 by lia. injection H1 as <-.
      replace count with w by lia. rewrite Nat.add_comm.
      apply loop_more_fuel. exact H2.
    + cbn [Nat.add]. rewrite loop_step' in H1 by lia.
      rewrite loop_step' by lia.
      destruct (negb (nonWorking (cur + 1)));
        apply (IH f2 w w2 _ _ r1 r2); try assumption; lia.
Qed.
End Workdays.

(** X11. Working days add up over adjacent periods: for [a <= b < c] the
    working days of [a..c] are those of [a..b] plus those of [b+1..c];
    a period has between 0 and its number of calendar days working days,
    and working and non-working days together are all its days. *)
Theorem countWorkdays_additive :
  forall (jpIsHoliday : Date -> bool) (settings : WorkdaySettings)
         (a b c : Date),
    a <= b -> b < c ->
    Holidays.countWorkdays jpIsHoliday a c settings
    = Holidays.countWorkdays jpIsHoliday a b settings
      + Holidays.countWorkdays jpIsHoliday (b + 1) c settings
    /\ 0 <= Holidays.countWorkdays jpIsHoliday a c settings <= c - a + 1
    /\ Holidays.countWorkdays jpIsHoliday a c settings
       + Z.of_nat (List.length
                     (filter (fun d => Holidays.isNonWorkday jpIsHoliday d settings)
                        (Holidays.eachDayOfInterval a c)))
       = c - a + 1.
Proof.
  intros jp st a b c Hab Hbc.
  rewrite !(countWorkdays_forward jp st) by lia.
  rewrite (eachDayOfInterval_forward a c) by lia.
  split; [ | split].
  - apply (countIn_split jp st a b c); lia.
  - apply (countIn_bounds jp st a c). lia.
  - pose proof (filter_length
                  (fun d => Holidays.isNonWorkday jp d st)
                  (daysUpTo a c)) as Hl.
    unfold daysUpTo in Hl at 3.
    rewrite length_map, length_seq in Hl. lia.
Qed.

(** The first week of 2024 split after Wednesday, default settings. *)
Lemma countWorkdays_additive_witness :
  19723 <= 19725 /\ 19725 < 19729 /\
  Holidays.countWorkdays Fixture.onlyNewYear 19723 19729
    DEFAULT_WORKDAY_SETTINGS
  = Holidays.countWorkdays Fixture.onlyNewYear 19723 19725
      DEFAULT_WORKDAY_SETTINGS
    + Holidays.countWorkdays Fixture.onlyNewYear (19725 + 1) 19729
        DEFAULT_WORKDAY_SETTINGS.
Proof.
  assert (H1 : 19723 <= 19725) by lia.
  assert (H2 : 19725 < 19729) by lia.
  split; [exact H1 | split; [exact H2 | ]].
  exact (proj1 (countWorkdays_additive Fixture.onlyNewYear
                  DEFAULT_WORKDAY_SETTINGS 19723 19725 19729 H1 H2)).
Defined.

(** X12. [addWorkdays] stops as soon as enough working days exist: if at
    least [n >= 1] working days lie in [start+1 .. r], the loop returns
    within [r - start] iterations (and with any larger number allowed), and
    the date it returns is after [start] and not after [r]. *)
Theorem addWorkdays_terminates_within :
  forall (jpIsHoliday : Date -> bool) (settings : WorkdaySettings)
         (start_ : Date) (n : Z) (r : Date),
    1 <= n -> start_ < r ->
    n <= Holidays.countWorkdays jpIsHoliday (start_ + 1) r settings ->
    exists r',
      (forall fuel, (Z.to_nat (r - start_) <= fuel)%nat ->
         Holidays.addWorkdays jpIsHoliday fuel start_ n settings = Some r')
      /\ start_ < r' <= r.
Proof.
  intros jp st s n r Hn Hr Hc.
  rewrite (countWorkdays_forward jp st) in Hc by lia.
  destruct (loop_bounded jp st (Z.to_nat (r - s)) s n 0 r) as [r' [Hl Hb]];
    [lia | lia | ].
  destruct (loop_returns jp st _ n s 0 r' ltac:(lia) Hl) as [Hlt _].
  exists r'. split; [ | lia].
  intros fuel Hf. unfold Holidays.addWorkdays.
  replace fuel with (Z.to_nat (r - s) + (fuel - Z.to_nat (r - s)))%nat by lia.
  apply (loop_more_fuel jp st). exact Hl.
Qed.

(** Three working days after Friday 2024-01-05 exist by Wednesday the 10th
    under the default settings (Sunday the 7th is off). *)
Lemma addWorkdays_terminates_within_witness :
  1 <= 3 /\ 19727 < 19732 /\
  3 <= Holidays.countWorkdays Fixture.onlyNewYear (19727 + 1) 19732
         DEFAULT_WORKDAY_SETTINGS /\
  exists r',
    (forall fuel, (Z.to_nat (19732 - 19727) <= fuel)%nat ->
       Holidays.addWorkdays Fixture.onlyNewYear fuel 19727 3
         DEFAULT_WORKDAY_SETTINGS = Some r')
    /\ 19727 < r' <= 19732.
Proof.
  assert (H1 : 1 <= 3) by lia.
  assert (H2 : 19727 < 19732) by lia.
  assert (H3 : 3 <= Holidays.countWorkdays Fixture.onlyNewYear (19727 + 1)
                      19732 DEFAULT_WORKDAY_SETTINGS)
    by (intros H; discriminate H).
  split; [exact H1 | split; [exact H2 | split; [exact H3 | ]]].
  exact (addWorkdays_terminates_within Fixture.onlyNewYear
           DEFAULT_WORKDAY_SETTINGS 19727 3 19732 H1 H2 H3).
Defined.

(** X13. Whenever [addWorkdays(start, n)] returns for [n >= 1], the date
    [r] it returns is after [start], is a working day, has exactly [n]
    working days in [start+1 .. r] and is at least [n] calendar days after
    [start]; for [n <= 0] it returns [start] at once. *)
Theorem addWorkdays_result :
  forall (jpIsHoliday : Date -> bool) (settings : WorkdaySettings)
         (fuel : nat) (start_ : Date) (n : Z) (r : Date),
    Holidays.addWorkdays jpIsHoliday fuel start_ n settings = Some r ->
    (n <= 0 -> r = start_)
    /\ (1 <= n ->
        start_ < r
        /\ Holidays.isNonWorkday jpIsHoliday r settings = false
        /\ Holidays.countWorkdays jpIsHoliday (start_ + 1) r settings = n
        /\ start_ + n <= r).
Proof.
  intros jp st fuel s n r H. unfold Holidays.addWorkdays in H. split.
  - intros Hn. rewrite (loop_done' jp st) in H by lia. congruence.
  - intros Hn.
    destruct (loop_returns jp st fuel n s 0 r ltac:(lia) H) as [H1 [H2 H3]].
    rewrite (countWorkdays_forward jp st) by lia.
    repeat split; try assumption; try lia.
    pose proof (countIn_bounds jp st (s + 1) r ltac:(lia)) as Hb.
    cbv zeta in Hb, H3. lia.
Qed.

Lemma addWorkdays_result_witness :
  Holidays.addWorkdays Fixture.onlyNewYear 7 Fixture.newYear2024 6
    DEFAULT_WORKDAY_SETTINGS = Some 19730 /\
  (1 <= 6 ->
   Fixture.newYear2024 < 19730
   /\ Holidays.isNonWorkday Fixture.onlyNewYear 19730
        DEFAULT_WORKDAY_SETTINGS = false
   /\ Holidays.countWorkdays Fixture.onlyNewYear (Fixture.newYear2024 + 1)
        19730 DEFAULT_WORKDAY_SETTINGS = 6
   /\ Fixture.newYear2024 + 6 <= 19730).
Proof.
  assert (H : Holidays.addWorkdays Fixture.onlyNewYear 7 Fixture.newYear2024
                6 DEFAULT_WORKDAY_SETTINGS = Some 19730) by reflexivity.
  split; [exact H | ].
  exact (proj2 (addWorkdays_result Fixture.onlyNewYear
                  DEFAULT_WORKDAY_SETTINGS 7 Fixture.newYear2024 6 19730 H)).
Defined.

(** X14. Adding working days in two steps is adding them at once: if
    [addWorkdays(start, m)] returns [r1] and [addWorkdays(r1, n)] returns
    [r2], with [m, n >= 0], then [addWorkdays(start, m + n)] returns
    [r2]. *)
Theorem addWorkdays_compose :
  forall (jpIsHoliday : Date -> bool) (settings : WorkdaySettings)
         (f1 f2 : nat) (start_ : Date) (m n : Z) (r1 r2 : Date),
    0 <= m -> 0 <= n ->
    Holidays.addWorkdays jpIsHoliday f1 start_ m settings = Some r1 ->
    Holidays.addWorkdays jpIsHoliday f2 r1 n settings = Some r2 ->
    Holidays.addWorkdays jpIsHoliday (f1 + f2) start_ (m + n) settings
    = Some r2.
Proof.
  intros jp st f1 f2 s m n r1 r2 Hm Hn H1 H2.
  unfold Holidays.addWorkdays in *.
  apply (loop_compose jp st f1 f2 m (m + n) s 0 r1 r2); [lia | exact H1 | ].
  pose proof (loop_shift jp st f2 n m r1 0) as Hs. cbv zeta in Hs.
  rewrite Z.add_0_l, (Z.add_comm n m) in Hs. rewrite Hs. exact H2.
Qed.

(** Two working days after New Year 2024, then four more. *)
Lemma addWorkdays_compose_witness :
  0 <= 2 /\ 0 <= 4 /\
  Holidays.addWorkdays Fixture.onlyNewYear 2 Fixture.newYear2024 2
    DEFAULT_WORKDAY_SETTINGS = Some 19725 /\
  Holidays.addWorkdays Fixture.onlyNewYear 5 19725 4
    DEFAULT_WORKDAY_SETTINGS = Some 19730 /\
  Holidays.addWorkdays Fixture.onlyNewYear (2 + 5) Fixture.newYear2024 (2 + 4)
    DEFAULT_WORKDAY_SETTINGS = Some 19730.
Proof.
  assert (Hm : 0 <= 2) by lia.
  assert (Hn : 0 <= 4) by lia.
  assert (H1 : Holidays.addWorkdays Fixture.onlyNewYear 2 Fixture.newYear2024
                 2 DEFAULT_WORKDAY_SETTINGS = Some 19725) by reflexivity.
  assert (H2 : Holidays.addWorkdays Fixture.onlyNewYear 5 19725 4
                 DEFAULT_WORKDAY_SETTINGS = Some 19730) by reflexivity.
  split; [exact Hm | split; [exact Hn | split; [exact H1 | split; [exact H2 | ]]]].
  exact (addWorkdays_compose Fixture.onlyNewYear DEFAULT_WORKDAY_SETTINGS
           2 5 Fixture.newYear2024 2 4 19725 19730 Hm Hn H1 H2).
Defined.

(** ** Working-day overrides *)

Lemma format_truthy (d : Date) : truthy (format_yyyy_MM_dd d) = true.
Proof.
  unfold format_yyyy_MM_dd. destruct (civil d) as [[yy mm] dd].
  reflexivity.
Qed.

Lemma includes_app_one (l : list string) (x y : string) :
  includes (l ++ [x]) y = includes l y || String.eqb y x.
Proof.
  unfold includes. rewrite existsb_app. cbn. rewrite orb_false_r.
  reflexivity.
Qed.

Lemma includes_removed (l : list string) (x y : string) :
  includes (filter (fun d => negb (String.eqb d x)) l) y
  = includes l y && negb (String.eqb y x).
Proof.
  unfold includes. induction l as [ | a l IH]; [reflexivity | ].
  cbn [filter existsb].
  destruct (String.eqb a x) eqn:Eax; cbn [negb existsb]; rewrite IH;
    destruct (String.eqb y a) eqn:Eya; destruct (String.eqb y x) eqn:Eyx;
    cbn [negb andb orb];
    rewrite ?andb_false_r, ?andb_true_r, ?orb_false_r; try reflexivity;
    exfalso;
    repeat match goal with
           | H : String.eqb _ _ = true |- _ => apply String.eqb_eq in H
           end;
    subst; rewrite ?String.eqb_refl in *; discriminate.
Qed.

(** X15. Registering the date of a day as a working day makes that day a
    working day under every combination of the other rules, and changes the
    answer for no day with another date.  Registering it as a holiday makes
    it a non-working day unless it is registered as a working day, and
    again changes no other date. *)
Theorem override_added_takes_effect :
  forall (jpIsHoliday : Date -> bool) (settings : WorkdaySettings)
         (d : Date),
    Holidays.isNonWorkday jpIsHoliday d
      (WorkdaySettingsPanel.handleAddWorkday settings (format_yyyy_MM_dd d))
    = false
    /\ Holidays.isNonWorkday jpIsHoliday d
         (WorkdaySettingsPanel.handleAddHoliday settings
            (format_yyyy_MM_dd d))
       = negb (includes (customWorkdays settings) (format_yyyy_MM_dd d))
    /\ forall d' : Date,
         format_yyyy_MM_dd d' <> format_yyyy_MM_dd d ->
         Holidays.isNonWorkday jpIsHoliday d'
           (WorkdaySettingsPanel.handleAddWorkday settings
              (format_yyyy_MM_dd d))
         = Holidays.isNonWorkday jpIsHoliday d' settings
         /\ Holidays.isNonWorkday jpIsHoliday d'
              (WorkdaySettingsPanel.handleAddHoliday settings
                 (format_yyyy_MM_dd d))
            = Holidays.isNonWorkday jpIsHoliday d' settings.
Proof.
  intros jp st d.
  unfold WorkdaySettingsPanel.handleAddWorkday,
    WorkdaySettingsPanel.handleAddHoliday.
  rewrite format_truthy. cbn [negb].
  unfold Holidays.isNonWorkday.
  cbn [WorkdaySettingsPanel.withCustomWorkdays
       WorkdaySettingsPanel.withCustomHolidays customWorkdays customHolidays
       skipSaturday skipSunday skipHolidays].
  rewrite !includes_app_one, !String.eqb_refl, !orb_true_r.
  split; [reflexivity | split].
  - destruct (includes (customWorkdays st) (format_yyyy_MM_dd d));
      reflexivity.
  - intros d' Hne. rewrite !includes_app_one.
    replace (String.eqb (format_yyyy_MM_dd d') (format_yyyy_MM_dd d))
      with false by (symmetry; apply String.eqb_neq; exact Hne).
    rewrite ?orb_false_r. split; reflexivity.
Qed.

Lemma withCustomHolidays_same (s : WorkdaySettings) :
  WorkdaySettingsPanel.withCustomHolidays s (customHolidays s) = s.
Proof. destruct s; reflexivity. Qed.

Lemma withCustomWorkdays_same (s : WorkdaySettings) :
  WorkdaySettingsPanel.withCustomWorkdays s (customWorkdays s) = s.
Proof. destruct s; reflexivity. Qed.

Lemma filter_absent (l : list string) (x : string) :
  ~ In x l -> filter (fun d => negb (String.eqb d x)) l = l.
Proof.
  induction l as [ | a l IH]; intros H; [reflexivity | ].
  cbn [filter]. destruct (String.eqb_spec a x) as [-> | Hne].
  - contradiction H. left. reflexivity.
  - cbn [negb]. f_equal. apply IH. intros Hin. apply H. right. exact Hin.
Qed.

(** X16. Removing a registered holiday removes every copy of that date and
    no other date; adding a date that was not registered and removing it
    again restores the settings exactly.  The same holds for registered
    working days. *)
Theorem override_removed :
  forall (settings : WorkdaySettings) (date : string),
    (forall y,
       In y (customHolidays
               (WorkdaySettingsPanel.handleRemoveHoliday settings date))
       <-> In y (customHolidays settings) /\ y <> date)
    /\ (forall y,
          In y (customWorkdays
                  (WorkdaySettingsPanel.handleRemoveWorkday settings date))
          <-> In y (customWorkdays settings) /\ y <> date)
    /\ (~ In date (customHolidays settings) ->
        WorkdaySettingsPanel.handleRemoveHoliday
          (WorkdaySettingsPanel.handleAddHoliday settings date) date
        = settings)
    /\ (~ In date (customWorkdays settings) ->
        WorkdaySettingsPanel.handleRemoveWorkday
          (WorkdaySettingsPanel.handleAddWorkday settings date) date
        = settings).
Proof.
  intros st date.
  assert (Hf : forall l y,
            In y (filter (fun d => negb (String.eqb d date)) l)
            <-> In y l /\ y <> date).
  { intros l y. rewrite filter_In. split; intros [H1 H2]; (split; [exact H1 | ]).
    - intros ->. rewrite String.eqb_refl in H2. discriminate.
    - apply negb_true_iff. apply String.eqb_neq. exact H2. }
  assert (Hr : forall l, ~ In date l ->
            filter (fun d => negb (String.eqb d date)) (l ++ [date]) = l).
  { intros l Hn. rewrite filter_app, (filter_absent l date Hn).
    cbn. rewrite String.eqb_refl. cbn. apply app_nil_r. }
  split; [ | split; [ | split]].
  - intros y. apply Hf.
  - intros y. apply Hf.
  - intros Hn. unfold WorkdaySettingsPanel.handleAddHoliday,
      WorkdaySettingsPanel.handleRemoveHoliday.
    destruct (truthy date); cbn [negb].
    + cbn [WorkdaySettingsPanel.withCustomHolidays customHolidays].
      rewrite (Hr _ Hn). destruct st; reflexivity.
    + rewrite (filter_absent _ _ Hn). apply withCustomHolidays_same.
  - intros Hn. unfold WorkdaySettingsPanel.handleAddWorkday,
      WorkdaySettingsPanel.handleRemoveWorkday.
    destruct (truthy date); cbn [negb].
    + cbn [WorkdaySettingsPanel.withCustomWorkdays customWorkdays].
      rewrite (Hr _ Hn). destruct st; reflexivity.
    + rewrite (filter_absent _ _ Hn). apply withCustomWorkdays_same.
Qed.

(** ** The scale selector *)

Lemma default_windowsValid (p : Project) :
  hourScaleSettings p = None -> dayScaleSettings p = None ->
  ScaleSelector.windowsValid p.
Proof.
  intros Hh Hd. unfold ScaleSelector.windowsValid,
    ChartCalendar.hourSettings, ChartCalendar.daySettings.
  rewrite Hh, Hd. cbn. lia.
Qed.

Lemma step_windowsValid (p : Project) (ev : ScaleSelector.Event) :
  ScaleSelector.windowsValid p -> ScaleSelector.offered ev ->
  ScaleSelector.windowsValid (ScaleSelector.step p ev).
Proof.
  intros Hv Ho. pose proof Hv as [H1 [H2 [H3 [H4 [H5 H6]]]]].
  unfold ScaleSelector.step.
  destruct ev as [sc | v | v | v | v | v], (viewScale p) eqn:E;
    try exact Hv;
    unfold ScaleSelector.offered in Ho; vm_compute in Ho.
  - destruct (Z.ltb_spec v (endHour (ChartCalendar.hourSettings p)));
      [ | exact Hv].
    unfold ScaleSelector.windowsValid, ChartCalendar.hourSettings,
      ChartCalendar.daySettings in *. cbn.
    repeat (destruct Ho as [Ho | Ho]; [subst v; lia | ]). contradiction.
  - destruct (Z.gtb_spec v (startHour (ChartCalendar.hourSettings p)));
      [ | exact Hv].
    unfold ScaleSelector.windowsValid, ChartCalendar.hourSettings,
      ChartCalendar.daySettings in *. cbn.
    repeat (destruct Ho as [Ho | Ho]; [subst v; lia | ]). contradiction.
  - unfold ScaleSelector.windowsValid, ChartCalendar.hourSettings,
      ChartCalendar.daySettings in *. cbn.
    repeat (destruct Ho as [Ho | Ho]; [subst v; lia | ]). contradiction.
  - unfold ScaleSelector.windowsValid, ChartCalendar.hourSettings,
      ChartCalendar.daySettings in *. cbn.
    repeat (destruct Ho as [Ho | Ho]; [subst v; lia | ]). contradiction.
  - unfold ScaleSelector.windowsValid, ChartCalendar.hourSettings,
      ChartCalendar.daySettings in *. cbn.
    repeat (destruct Ho as [Ho | Ho]; [subst v; lia | ]). contradiction.
Qed.

(** X17. The scale selector keeps the windows usable: starting from a
    project whose windows satisfy [0 <= startHour < endHour <= 24] and have
    at least 3, 7 and 30 days (a project without stored windows does), any
    sequence of selections among the offered options leaves windows with the
    same properties, so that [minValue < maxValue] on the scale shown. *)
Theorem selector_keeps_windows_valid :
  forall (p : Project) (evs : list ScaleSelector.Event),
    ScaleSelector.windowsValid p ->
    Forall ScaleSelector.offered evs ->
    ScaleSelector.windowsValid (ScaleSelector.run p evs)
    /\ TaskBar.getMinValue (ScaleSelector.run p evs)
       < TaskBar.getMaxValue (ScaleSelector.run p evs).
Proof.
  intros p evs Hv Ho.
  assert (Hrun : ScaleSelector.windowsValid (ScaleSelector.run p evs)).
  { revert p Hv. induction Ho as [ | ev evs Hev Hevs IH]; intros p Hv.
    - exact Hv.
    - cbn [ScaleSelector.run fold_left]. apply IH.
      apply step_windowsValid; assumption. }
  split; [exact Hrun | ].
  destruct Hrun as [H1 [H2 [H3 [H4 [H5 H6]]]]].
  unfold TaskBar.getMinValue, TaskBar.getMaxValue, TaskBar.startMinutes,
    TaskBar.endMinutes.
  change (TaskBar.hourSettings ?q) with (ChartCalendar.hourSettings q).
  change (TaskBar.daySettings ?q) with (ChartCalendar.daySettings q).
  destruct (viewScale (ScaleSelector.run p evs)); lia.
Qed.

(** A new project: switch to the hour scale, try to move the window start
    to 20 o'clock (refused, the end is 18), move the end to 12, go to the
    week scale and show 14 days. *)
Lemma selector_keeps_windows_valid_witness :
  ScaleSelector.windowsValid Fixture.dayProject /\
  Forall ScaleSelector.offered
    [ScaleSelector.SelectScale Hour; ScaleSelector.SelectStartHour 20;
     ScaleSelector.SelectEndHour 12; ScaleSelector.SelectScale Week;
     ScaleSelector.SelectWeekCount 14] /\
  TaskBar.getMinValue
    (ScaleSelector.run Fixture.dayProject
       [ScaleSelector.SelectScale Hour; ScaleSelector.SelectStartHour 20;
        ScaleSelector.SelectEndHour 12; ScaleSelector.SelectScale Week;
        ScaleSelector.SelectWeekCount 14])
  < TaskBar.getMaxValue
      (ScaleSelector.run Fixture.dayProject
         [ScaleSelector.SelectScale Hour; ScaleSelector.SelectStartHour 20;
          ScaleSelector.SelectEndHour 12; ScaleSelector.SelectScale Week;
          ScaleSelector.SelectWeekCount 14]).
Proof.
  assert (Hv : ScaleSelector.windowsValid Fixture.dayProject)
    by (apply default_windowsValid; reflexivity).
  assert (Ho : Forall ScaleSelector.offered
                 [ScaleSelector.SelectScale Hour;
                  ScaleSelector.SelectStartHour 20;
                  ScaleSelector.SelectEndHour 12;
                  ScaleSelector.SelectScale Week;
                  ScaleSelector.SelectWeekCount 14]).
  { repeat constructor; vm_compute; tauto. }
  split; [exact Hv | split; [exact Ho | ]].
  exact (proj2 (selector_keeps_windows_valid Fixture.dayProject _ Hv Ho)).
Defined.

Lemma override_added_takes_effect_witness :
  format_yyyy_MM_dd 19724 <> format_yyyy_MM_dd Fixture.newYear2024 /\
  Holidays.isNonWorkday Fixture.onlyNewYear 19724
    (WorkdaySettingsPanel.handleAddHoliday DEFAULT_WORKDAY_SETTINGS
       (format_yyyy_MM_dd Fixture.newYear2024))
  = Holidays.isNonWorkday Fixture.onlyNewYear 19724 DEFAULT_WORKDAY_SETTINGS.
Proof.
  assert (H : format_yyyy_MM_dd 19724
              <> format_yyyy_MM_dd Fixture.newYear2024)
    by (intros E; vm_compute in E; discriminate E).
  split; [exact H | ].
  exact (proj2 (proj2 (proj2 (override_added_takes_effect Fixture.onlyNewYear
                                DEFAULT_WORKDAY_SETTINGS Fixture.newYear2024))
                      19724 H)).
Defined.

Lemma override_removed_witness :
  ~ In "2024-05-01"%string (customHolidays DEFAULT_WORKDAY_SETTINGS) /\
  WorkdaySettingsPanel.handleRemoveHoliday
    (WorkdaySettingsPanel.handleAddHoliday DEFAULT_WORKDAY_SETTINGS
       "2024-05-01") "2024-05-01"
  = DEFAULT_WORKDAY_SETTINGS.
Proof.
  assert (H : ~ In "2024-05-01"%string
                (customHolidays DEFAULT_WORKDAY_SETTINGS))
    by (intros H; exact H).
  split; [exact H | ].
  exact (proj1 (proj2 (proj2 (override_removed DEFAULT_WORKDAY_SETTINGS
                                "2024-05-01"))) H).
Defined.

(** ** The month header *)

Lemma monthHeader_truthy (d : Date) : truthy (formatMonthHeader d) = true.
Proof.
  unfold formatMonthHeader. destruct (civil d) as [[yy mm] dd].
  reflexivity.
Qed.

Lemma truthy_false (s : string) : truthy s = false -> s = EmptyString.
Proof.
  unfold truthy. intros H. apply negb_false_iff in H.
  apply String.eqb_eq. exact H.
Qed.

Lemma expand_app (g1 g2 : list (string * Z)) :
  CalendarGrid.expand (g1 ++ g2)
  = CalendarGrid.expand g1 ++ CalendarGrid.expand g2.
Proof. unfold CalendarGrid.expand. apply flat_map_app. Qed.

Lemma adjacentDistinct_snoc (l : list string) (y : string) :
  adjacentDistinct l ->
  (forall pre x, l = pre ++ [x] -> x <> y) ->
  adjacentDistinct (l ++ [y]).
Proof.
  induction l as [ | a r IH]; intros Hl Hlast; [exact I | ].
  destruct r as [ | b r'].
  - cbn. split; [apply (Hlast [] a eq_refl) | exact I].
  - cbn [app adjacentDistinct] in *. destruct Hl as [Hab Hr].
    split; [exact Hab | ]. apply IH; [exact Hr | ].
    intros pre x E. apply (Hlast (a :: pre) x). cbn. rewrite E. reflexivity.
Qed.

(** The state of the loop, closed as the code closes it after the loop. *)
Lemma monthGroupsLoop_spec (ds : list Date) :
  forall (groups : list (string * Z)) (cm : string) (count : Z),
    (truthy cm = false -> count = 0 /\ groups = []) ->
    (truthy cm = true -> 1 <= count) ->
    Forall (fun g => 1 <= snd g) groups ->
    adjacentDistinct (map fst groups) ->
    (forall pre g, groups = pre ++ [g] -> fst g <> cm) ->
    let closed (st : list (string * Z) * string * Z) :=
      let '(gs, m, c) := st in
      if truthy m then gs ++ [(m, c)] else gs in
    let out := closed (CalendarGrid.monthGroupsLoop ds groups cm count) in
    CalendarGrid.expand out
    = CalendarGrid.expand groups ++ repeat cm (Z.to_nat count)
      ++ map formatMonthHeader ds
    /\ Forall (fun g => 1 <= snd g) out
    /\ adjacentDistinct (map fst out).
Proof.
  induction ds as [ | date rest IH];
    intros groups cm count Hf Ht Hpos Hadj Hlast closed out.
  - subst out closed. cbn [CalendarGrid.monthGroupsLoop map].
    rewrite app_nil_r. destruct (truthy cm) eqn:E.
    + rewrite expand_app. cbn. rewrite app_nil_r.
      split; [reflexivity | split].
      * apply Forall_app. split; [exact Hpos | ].
        constructor; [cbn; apply Ht; reflexivity | constructor].
      * rewrite map_app. cbn [map fst]. apply adjacentDistinct_snoc;
          [exact Hadj | ].
        intros pre x Ex. apply map_eq_app in Ex.
        destruct Ex as [l1 [l2 [E1 [E2 E3]]]].
        destruct l2 as [ | g [ | ? ?]]; try discriminate E3.
        cbn in E3. injection E3 as <-. apply (Hlast l1 g E1).
    + destruct (Hf eq_refl) as [-> ->]. cbn.
      split; [reflexivity | split; [constructor | exact I]].
  - subst out closed. cbn [CalendarGrid.monthGroupsLoop map].
    pose proof (monthHeader_truthy date) as Hm.
    destruct (String.eqb_spec (formatMonthHeader date) cm) as [Heq | Hne];
      cbn [negb].
    + rewrite <- Heq in *. specialize (Ht Hm).
      destruct (IH groups (formatMonthHeader date) (count + 1))
        as [H1 [H2 H3]]; try assumption.
      * intros E. rewrite Hm in E. discriminate.
      * intros _. lia.
      * cbv zeta in H1, H2, H3. split; [ | split; assumption].
        rewrite H1. f_equal.
        replace (Z.to_nat (count + 1)) with (Z.to_nat count + 1)%nat by lia.
        rewrite repeat_app. cbn [repeat]. rewrite <- app_assoc. reflexivity.
    + destruct (truthy cm) eqn:E.
      * destruct (IH (groups ++ [(cm, count)]) (formatMonthHeader date) 1)
          as [H1 [H2 H3]].
        -- intros E'. rewrite Hm in E'. discriminate.
        -- intros _. lia.
        -- apply Forall_app. split; [exact Hpos | ].
           constructor; [cbn; apply Ht; reflexivity | constructor].
        -- rewrite map_app. cbn [map fst]. apply adjacentDistinct_snoc;
             [exact Hadj | ].
           intros pre x Ex. apply map_eq_app in Ex.
           destruct Ex as [l1 [l2 [E1 [E2 E3]]]].
           destruct l2 as [ | g [ | ? ?]]; try discriminate E3.
           cbn in E3. injection E3 as <-. apply (Hlast l1 g E1).
        -- intros pre g Eg. apply app_inj_tail in Eg. destruct Eg as [_ <-].
           cbn. intros Ec. apply Hne. symmetry. exact Ec.
        -- cbv zeta in H1, H2, H3. split; [ | split; assumption].
           rewrite H1, expand_app. cbn. rewrite app_nil_r, <- app_assoc.
           reflexivity.
      * destruct (Hf eq_refl) as [-> ->].
        destruct (IH [] (formatMonthHeader date) 1) as [H1 [H2 H3]].
        -- intros E'. rewrite Hm in E'. discriminate.
        -- intros _. lia.
        -- constructor.
        -- exact I.
        -- intros pre g Eg. destruct pre; discriminate Eg.
        -- cbv zeta in H1, H2, H3. split; [ | split; assumption].
           rewrite H1. reflexivity.
Qed.

Lemma groupByMonth_spec (ds : list Date) :
  CalendarGrid.expand (CalendarGrid.groupByMonth ds)
  = map formatMonthHeader ds
  /\ Forall (fun g => 1 <= snd g) (CalendarGrid.groupByMonth ds)
  /\ adjacentDistinct (map fst (CalendarGrid.groupByMonth ds)).
Proof.
  pose proof (monthGroupsLoop_spec ds [] EmptyString 0) as H.
  cbv zeta in H. unfold CalendarGrid.groupByMonth.
  destruct (CalendarGrid.monthGroupsLoop ds [] EmptyString 0) as [[gs m] c].
  apply H.
  - intros _. split; reflexivity.
  - intros E. discriminate E.
  - constructor.
  - exact I.
  - intros pre g E. destruct pre; discriminate E.
Qed.

Lemma expand_length (gs : list (string * Z)) :
  Forall (fun g => 1 <= snd g) gs ->
  Z.of_nat (List.length (CalendarGrid.expand gs))
  = fold_right Z.add 0 (map snd gs).
Proof.
  induction 1 as [ | g gs Hg Hgs IH]; [reflexivity | ].
  unfold CalendarGrid.expand in *. cbn [flat_map map fold_right].
  rewrite length_app, repeat_length, Nat2Z.inj_add, IH. lia.
Qed.

(** X18. The month header is the run-length encoding of the date columns by
    month: spelled out, it gives the month of each date column in order;
    every group spans at least one column; neighbouring groups are
    different months; and the spans add up to the number of date columns.
    On the hour scale there are neither dates nor groups. *)
Theorem monthGroups_encode_dates :
  forall (parseISO : string -> Date) (project : Project),
    let groups := CalendarGrid.monthGroups parseISO project in
    let dates := CalendarGrid.dates parseISO project in
    CalendarGrid.expand groups = map formatMonthHeader dates
    /\ Forall (fun g => 1 <= snd g) groups
    /\ adjacentDistinct (map fst groups)
    /\ fold_right Z.add 0 (map snd groups) = Z.of_nat (List.length dates)
    /\ (isProvisional project = false ->
        CalendarGrid.previewMonthGroups parseISO project = groups).
Proof.
  intros parseISO project groups dates.
  assert (H : CalendarGrid.expand groups = map formatMonthHeader dates
              /\ Forall (fun g => 1 <= snd g) groups
              /\ adjacentDistinct (map fst groups)).
  { subst groups dates. unfold CalendarGrid.monthGroups, CalendarGrid.dates.
    destruct (viewScale project);
      [split; [reflexivity | split; [constructor | exact I]] | | | ];
      apply groupByMonth_spec. }
  destruct H as [H1 [H2 H3]].
  split; [exact H1 | split; [exact H2 | split; [exact H3 | split]]].
  - rewrite <- (expand_length groups H2), H1, length_map. reflexivity.
  - intros Hp. subst groups.
    unfold CalendarGrid.previewMonthGroups, CalendarGrid.monthGroups.
    rewrite Hp. destruct (viewScale project); reflexivity.
Qed.

(** A three-day window from 2024-01-30: two columns of January 2024 and one
    of February 2024. *)
Lemma monthGroups_encode_dates_witness :
  isProvisional Fixture.dayProject_3 = false /\
  map snd (CalendarGrid.previewMonthGroups Sample.parseISO
             Fixture.dayProject_3) = [2; 1].
Proof.
  assert (H : isProvisional Fixture.dayProject_3 = false) by reflexivity.
  split; [exact H | ].
  rewrite (proj2 (proj2 (proj2 (proj2 (monthGroups_encode_dates
                                         Sample.parseISO
                                         Fixture.dayProject_3)))) H).
  reflexivity.
Defined.

(** ** The bar stays on the grid *)

Lemma fifth_le (a b : Z) : a <= 5 * b -> (inject_Z a / 5 <= inject_Z b)%Q.
Proof.
  intros H. unfold Qle, Qdiv, Qmult, Qinv, inject_Z. cbn. lia.
Qed.

Lemma fifth_nonneg (a : Z) : 0 <= a -> (0 <= inject_Z a / 5)%Q.
Proof.
  intros H. unfold Qle, Qdiv, Qmult, Qinv, inject_Z. cbn. lia.
Qed.

Lemma fifth_add (a b : Z) :
  (inject_Z a / 5 + (inject_Z b / 5 + 1) == inject_Z (a + b + 5) / 5)%Q.
Proof.
  unfold Qeq, Qdiv, Qmult, Qinv, Qplus, inject_Z. cbn. lia.
Qed.

Lemma dates_length (parseISO : string -> Date) (project : Project) :
  viewScale project <> Hour -> 1 <= TaskBar.getMaxValue project ->
  Z.of_nat (List.length (CalendarGrid.dates parseISO project))
  = TaskBar.getMaxValue project.
Proof.
  intros Hsc Hn. unfold CalendarGrid.dates, TaskBar.getMaxValue in *.
  change (TaskBar.daySettings project)
    with (ChartCalendar.daySettings project) in *.
  destruct (viewScale project); [contradiction Hsc; reflexivity | | | ];
    rewrite eachDayOfInterval_forward by (unfold addDays; lia);
    unfold daysUpTo, addDays;
    rewrite length_map, length_seq; lia.
Qed.

(** X6. A bar whose interval lies in the window
    ([minValue <= start <= end <= maxValue]) is drawn on the grid: it starts
    at or right of the grid's left edge and ends, gap included, at or left
    of the right edge of the last column, the grid having one column per
    time slot on the hour scale and one per date otherwise. *)
Theorem bar_stays_on_grid :
  forall (parseISO : string -> Date) (task : Task) (project : Project)
         (cellWidth : Q),
    (0 <= cellWidth)%Q ->
    inWindow project task ->
    let bar := TaskBar.getBarPosition task project cellWidth in
    (0 <= left bar)%Q
    /\ (left bar + width bar + 4
        <= inject_Z (Z.of_nat (CalendarGrid.columns parseISO project))
           * cellWidth)%Q.
Proof.
  intros parseISO task project cw Hcw [Hlo [Hord Hhi]] bar.
  split; [apply (TaskBar_geometry_floor task project cw Hcw) | ].
  subst bar. unfold TaskBar.getBarPosition, TaskBar.getScaleValue.
  fold (resolve task (viewScale project)). cbn [field_get].
  set (s := start (resolve task (viewScale project))) in *.
  set (e := end_ (resolve task (viewScale project))) in *.
  assert (Hsum : forall so dur C : Q,
            (0 <= so)%Q -> (1 <= dur)%Q -> (so + dur <= C)%Q ->
            (Qmax 0 so * cw + (Qmax 1 dur * cw - 4) + 4 <= C * cw)%Q).
  { intros so dur C H0 H1 HC.
    rewrite (Q.max_r _ _ H0), (Q.max_r _ _ H1).
    setoid_replace (so * cw + (dur * cw - 4) + 4)%Q
      with ((so + dur) * cw)%Q by ring.
    apply Qmult_le_compat_r; assumption. }
  unfold CalendarGrid.columns.
  destruct (viewScale project) eqn:E; cbn [left width].
  - unfold TaskBar.getMinValue, TaskBar.getMaxValue in Hlo, Hhi.
    rewrite E in Hlo, Hhi.
    assert (Hlt : startHour (ChartCalendar.hourSettings project)
                  <= endHour (ChartCalendar.hourSettings project))
      by (unfold TaskBar.startMinutes, TaskBar.endMinutes in *;
          change (TaskBar.hourSettings project)
            with (ChartCalendar.hourSettings project) in *; lia).
    assert (Hlen : Z.of_nat (List.length (ChartCalendar.timeSlots project))
                   = (TaskBar.endMinutes project
                      - TaskBar.startMinutes project + 5) / 5).
    { unfold ChartCalendar.timeSlots. rewrite timeSlotsLoop_spec.
      cbn [app]. rewrite length_map, length_seq.
      change (ChartCalendar.endMinutes project)
        with (TaskBar.endMinutes project).
      change (ChartCalendar.startMinutes project)
        with (TaskBar.startMinutes project).
      rewrite Z2Nat.id; [reflexivity | apply Z.div_pos; lia]. }
    rewrite Hlen. apply Hsum.
    + apply fifth_nonneg. lia.
    + setoid_replace 1%Q with (0 + 1)%Q at 1 by ring.
      apply Qplus_le_l. apply fifth_nonneg. lia.
    + rewrite fifth_add. apply fifth_le.
      assert (H5 : TaskBar.endMinutes project - TaskBar.startMinutes project
                   + 5
                   = 5 * ((TaskBar.endMinutes project
                           - TaskBar.startMinutes project + 5) / 5)).
      { apply Z.div_exact; [lia | ].
        unfold TaskBar.endMinutes, TaskBar.startMinutes.
        replace (endHour (TaskBar.hourSettings project) * 60
                 - startHour (TaskBar.hourSettings project) * 60 + 5)
          with (((endHour (TaskBar.hourSettings project)
                  - startHour (TaskBar.hourSettings project)) * 12 + 1) * 5)
          by lia.
        apply Z_mod_mult. }
      lia.
  - unfold TaskBar.getMinValue in Hlo. rewrite E in Hlo.
    rewrite (dates_length parseISO project);
      [ | rewrite E; discriminate | lia].
    apply Hsum; try (change 0%Q with (inject_Z 0));
      try (change 1%Q with (inject_Z 1));
      rewrite <- ?inject_Z_plus, <- ?Zle_Qle; lia.
  - unfold TaskBar.getMinValue in Hlo. rewrite E in Hlo.
    rewrite (dates_length parseISO project);
      [ | rewrite E; discriminate | lia].
    apply Hsum; try (change 0%Q with (inject_Z 0));
      try (change 1%Q with (inject_Z 1));
      rewrite <- ?inject_Z_plus, <- ?Zle_Qle; lia.
  - unfold TaskBar.getMinValue in Hlo. rewrite E in Hlo.
    rewrite (dates_length parseISO project);
      [ | rewrite E; discriminate | lia].
    apply Hsum; try (change 0%Q with (inject_Z 0));
      try (change 1%Q with (inject_Z 1));
      rewrite <- ?inject_Z_plus, <- ?Zle_Qle; lia.
Qed.

(** Days 2 to 4 in the 7-day window, 32-pixel cells: the bar ends, gap
    included, at pixel 128 of 224. *)
Lemma bar_stays_on_grid_witness :
  (0 <= 32)%Q /\ inWindow Fixture.dayProject Fixture.task_d2_4 /\
  (left (TaskBar.getBarPosition Fixture.task_d2_4 Fixture.dayProject 32)
   + width (TaskBar.getBarPosition Fixture.task_d2_4 Fixture.dayProject 32)
   + 4
   <= inject_Z (Z.of_nat (CalendarGrid.columns Sample.parseISO
                            Fixture.dayProject)) * 32)%Q.
Proof.
  assert (Hcw : (0 <= 32)%Q) by discriminate.
  assert (Ht : inWindow Fixture.dayProject Fixture.task_d2_4)
    by (unfold inWindow; cbn; lia).
  split; [exact Hcw | split; [exact Ht | ]].
  exact (proj2 (bar_stays_on_grid Sample.parseISO Fixture.task_d2_4
                  Fixture.dayProject 32 Hcw Ht)).
Defined.

(** ** The store *)

Lemma filter_twice {A : Type} (f g : A -> bool) (l : list A) :
  filter f (filter g l) = filter (fun x => g x && f x) l.
Proof.
  induction l as [ | a l IH]; [reflexivity | ].
  cbn [filter]. destruct (g a); cbn [filter andb]; rewrite IH; reflexivity.
Qed.

(** X19. Deleting a project deletes its tasks with it and nothing else: the
    project has no tasks left, the task list of every other project is what
    it was, the other projects stay, and the deleted project is no longer
    the current one. *)
Theorem deleteProject_cascades :
  forall (ident : string) (st : Store.AppState),
    let st' := Store.deleteProject ident st in
    Store.getProjectTasks ident st' = []
    /\ (forall pid, pid <> ident ->
          Store.getProjectTasks pid st' = Store.getProjectTasks pid st)
    /\ (forall p, In p (Store.projects st')
                  <-> In p (Store.projects st) /\ projectIdent p <> ident)
    /\ Store.currentProjectId st' <> Some ident
    /\ (forall c, Store.currentProjectId st = Some c -> c <> ident ->
          Store.currentProjectId st' = Some c).
Proof.
  intros ident st st'. subst st'.
  unfold Store.getProjectTasks, Store.deleteProject.
  cbn [Store.tasks Store.projects Store.currentProjectId].
  split; [ | split; [ | split; [ | split]]].
  - rewrite filter_twice.
    replace (filter _ (Store.tasks st)) with (@nil Task); [reflexivity | ].
    symmetry. induction (Store.tasks st) as [ | t l IH]; [reflexivity | ].
    cbn [filter]. destruct (String.eqb (projectId t) ident); exact IH.
  - intros pid Hne. rewrite filter_twice. f_equal. apply filter_ext.
    intros t. destruct (String.eqb_spec (projectId t) ident) as [E | E];
      [ | reflexivity].
    cbn. symmetry. apply String.eqb_neq. congruence.
  - intros p. rewrite filter_In. split; intros [H1 H2]; (split; [exact H1 | ]).
    + intros E. rewrite E, String.eqb_refl in H2. discriminate.
    + apply negb_true_iff. apply String.eqb_neq. exact H2.
  - destruct (Store.currentProjectId st) as [c | ]; [ | discriminate].
    destruct (String.eqb_spec c ident) as [E | E]; [discriminate | congruence].
  - intros c Hc Hne. rewrite Hc.
    replace (String.eqb c ident) with false
      by (symmetry; apply String.eqb_neq; exact Hne).
    reflexivity.
Qed.

(** Deleting project "q" of the sample store leaves the three tasks of
    project "p". *)
Lemma deleteProject_cascades_witness :
  "p"%string <> "q"%string /\
  Store.getProjectTasks "p" (Store.deleteProject "q" Sample.store)
  = Store.getProjectTasks "p" Sample.store.
Proof.
  assert (H : "p"%string <> "q"%string) by discriminate.
  split; [exact H | ].
  exact (proj1 (proj2 (deleteProject_cascades "q" Sample.store)) "p"%string H).
Defined.

(** *** Sorting by order *)

Lemma insertByOrder_perm (t : Task) (l : list Task) :
  Permutation (insertByOrder t l) (t :: l).
Proof.
  induction l as [ | u r IH]; [apply Permutation_refl | ].
  cbn [insertByOrder]. destruct (order t <=? order u).
  - apply Permutation_refl.
  - apply (Permutation_trans (perm_skip u IH)). apply perm_swap.
Qed.

Lemma sortByOrder_perm (l : list Task) : Permutation (sortByOrder l) l.
Proof.
  induction l as [ | t l IH]; [apply Permutation_refl | ].
  cbn [sortByOrder fold_right]. fold (sortByOrder l).
  apply (Permutation_trans (insertByOrder_perm t (sortByOrder l))).
  apply perm_skip. exact IH.
Qed.

Lemma insertByOrder_sorted (t : Task) (l : list Task) :
  StronglySorted orderLe l -> StronglySorted orderLe (insertByOrder t l).
Proof.
  induction 1 as [ | u r Hr IH Hu].
  - cbn. constructor; constructor.
  - cbn [insertByOrder]. destruct (Z.leb_spec (order t) (order u)) as [Hle | Hgt].
    + constructor; [constructor; assumption | ].
      constructor; [exact Hle | ].
      apply (Forall_impl _ (P := orderLe u)); [ | exact Hu].
      intros a Ha. unfold orderLe in *. lia.
    + constructor; [exact IH | ].
      eapply Permutation_Forall;
        [apply Permutation_sym; apply insertByOrder_perm | ].
      constructor; [unfold orderLe; lia | exact Hu].
Qed.

Lemma sortByOrder_sorted (l : list Task) :
  StronglySorted orderLe (sortByOrder l).
Proof.
  induction l as [ | t l IH]; [constructor | ].
  cbn [sortByOrder fold_right]. apply insertByOrder_sorted. exact IH.
Qed.

(** A list sorted by order is left as it is (the sort is stable). *)
Lemma sortByOrder_fixed (l : list Task) :
  StronglySorted orderLe l -> sortByOrder l = l.
Proof.
  induction 1 as [ | u r Hr IH Hu]; [reflexivity | ].
  cbn [sortByOrder fold_right]. fold (sortByOrder r). rewrite IH.
  destruct r as [ | v r']; [reflexivity | ].
  cbn [insertByOrder]. inversion Hu as [ | ? ? Huv _]; subst.
  unfold orderLe in Huv.
  replace (order u <=? order v) with true
    by (symmetry; apply Z.leb_le; exact Huv).
  reflexivity.
Qed.

(** There is one way only to list tasks of different orders by order. *)
Lemma sorted_unique (l1 : list Task) :
  forall l2 : list Task,
    StronglySorted orderLt l1 -> StronglySorted orderLe l2 ->
    Permutation l1 l2 -> l1 = l2.
Proof.
  induction l1 as [ | a l1 IH]; intros l2 H1 H2 Hp.
  - apply Permutation_nil in Hp. subst. reflexivity.
  - destruct l2 as [ | b l2].
    + apply Permutation_sym, Permutation_nil in Hp. discriminate.
    + inversion H1 as [ | ? ? Hs1 Ha]; subst.
      inversion H2 as [ | ? ? Hs2 Hb]; subst.
      assert (Eab : a = b).
      { assert (Hina : In a (b :: l2))
          by (apply (Permutation_in _ Hp); left; reflexivity).
        assert (Hinb : In b (a :: l1))
          by (apply (Permutation_in _ (Permutation_sym Hp)); left;
              reflexivity).
        destruct Hina as [E | Hina]; [symmetry; exact E | ].
        destruct Hinb as [E | Hinb]; [exact E | ].
        rewrite Forall_forall in Ha, Hb.
        specialize (Ha b Hinb). specialize (Hb a Hina).
        unfold orderLt, orderLe in *. lia. }
      subst b. f_equal. apply IH; try assumption.
      apply (Permutation_cons_inv Hp).
Qed.

Lemma sortByOrder_unique (F T : list Task) :
  Permutation T F -> StronglySorted orderLt T -> sortByOrder F = T.
Proof.
  intros Hp Hs. symmetry. apply sorted_unique;
    [exact Hs | apply sortByOrder_sorted | ].
  apply (Permutation_trans Hp). apply Permutation_sym, sortByOrder_perm.
Qed.

(** *** Orders by position *)

Lemma renumberFrom_ids (k : Z) (l : list Task) :
  map id (TaskReorder.renumberFrom k l) = map id l.
Proof.
  revert k. induction l as [ | t l IH]; intros k; [reflexivity | ].
  cbn. f_equal. apply IH.
Qed.

Lemma renumberFrom_orders (k : Z) (l : list Task) :
  map order (TaskReorder.renumberFrom k l)
  = map (fun i => k + Z.of_nat i) (seq 0 (List.length l)).
Proof.
  revert k. induction l as [ | t l IH]; intros k; [reflexivity | ].
  cbn [TaskReorder.renumberFrom List.length seq map]. f_equal.
  - cbn. lia.
  - rewrite IH, map_seq_shift. apply map_ext. intros i. lia.
Qed.

Lemma renumberFrom_lower (k : Z) (l : list Task) :
  Forall (fun u => k <= order u) (TaskReorder.renumberFrom k l).
Proof.
  revert k. induction l as [ | t l IH]; intros k; [constructor | ].
  cbn [TaskReorder.renumberFrom]. constructor; [cbn; lia | ].
  apply (Forall_impl _ (P := fun u => k + 1 <= order u)); [ | apply IH].
  intros a Ha. lia.
Qed.

Lemma renumberFrom_sorted (k : Z) (l : list Task) :
  StronglySorted orderLt (TaskReorder.renumberFrom k l).
Proof.
  revert k. induction l as [ | t l IH]; intros k; [constructor | ].
  cbn [TaskReorder.renumberFrom]. constructor; [apply IH | ].
  apply (Forall_impl _ (P := fun u => k + 1 <= order u));
    [ | apply renumberFrom_lower].
  intros a Ha. unfold orderLt. cbn. lia.
Qed.

Lemma indexOf_range (l : list string) (x : string) :
  indexOf l x = -1 \/ 0 <= indexOf l x < Z.of_nat (List.length l).
Proof.
  induction l as [ | y r IH]; [left; reflexivity | ].
  cbn [indexOf List.length]. destruct (String.eqb y x); [right; lia | ].
  destruct IH as [-> | IH]; [left; reflexivity | ].
  replace (indexOf r x <? 0) with false by (symmetry; apply Z.ltb_ge; lia).
  right. lia.
Qed.

Lemma indexOf_absent (l : list string) (x : string) :
  ~ In x l -> indexOf l x = -1.
Proof.
  induction l as [ | y r IH]; intros H; [reflexivity | ].
  cbn [indexOf]. destruct (String.eqb_spec y x) as [E | E].
  - contradiction H. left. exact E.
  - rewrite IH by (intros Hin; apply H; right; exact Hin). reflexivity.
Qed.

Lemma indexOf_present (l : list string) (x : string) :
  In x l -> 0 <= indexOf l x.
Proof.
  induction l as [ | y r IH]; intros H; [contradiction | ].
  cbn [indexOf]. destruct (String.eqb_spec y x) as [E | E]; [lia | ].
  destruct H as [H | H]; [contradiction | ].
  specialize (IH H).
  replace (indexOf r x <? 0) with false by (symmetry; apply Z.ltb_ge; lia).
  lia.
Qed.

Lemma indexOf_nth (l : list string) :
  forall (i : nat) (x : string),
    NoDup l -> nth_error l i = Some x -> indexOf l x = Z.of_nat i.
Proof.
  induction l as [ | y r IH]; intros i x Hnd Hn.
  - destruct i; discriminate.
  - inversion Hnd as [ | ? ? Hy Hr]; subst. destruct i as [ | i].
    + cbn in Hn. injection Hn as ->. cbn. rewrite String.eqb_refl.
      reflexivity.
    + cbn [nth_error] in Hn. cbn [indexOf].
      destruct (String.eqb_spec y x) as [E | E].
      * subst. contradiction Hy. apply (nth_error_In _ _ Hn).
      * rewrite (IH i x Hr Hn).
        replace (Z.of_nat i <? 0) with false
          by (symmetry; apply Z.ltb_ge; lia).
        lia.
Qed.

Lemma nth_indexOf (l : list string) (x : string) :
  In x l -> nth_error l (Z.to_nat (indexOf l x)) = Some x.
Proof.
  induction l as [ | y r IH]; intros H; [contradiction | ].
  cbn [indexOf]. destruct (String.eqb_spec y x) as [E | E].
  - subst. reflexivity.
  - destruct H as [H | H]; [contradiction | ].
    pose proof (indexOf_present r x H) as Hp.
    replace (indexOf r x <? 0) with false by (symmetry; apply Z.ltb_ge; lia).
    replace (Z.to_nat (indexOf r x + 1)) with (S (Z.to_nat (indexOf r x)))
      by lia.
    cbn [nth_error]. apply IH. exact H.
Qed.

(** A function that gives each task of [T] its position as order. *)
Lemma map_renumber (g : Task -> Task) (T : list Task) :
  forall k : Z,
    (forall i t, nth_error T i = Some t -> g t = withOrder t (k + Z.of_nat i)) ->
    map g T = TaskReorder.renumberFrom k T.
Proof.
  induction T as [ | t T IH]; intros k H; [reflexivity | ].
  cbn [map TaskReorder.renumberFrom]. f_equal.
  - rewrite (H 0%nat t eq_refl). f_equal. lia.
  - apply IH. intros i u Hu. rewrite (H (S i) u Hu). f_equal. lia.
Qed.

Lemma filter_map_commute {A : Type} (f : A -> bool) (h : A -> A)
  (l : list A) :
  (forall x, f (h x) = f x) -> filter f (map h l) = map h (filter f l).
Proof.
  intros H. induction l as [ | a l IH]; [reflexivity | ].
  cbn [map filter]. rewrite H. destruct (f a); cbn [map]; rewrite IH;
    reflexivity.
Qed.

Lemma NoDup_ids_filter (f : Task -> bool) (l : list Task) :
  NoDup (map id l) -> NoDup (map id (filter f l)).
Proof.
  induction l as [ | a l IH]; intros H; [constructor | ].
  cbn [map] in H. inversion H as [ | ? ? Ha Hl]; subst.
  cbn [filter]. destruct (f a); [ | apply IH; exact Hl].
  cbn [map]. constructor; [ | apply IH; exact Hl].
  intros Hin. apply Ha. apply in_map_iff in Hin.
  destruct Hin as [u [Eu Hu]]. apply filter_In in Hu.
  apply in_map_iff. exists u. split; [exact Eu | apply Hu].
Qed.

Lemma reorderOne_projectId (pid : string) (taskIds : list string) (t : Task) :
  projectId (reorderOne pid taskIds t) = projectId t.
Proof.
  unfold reorderOne. destruct (negb _); [reflexivity | ].
  destruct (_ >=? _); reflexivity.
Qed.

Lemma reorderTasks_tasks (pid : string) (taskIds : list string)
  (st : Store.AppState) :
  Store.tasks (Store.reorderTasks pid taskIds st)
  = map (reorderOne pid taskIds) (Store.tasks st).
Proof. reflexivity. Qed.

Lemma reorderTasks_other_projects (pid q : string) (taskIds : list string)
  (st : Store.AppState) :
  q <> pid ->
  Store.getProjectTasks q (Store.reorderTasks pid taskIds st)
  = Store.getProjectTasks q st.
Proof.
  intros Hne. unfold Store.getProjectTasks. rewrite reorderTasks_tasks.
  rewrite filter_map_commute
    by (intros x; rewrite reorderOne_projectId; reflexivity).
  f_equal. rewrite <- (map_id (filter _ (Store.tasks st))) at 2.
  apply map_ext_in. intros t Ht. apply filter_In in Ht.
  destruct Ht as [_ Hq]. apply String.eqb_eq in Hq.
  unfold reorderOne.
  replace (String.eqb (projectId t) pid) with false
    by (symmetry; apply String.eqb_neq; congruence).
  reflexivity.
Qed.

(** The listing of a project after [reorderTasks], for a list [T] that
    holds the project's tasks in the order of the given identifiers. *)
Lemma reorderTasks_listing (pid : string) (taskIds : list string)
  (st : Store.AppState) (T : list Task) :
  NoDup taskIds -> taskIds = map id T ->
  Permutation (filter (fun t => String.eqb (projectId t) pid)
                 (Store.tasks st)) T ->
  Store.getProjectTasks pid (Store.reorderTasks pid taskIds st)
  = TaskReorder.renumberFrom 0 T.
Proof.
  intros Hnd ET HT.
  unfold Store.getProjectTasks. rewrite reorderTasks_tasks.
  rewrite filter_map_commute
    by (intros x; rewrite reorderOne_projectId; reflexivity).
  apply sortByOrder_unique; [ | apply renumberFrom_sorted].
  rewrite <- (map_renumber (reorderOne pid taskIds) T 0).
  - apply Permutation_map. apply Permutation_sym. exact HT.
  - intros i t Hi.
    assert (Hin : In t (filter (fun t => String.eqb (projectId t) pid)
                           (Store.tasks st)))
      by (apply (Permutation_in _ (Permutation_sym HT));
          apply (nth_error_In _ _ Hi)).
    apply filter_In in Hin. destruct Hin as [_ Hpid].
    unfold reorderOne. rewrite Hpid. cbn [negb].
    assert (Hidx : indexOf taskIds (id t) = Z.of_nat i)
      by (apply indexOf_nth; [exact Hnd | ];
          rewrite ET, nth_error_map, Hi; reflexivity).
    rewrite Hidx.
    replace (Z.of_nat i >=? 0) with true
      by (symmetry; apply Z.geb_le; lia).
    reflexivity.
Qed.

(** X20. [reorderTasks] followed by [getProjectTasks] is a round trip: when
    the given identifiers are, without repetition, exactly the identifiers
    of the project's tasks, the project's tasks are afterwards listed in
    the given order and carry the orders 0, 1, 2, ...; the task lists of
    the other projects do not change. *)
Theorem reorderTasks_sets_display_order :
  forall (pid : string) (taskIds : list string) (st : Store.AppState),
    NoDup taskIds ->
    Permutation taskIds
      (map id (filter (fun t => String.eqb (projectId t) pid)
                 (Store.tasks st))) ->
    let st' := Store.reorderTasks pid taskIds st in
    map id (Store.getProjectTasks pid st') = taskIds
    /\ map order (Store.getProjectTasks pid st')
       = map Z.of_nat (seq 0 (List.length taskIds))
    /\ (forall q, q <> pid ->
          Store.getProjectTasks q st' = Store.getProjectTasks q st).
Proof.
  intros pid taskIds st Hnd Hp st'. subst st'.
  destruct (Permutation_map_inv _ _ Hp) as [T [ET HT]].
  rewrite (reorderTasks_listing pid taskIds st T Hnd ET HT).
  split; [ | split].
  - rewrite renumberFrom_ids. symmetry. exact ET.
  - rewrite renumberFrom_orders, ET, length_map.
    apply map_ext. intros i. lia.
  - intros q Hq. apply reorderTasks_other_projects. exact Hq.
Qed.

(** The three tasks of project "p" in the sample store, put in the order
    c, a, b. *)
Lemma reorderTasks_sets_display_order_witness :
  NoDup ["c"; "a"; "b"]%string /\
  Permutation ["c"; "a"; "b"]%string
    (map id (filter (fun t => String.eqb (projectId t) "p")
               (Store.tasks Sample.store))) /\
  map id (Store.getProjectTasks "p"
            (Store.reorderTasks "p" ["c"; "a"; "b"]%string Sample.store))
  = ["c"; "a"; "b"]%string.
Proof.
  assert (Hnd : NoDup ["c"; "a"; "b"]%string).
  { repeat constructor; cbn; intuition discriminate. }
  assert (Hp : Permutation ["c"; "a"; "b"]%string
                 (map id (filter (fun t => String.eqb (projectId t) "p")
                            (Store.tasks Sample.store)))).
  { cbn. apply (Permutation_trans (l' := ["c"; "b"; "a"]%string)).
    - apply perm_skip. apply perm_swap.
    - apply perm_swap. }
  split; [exact Hnd | split; [exact Hp | ]].
  exact (proj1 (reorderTasks_sets_display_order "p" ["c"; "a"; "b"]%string
                  Sample.store Hnd Hp)).
Defined.

(** *** Drag and drop *)

Lemma unique_by_id (S : list Task) (u t : Task) :
  NoDup (map id S) -> In u S -> In t S -> id u = id t -> u = t.
Proof.
  induction S as [ | a S IH]; intros Hnd Hu Ht E; [contradiction | ].
  cbn [map] in Hnd. inversion Hnd as [ | ? ? Ha HS]; subst.
  destruct Hu as [-> | Hu], Ht as [-> | Ht].
  - reflexivity.
  - contradiction Ha. rewrite E. apply in_map. exact Ht.
  - contradiction Ha. rewrite <- E. apply in_map. exact Hu.
  - apply IH; assumption.
Qed.

Lemma withOrder_same (t : Task) : withOrder t (order t) = t.
Proof. destruct t; reflexivity. Qed.

Lemma updateTaskList_ids (ident : string) (patch : TaskPatch)
  (S : list Task) :
  map id (Store.updateTaskList ident patch S) = map id S.
Proof.
  unfold Store.updateTaskList. rewrite map_map. apply map_ext.
  intros t. destruct (String.eqb (id t) ident); [ | reflexivity].
  destruct patch; reflexivity.
Qed.

(** The net effect of the calls of the final [forEach]: every stored task
    whose identifier is in the list gets its position as order. *)
Lemma orderCalls_effect (T : list Task) :
  forall (k : Z) (S : list Task),
    NoDup (map id S) -> incl T S -> NoDup (map id T) ->
    fold_left (fun l call =>
                 Store.updateTaskList (fst call) (PatchOrder (snd call)) l)
              (TaskReorder.orderCalls k T) S
    = map (fun u => if indexOf (map id T) (id u) >=? 0
                    then withOrder u (k + indexOf (map id T) (id u))
                    else u) S.
Proof.
  induction T as [ | t rest IH]; intros k S HS Hincl HT.
  - cbn. symmetry. apply map_id.
  - cbn [map] in HT. inversion HT as [ | ? ? Ht Hrest]; subst.
    assert (HtS : In t S) by (apply Hincl; left; reflexivity).
    set (S1 := Store.updateTaskList (id t) (PatchOrder k) S).
    assert (Hstep :
      fold_left (fun l call =>
                   Store.updateTaskList (fst call) (PatchOrder (snd call)) l)
                (TaskReorder.orderCalls k (t :: rest)) S
      = fold_left (fun l call =>
                     Store.updateTaskList (fst call) (PatchOrder (snd call)) l)
                  (TaskReorder.orderCalls (k + 1) rest) S1).
    { cbn [TaskReorder.orderCalls].
      destruct (Z.eqb_spec (order t) k) as [Ek | Ek]; cbn [negb];
        [ | reflexivity].
      f_equal. subst S1. unfold Store.updateTaskList.
      rewrite <- (map_id S) at 1. apply map_ext_in. intros u Hu.
      destruct (String.eqb_spec (id u) (id t)) as [E | E]; [ | reflexivity].
      rewrite (unique_by_id S u t HS Hu HtS E). rewrite <- Ek.
      symmetry. apply withOrder_same. }
    rewrite Hstep. rewrite IH.
    + subst S1. unfold Store.updateTaskList. rewrite map_map.
      apply map_ext. intros u. cbn [map indexOf].
      destruct (String.eqb_spec (id u) (id t)) as [E | E].
      * replace (String.eqb (id u) (id t)) with true
          by (symmetry; apply String.eqb_eq; exact E).
        replace (String.eqb (id t) (id u)) with true
          by (symmetry; apply String.eqb_eq; congruence).
        assert (Habs : indexOf (map id rest) (id u) = -1)
          by (rewrite E; apply indexOf_absent; exact Ht).
        cbn [applyTaskPatch id]. rewrite Habs. cbn.
        unfold withOrder. cbn. rewrite Z.add_0_r. reflexivity.
      * replace (String.eqb (id t) (id u)) with false
          by (symmetry; apply String.eqb_neq; congruence).
        destruct (indexOf_range (map id rest) (id u)) as [Hm | Hr].
        -- rewrite Hm. reflexivity.
        -- replace (indexOf (map id rest) (id u) <? 0) with false
             by (symmetry; apply Z.ltb_ge; lia).
           replace (indexOf (map id rest) (id u) >=? 0) with true
             by (symmetry; apply Z.geb_le; lia).
           replace (indexOf (map id rest) (id u) + 1 >=? 0) with true
             by (symmetry; apply Z.geb_le; lia).
           f_equal. lia.
    + subst S1. rewrite updateTaskList_ids. exact HS.
    + intros r Hr. subst S1. unfold Store.updateTaskList.
      apply in_map_iff. exists r. split.
      * destruct (String.eqb_spec (id r) (id t)) as [E | E]; [ | reflexivity].
        contradiction Ht. rewrite <- E. apply in_map. exact Hr.
      * apply Hincl. right. exact Hr.
    + exact Hrest.
Qed.

Lemma fold_updateTask (calls : list (string * Z)) :
  forall st : Store.AppState,
    fold_left (fun s call =>
                 Store.updateTask (fst call) (PatchOrder (snd call)) s)
              calls st
    = {| Store.projects := Store.projects st;
         Store.currentProjectId := Store.currentProjectId st;
         Store.tasks :=
           fold_left (fun l call =>
                        Store.updateTaskList (fst call)
                          (PatchOrder (snd call)) l)
                     calls (Store.tasks st) |}.
Proof.
  induction calls as [ | c calls IH]; intros st.
  - destruct st; reflexivity.
  - cbn [fold_left]. rewrite IH. reflexivity.
Qed.

Lemma removeAt_perm {A : Type} (i : nat) (l : list A) (x : A) :
  nth_error l i = Some x -> Permutation (x :: TaskReorder.removeAt i l) l.
Proof.
  intros H. unfold TaskReorder.removeAt.
  apply Permutation_trans with (firstn i l ++ x :: skipn (S i) l).
  - apply Permutation_middle.
  - rewrite (firstn_skipn_middle _ _ H). apply Permutation_refl.
Qed.

Lemma insertAt_perm {A : Type} (j : nat) (x : A) (l : list A) :
  Permutation (TaskReorder.insertAt j x l) (x :: l).
Proof.
  unfold TaskReorder.insertAt.
  apply Permutation_trans with (x :: firstn j l ++ skipn j l).
  - apply Permutation_sym, Permutation_middle.
  - rewrite firstn_skipn. apply Permutation_refl.
Qed.

Lemma map_removeAt {A B : Type} (f : A -> B) (i : nat) (l : list A) :
  map f (TaskReorder.removeAt i l) = TaskReorder.removeAt i (map f l).
Proof.
  unfold TaskReorder.removeAt. rewrite map_app, firstn_map, skipn_map.
  reflexivity.
Qed.

Lemma map_insertAt {A B : Type} (f : A -> B) (j : nat) (x : A)
  (l : list A) :
  map f (TaskReorder.insertAt j x l) = TaskReorder.insertAt j (f x) (map f l).
Proof.
  unfold TaskReorder.insertAt. rewrite map_app, firstn_map. cbn [map].
  rewrite skipn_map. reflexivity.
Qed.

Lemma find_by_id (l : list Task) (x : string) :
  In x (map id l) ->
  exists t, find (fun t => String.eqb (id t) x) l = Some t.
Proof.
  induction l as [ | a l IH]; intros H; [contradiction | ].
  cbn [find]. destruct (String.eqb (id a) x) eqn:E; [exists a; reflexivity | ].
  apply IH. destruct H as [H | H]; [ | exact H].
  cbn in H. rewrite H, String.eqb_refl in E. discriminate.
Qed.

Lemma newTasksOf_value (tasks : list Task) (dragged target : string) :
  StronglySorted orderLe tasks ->
  truthy dragged = true -> dragged <> target ->
  In dragged (map id tasks) -> In target (map id tasks) ->
  exists removed,
    nth_error tasks (Z.to_nat (indexOf (map id tasks) dragged)) = Some removed
    /\ id removed = dragged
    /\ TaskReorder.newTasksOf tasks (Some dragged) target
       = Some (TaskReorder.insertAt
                 (Z.to_nat (indexOf (map id tasks) target)) removed
                 (TaskReorder.removeAt
                    (Z.to_nat (indexOf (map id tasks) dragged)) tasks)).
Proof.
  intros Hs Ht Hne Hd Hg.
  pose proof (nth_indexOf _ _ Hd) as Hn. rewrite nth_error_map in Hn.
  destruct (nth_error tasks (Z.to_nat (indexOf (map id tasks) dragged)))
    as [removed | ] eqn:En; [ | discriminate].
  cbn in Hn. injection Hn as Hid.
  exists removed. split; [reflexivity | split; [exact Hid | ]].
  unfold TaskReorder.newTasksOf. rewrite Ht. cbn [negb orb].
  replace (String.eqb dragged target) with false
    by (symmetry; apply String.eqb_neq; exact Hne).
  destruct (find_by_id tasks dragged Hd) as [t1 ->].
  destruct (find_by_id tasks target Hg) as [t2 ->].
  rewrite (sortByOrder_fixed tasks Hs). unfold findIndexById.
  pose proof (indexOf_present _ _ Hd). pose proof (indexOf_present _ _ Hg).
  replace (indexOf (map id tasks) dragged =? -1) with false
    by (symmetry; apply Z.eqb_neq; lia).
  replace (indexOf (map id tasks) target =? -1) with false
    by (symmetry; apply Z.eqb_neq; lia).
  cbn [orb]. rewrite En. reflexivity.
Qed.

(** X21. Dropping a task on another one moves it there and renumbers the
    project.  With unique task identifiers in the store, for the task list
    [tasks] of a project as the editor shows it, and a dragged task and a
    target that are two different tasks of that list: afterwards the
    project's tasks are listed as before with the dragged task taken out and
    put back at the position the target had; their orders are 0, 1, 2, ...;
    the store is what [reorderTasks] with that list of identifiers gives;
    and the task lists of the other projects are unchanged. *)
Theorem handleDrop_moves_task :
  forall (pid : string) (st : Store.AppState) (dragged target : string),
    NoDup (map id (Store.tasks st)) ->
    truthy dragged = true -> dragged <> target ->
    In dragged (map id (Store.getProjectTasks pid st)) ->
    In target (map id (Store.getProjectTasks pid st)) ->
    let tasks := Store.getProjectTasks pid st in
    let ids := map id tasks in
    let st' := TaskReorder.handleDrop tasks (Some dragged) target st in
    let moved :=
      TaskReorder.insertAt (Z.to_nat (indexOf ids target)) dragged
        (TaskReorder.removeAt (Z.to_nat (indexOf ids dragged)) ids) in
    map id (Store.getProjectTasks pid st') = moved
    /\ map order (Store.getProjectTasks pid st')
       = map Z.of_nat (seq 0 (List.length ids))
    /\ nth_error moved (Z.to_nat (indexOf ids target)) = Some dragged
    /\ st' = Store.reorderTasks pid moved st
    /\ (forall q, q <> pid ->
          Store.getProjectTasks q st' = Store.getProjectTasks q st).
Proof.
  intros pid st dragged target HS Ht Hne Hd Hg tasks ids st' moved.
  set (F := filter (fun t => String.eqb (projectId t) pid) (Store.tasks st)).
  assert (HtF : Permutation tasks F) by apply sortByOrder_perm.
  assert (Hsorted : StronglySorted orderLe tasks) by apply sortByOrder_sorted.
  destruct (newTasksOf_value tasks dragged target Hsorted Ht Hne Hd Hg)
    as [removed [Hrem [Hid Hnew]]].
  fold ids in Hrem, Hnew.
  set (di := Z.to_nat (indexOf ids dragged)) in *.
  set (ti := Z.to_nat (indexOf ids target)) in *.
  set (newTasks := TaskReorder.insertAt ti removed
                     (TaskReorder.removeAt di tasks)) in *.
  assert (Hmoved : map id newTasks = moved).
  { subst newTasks moved. rewrite map_insertAt, map_removeAt, Hid.
    reflexivity. }
  assert (HpN : Permutation newTasks tasks).
  { subst newTasks. apply (Permutation_trans (insertAt_perm _ _ _)).
    apply removeAt_perm. exact Hrem. }
  assert (HpNF : Permutation newTasks F)
    by (apply (Permutation_trans HpN HtF)).
  assert (HndF : NoDup (map id F)) by (apply NoDup_ids_filter; exact HS).
  assert (HndN : NoDup (map id newTasks)).
  { apply (Permutation_NoDup (l := map id F)); [ | exact HndF].
    apply Permutation_map. apply Permutation_sym. exact HpNF. }
  assert (HinclN : incl newTasks (Store.tasks st)).
  { intros t Hin. apply (Permutation_in _ HpNF) in Hin.
    apply filter_In in Hin. apply Hin. }
  assert (Hst : st' = Store.reorderTasks pid moved st).
  { subst st'. unfold TaskReorder.handleDrop. rewrite Hnew.
    rewrite fold_updateTask.
    rewrite (orderCalls_effect newTasks 0 (Store.tasks st) HS HinclN HndN).
    unfold Store.reorderTasks. f_equal. apply map_ext_in. intros u Hu.
    rewrite Hmoved.
    destruct (String.eqb_spec (projectId u) pid) as [Ep | Ep]; cbn [negb].
    - unfold withOrder. rewrite Z.add_0_l. reflexivity.
    - rewrite indexOf_absent; [reflexivity | ].
      rewrite <- Hmoved. intros Hin. apply in_map_iff in Hin.
      destruct Hin as [t [Et Htn]].
      assert (t = u)
        by (apply (unique_by_id (Store.tasks st));
            [exact HS | apply HinclN; exact Htn | exact Hu | exact Et]).
      subst t. apply (Permutation_in _ HpNF) in Htn.
      apply filter_In in Htn. destruct Htn as [_ Hp].
      apply String.eqb_eq in Hp. contradiction. }
  assert (HndM : NoDup moved) by (rewrite <- Hmoved; exact HndN).
  rewrite Hst.
  rewrite (reorderTasks_listing pid moved st newTasks HndM
             (eq_sym Hmoved) (Permutation_sym HpNF)).
  split; [ | split; [ | split; [ | split; [reflexivity | ]]]].
  - rewrite renumberFrom_ids. exact Hmoved.
  - rewrite renumberFrom_orders. unfold ids. rewrite length_map.
    rewrite (Permutation_length HpN).
    apply map_ext. intros i. lia.
  - subst moved. unfold TaskReorder.insertAt.
    assert (Hlen : List.length
                     (firstn ti (TaskReorder.removeAt di ids)) = ti).
    { rewrite length_firstn. apply Nat.min_l.
      assert (List.length (TaskReorder.removeAt di ids)
              = (List.length ids - 1)%nat).
      { pose proof (removeAt_perm di ids dragged) as Hp.
        assert (Hnth : nth_error ids di = Some dragged)
          by (apply nth_indexOf; exact Hd).
        apply Permutation_length in Hp; [ | exact Hnth].
        cbn [List.length] in Hp. lia. }
      pose proof (indexOf_range ids target) as Hr.
      pose proof (indexOf_present ids target Hg).
      pose proof (indexOf_range ids dragged) as Hr'.
      pose proof (indexOf_present ids dragged Hd).
      assert (indexOf ids target <> Z.of_nat (List.length ids) - 1
              \/ indexOf ids target = Z.of_nat (List.length ids) - 1)
        by lia.
      subst ti. lia. }
    rewrite nth_error_app2 by lia. rewrite Hlen, Nat.sub_diag. reflexivity.
  - intros q Hq. apply reorderTasks_other_projects. exact Hq.
Qed.

(** In the sample store the project "p" lists a, b, c; dropping a on c
    gives b, c, a. *)
Lemma handleDrop_moves_task_witness :
  NoDup (map id (Store.tasks Sample.store)) /\
  truthy "a" = true /\ "a"%string <> "c"%string /\
  In "a"%string (map id (Store.getProjectTasks "p" Sample.store)) /\
  In "c"%string (map id (Store.getProjectTasks "p" Sample.store)) /\
  map id (Store.getProjectTasks "p"
            (TaskReorder.handleDrop (Store.getProjectTasks "p" Sample.store)
               (Some "a"%string) "c" Sample.store))
  = ["b"; "c"; "a"]%string.
Proof.
  assert (Hnd : NoDup (map id (Store.tasks Sample.store))).
  { cbn. repeat constructor; cbn; intuition discriminate. }
  assert (Ht : truthy "a" = true) by reflexivity.
  assert (Hne : "a"%string <> "c"%string) by discriminate.
  assert (Hd : In "a"%string
                 (map id (Store.getProjectTasks "p" Sample.store))).
  { vm_compute. left. reflexivity. }
  assert (Hg : In "c"%string
                 (map id (Store.getProjectTasks "p" Sample.store))).
  { vm_compute. right. right. left. reflexivity. }
  split; [exact Hnd | split; [exact Ht | split; [exact Hne | ]]].
  split; [exact Hd | split; [exact Hg | ]].
  exact (proj1 (handleDrop_moves_task "p" Sample.store "a" "c"
                  Hnd Ht Hne Hd Hg)).
Defined.

(** *** The task list after adding, editing and deleting a task *)

Lemma sortByOrder_cons (a : Task) (l : list Task) :
  sortByOrder (a :: l) = insertByOrder a (sortByOrder l).
Proof. reflexivity. Qed.

Lemma insertByOrder_front (a : Task) (l : list Task) :
  Forall (fun v => order a <= order v) l -> insertByOrder a l = a :: l.
Proof.
  intros H. destruct l as [ | u r]; [reflexivity | ].
  inversion H as [ | ? ? Hu _]; subst. cbn [insertByOrder].
  replace (order a <=? order u) with true
    by (symmetry; apply Z.leb_le; exact Hu).
  reflexivity.
Qed.

Lemma insertByOrder_filter (p : Task -> bool) (a : Task) (s : list Task) :
  StronglySorted orderLe s ->
  filter p (insertByOrder a s)
  = if p a then insertByOrder a (filter p s) else filter p s.
Proof.
  induction 1 as [ | u r Hr IH Hu].
  - cbn. destruct (p a); reflexivity.
  - cbn [insertByOrder].
    destruct (Z.leb_spec (order a) (order u)) as [Hle | Hgt].
    + cbn [filter]. destruct (p a); [ | reflexivity].
      symmetry. apply insertByOrder_front.
      apply Forall_forall. intros v Hv.
      assert (Hin : In v (u :: r)).
      { destruct (p u); [ | right; apply filter_In in Hv; apply Hv].
        destruct Hv as [<- | Hv]; [left; reflexivity | ].
        right. apply filter_In in Hv. apply Hv. }
      destruct Hin as [<- | Hin]; [exact Hle | ].
      rewrite Forall_forall in Hu. specialize (Hu v Hin).
      unfold orderLe in Hu. lia.
    + cbn [filter]. rewrite IH.
      destruct (p u), (p a); try reflexivity.
      cbn [insertByOrder].
      replace (order a <=? order u) with false
        by (symmetry; apply Z.leb_gt; exact Hgt).
      reflexivity.
Qed.

(** The sort is stable, so it commutes with taking out tasks. *)
Lemma sortByOrder_filter (p : Task -> bool) (l : list Task) :
  sortByOrder (filter p l) = filter p (sortByOrder l).
Proof.
  induction l as [ | a l IH]; [reflexivity | ].
  rewrite sortByOrder_cons.
  rewrite insertByOrder_filter by apply sortByOrder_sorted.
  cbn [filter]. destruct (p a); [ | exact IH].
  rewrite sortByOrder_cons, IH. reflexivity.
Qed.

Lemma insertByOrder_map (h : Task -> Task) (a : Task) (s : list Task) :
  (forall x, order (h x) = order x) ->
  map h (insertByOrder a s) = insertByOrder (h a) (map h s).
Proof.
  intros H. induction s as [ | u r IH]; [reflexivity | ].
  cbn [insertByOrder map]. rewrite !H.
  destruct (order a <=? order u); [reflexivity | ].
  cbn [map]. rewrite IH. reflexivity.
Qed.

Lemma sortByOrder_map (h : Task -> Task) (l : list Task) :
  (forall x, order (h x) = order x) ->
  sortByOrder (map h l) = map h (sortByOrder l).
Proof.
  intros H. induction l as [ | a l IH]; [reflexivity | ].
  cbn [map]. rewrite !sortByOrder_cons, IH.
  symmetry. apply insertByOrder_map. exact H.
Qed.

Lemma insertByOrder_snoc (a t : Task) (s : list Task) :
  order a <= order t ->
  insertByOrder a (s ++ [t]) = insertByOrder a s ++ [t].
Proof.
  intros H. induction s as [ | u r IH].
  - cbn. replace (order a <=? order t) with true
      by (symmetry; apply Z.leb_le; exact H).
    reflexivity.
  - cbn [app insertByOrder]. destruct (order a <=? order u); [reflexivity | ].
    rewrite IH. reflexivity.
Qed.

Lemma sortByOrder_snoc (l : list Task) (t : Task) :
  Forall (fun u => order u <= order t) l ->
  sortByOrder (l ++ [t]) = sortByOrder l ++ [t].
Proof.
  induction 1 as [ | a l Ha Hl IH]; [reflexivity | ].
  cbn [app]. rewrite !sortByOrder_cons, IH.
  apply insertByOrder_snoc. exact Ha.
Qed.

Lemma filter_fresh (ident : string) (l : list Task) :
  ~ In ident (map id l) ->
  filter (fun t => negb (String.eqb (id t) ident)) l = l.
Proof.
  induction l as [ | a l IH]; intros H; [reflexivity | ].
  cbn [filter]. destruct (String.eqb_spec (id a) ident) as [E | E].
  - contradiction H. left. exact E.
  - cbn [negb]. rewrite IH; [reflexivity | ].
    intros Hin. apply H. right. exact Hin.
Qed.

(** X22. A task added from the editor goes to the end of the project's
    list when no task of the project has an order above the number of its
    tasks (as after any drop, which numbers them 0, 1, 2, ...): with the
    name not blank and an identifier not yet in the store, the project is
    afterwards listed as before followed by the new task, which carries the
    new identifier, the trimmed name and the number of earlier tasks as
    order; the lists of the other projects do not change; and deleting the
    new task gives back the store as it was. *)
Theorem added_task_is_listed_last :
  forall (project : Project) (st : Store.AppState)
         (newTaskName newId : string) (data : Task),
    ChartCalendar.handleAddTask project
      (Store.getProjectTasks (projectIdent project) st) newTaskName
    = Some data ->
    Forall (fun t =>
              order t
              <= Z.of_nat (List.length
                             (Store.getProjectTasks (projectIdent project)
                                st)))
           (Store.getProjectTasks (projectIdent project) st) ->
    ~ In newId (map id (Store.tasks st)) ->
    let pid := projectIdent project in
    let tasks := Store.getProjectTasks pid st in
    let st' := Store.addTask newId data st in
    (exists added,
        Store.getProjectTasks pid st' = tasks ++ [added]
        /\ id added = newId
        /\ name added = trim newTaskName
        /\ order added = Z.of_nat (List.length tasks)
        /\ scaleSchedule added = scaleSchedule data)
    /\ (forall q, q <> pid ->
          Store.getProjectTasks q st' = Store.getProjectTasks q st)
    /\ Store.deleteTask newId st' = st.
Proof.
  intros project st newTaskName newId data Hadd Hord Hfresh pid tasks st'.
  fold pid in Hadd, Hord. fold tasks in Hadd, Hord.
  unfold ChartCalendar.handleAddTask in Hadd.
  destruct (String.eqb (trim newTaskName) EmptyString); [discriminate | ].
  injection Hadd as Hdata.
  assert (Hpid : projectId data = pid) by (rewrite <- Hdata; reflexivity).
  assert (Hname : name data = trim newTaskName)
    by (rewrite <- Hdata; reflexivity).
  assert (Horder : order data = Z.of_nat (List.length tasks))
    by (rewrite <- Hdata; reflexivity).
  clear Hdata.
  set (added := {| id := newId; projectId := projectId data;
                   tradeId := tradeId data; name := name data;
                   assignee := assignee data;
                   taskStartDate := taskStartDate data;
                   taskEndDate := taskEndDate data;
                   color := color data; order := order data;
                   scaleSchedule := scaleSchedule data |}).
  assert (Htasks : Store.tasks st' = Store.tasks st ++ [added])
    by reflexivity.
  split; [ | split].
  - exists added. split; [ | repeat split; assumption].
    unfold Store.getProjectTasks. rewrite Htasks, filter_app.
    cbn [filter]. replace (projectId added) with pid by (symmetry; exact Hpid).
    rewrite String.eqb_refl. apply sortByOrder_snoc.
    apply Forall_forall. intros u Hu.
    assert (Hin : In u tasks)
      by (apply (Permutation_in _ (Permutation_sym (sortByOrder_perm _)));
          exact Hu).
    rewrite Forall_forall in Hord. specialize (Hord u Hin).
    cbn [added order]. rewrite Horder. exact Hord.
  - intros q Hq. unfold Store.getProjectTasks.
    rewrite Htasks, filter_app. cbn [filter].
    replace (String.eqb (projectId added) q) with false
      by (symmetry; apply String.eqb_neq; cbn [added projectId];
          rewrite Hpid; congruence).
    rewrite app_nil_r. reflexivity.
  - unfold Store.deleteTask. rewrite Htasks, filter_app.
    rewrite (filter_fresh newId _ Hfresh). cbn [filter added id].
    rewrite String.eqb_refl. cbn [negb]. rewrite app_nil_r.
    destruct st; reflexivity.
Qed.

(** X23. Deleting a task takes exactly that task out of every project's
    list and keeps the other tasks in the order they had; the identifier is
    in no list afterwards. *)
Theorem deleteTask_keeps_listing_order :
  forall (ident pid : string) (st : Store.AppState),
    Store.getProjectTasks pid (Store.deleteTask ident st)
    = filter (fun t => negb (String.eqb (id t) ident))
        (Store.getProjectTasks pid st)
    /\ ~ In ident
         (map id (Store.getProjectTasks pid (Store.deleteTask ident st))).
Proof.
  intros ident pid st.
  assert (H : Store.getProjectTasks pid (Store.deleteTask ident st)
              = filter (fun t => negb (String.eqb (id t) ident))
                  (Store.getProjectTasks pid st)).
  { unfold Store.getProjectTasks, Store.deleteTask. cbn [Store.tasks].
    rewrite <- sortByOrder_filter. f_equal.
    rewrite !filter_twice. apply filter_ext. intros t. apply andb_comm. }
  split; [exact H | ].
  rewrite H. intros Hin. apply in_map_iff in Hin.
  destruct Hin as [t [Et Ht]]. apply filter_In in Ht.
  destruct Ht as [_ Hne]. rewrite Et, String.eqb_refl in Hne. discriminate.
Qed.

(** X24. Editing a task never moves it: for a patch that does not set the
    order (a schedule, name, assignee, colour or trade), the list of a
    project after [updateTask] is the list before with the patch applied to
    the task of that identifier, every task at the position it had. *)
Theorem updateTask_keeps_listing_order :
  forall (ident pid : string) (patch : TaskPatch) (st : Store.AppState),
    (forall o, patch <> PatchOrder o) ->
    Store.getProjectTasks pid (Store.updateTask ident patch st)
    = Store.updateTaskList ident patch (Store.getProjectTasks pid st)
    /\ map id (Store.getProjectTasks pid (Store.updateTask ident patch st))
       = map id (Store.getProjectTasks pid st)
    /\ map order (Store.getProjectTasks pid (Store.updateTask ident patch st))
       = map order (Store.getProjectTasks pid st).
Proof.
  intros ident pid patch st Hpatch.
  set (h := fun t => if String.eqb (id t) ident
                     then applyTaskPatch t patch else t).
  assert (Hproj : forall x, projectId (h x) = projectId x).
  { intros x. unfold h. destruct (String.eqb (id x) ident); [ | reflexivity].
    destruct patch; reflexivity. }
  assert (Hord : forall x, order (h x) = order x).
  { intros x. unfold h. destruct (String.eqb (id x) ident); [ | reflexivity].
    destruct patch as [s | o | n | a | c | tr]; try reflexivity.
    contradiction (Hpatch o). reflexivity. }
  assert (H : Store.getProjectTasks pid (Store.updateTask ident patch st)
              = Store.updateTaskList ident patch
                  (Store.getProjectTasks pid st)).
  { unfold Store.getProjectTasks, Store.updateTask, Store.updateTaskList.
    cbn [Store.tasks]. fold h.
    rewrite filter_map_commute by (intros x; rewrite Hproj; reflexivity).
    apply sortByOrder_map. exact Hord. }
  split; [exact H | split].
  - rewrite H. apply updateTaskList_ids.
  - rewrite H. unfold Store.updateTaskList. fold h. rewrite map_map.
    apply map_ext. exact Hord.
Qed.

(** A task named " roof " added to project "p" of the sample store under
    the new identifier "n". *)
Lemma added_task_is_listed_last_witness :
  ChartCalendar.handleAddTask Fixture.dayProject
    (Store.getProjectTasks (projectIdent Fixture.dayProject) Sample.store)
    " roof "
  = Some Sample.newTask /\
  Forall (fun t =>
            order t
            <= Z.of_nat (List.length
                           (Store.getProjectTasks
                              (projectIdent Fixture.dayProject)
                              Sample.store)))
         (Store.getProjectTasks (projectIdent Fixture.dayProject)
            Sample.store) /\
  ~ In "n"%string (map id (Store.tasks Sample.store)) /\
  Store.deleteTask "n" (Store.addTask "n" Sample.newTask Sample.store)
  = Sample.store.
Proof.
  assert (Hadd :
    ChartCalendar.handleAddTask Fixture.dayProject
      (Store.getProjectTasks (projectIdent Fixture.dayProject) Sample.store)
      " roof "
    = Some Sample.newTask) by (vm_compute; reflexivity).
  assert (Hord :
    Forall (fun t =>
              order t
              <= Z.of_nat (List.length
                             (Store.getProjectTasks
                                (projectIdent Fixture.dayProject)
                                Sample.store)))
           (Store.getProjectTasks (projectIdent Fixture.dayProject)
              Sample.store)).
  { vm_compute. repeat constructor; discriminate. }
  assert (Hfresh : ~ In "n"%string (map id (Store.tasks Sample.store))).
  { cbn. intuition discriminate. }
  split; [exact Hadd | split; [exact Hord | split; [exact Hfresh | ]]].
  exact (proj2 (proj2 (added_task_is_listed_last Fixture.dayProject
                         Sample.store " roof " "n" Sample.newTask
                         Hadd Hord Hfresh))).
Defined.

(** Renaming task "b" of the sample store. *)
Lemma updateTask_keeps_listing_order_witness :
  (forall o, PatchName "wall" <> PatchOrder o) /\
  map id (Store.getProjectTasks "p"
            (Store.updateTask "b" (PatchName "wall") Sample.store))
  = map id (Store.getProjectTasks "p" Sample.store).
Proof.
  assert (Hp : forall o, PatchName "wall" <> PatchOrder o)
    by (intros o; discriminate).
  split; [exact Hp | ].
  exact (proj1 (proj2 (updateTask_keeps_listing_order "b" "p"
                         (PatchName "wall") Sample.store Hp))).
Defined.

(** *** The bars of the print preview and of the export *)

Lemma previewCellWidth_pos (project : Project) :
  (0 < PrintPreview.cellWidth project)%Q.
Proof. unfold PrintPreview.cellWidth. destruct (viewScale project); reflexivity. Qed.

Lemma exportCellWidth_pos (project : Project) :
  (0 < ExportModal.cellWidth project)%Q.
Proof. unfold ExportModal.cellWidth. destruct (viewScale project); reflexivity. Qed.

(** X25. The print preview and the export draw each bar over the same
    cells as the editor: counted in cells of the own width, the left edge of
    [getTaskBarStyle] is that of the editor's [getBarPosition], and so is the
    width once the margins (2 pixels there, 4 in the editor) are added back.
    The bar never starts left of the chart and is never narrower than one
    cell less the margin. *)
Theorem printed_bar_matches_editor :
  forall (project : Project) (task : Task) (cellWidth : Q),
    (0 < cellWidth)%Q ->
    let e := TaskBar.getBarPosition task project cellWidth in
    let p := PrintPreview.getTaskBarStyle project task in
    let x := ExportModal.getTaskBarStyle project task in
    (left p / PrintPreview.cellWidth project == left e / cellWidth)%Q
    /\ ((width p + 2) / PrintPreview.cellWidth project
        == (width e + 4) / cellWidth)%Q
    /\ (left x / ExportModal.cellWidth project == left e / cellWidth)%Q
    /\ ((width x + 2) / ExportModal.cellWidth project
        == (width e + 4) / cellWidth)%Q
    /\ (0 <= left p)%Q /\ (0 <= left x)%Q
    /\ (PrintPreview.cellWidth project - 2 <= width p)%Q
    /\ (ExportModal.cellWidth project - 2 <= width x)%Q.
Proof.
  intros project task cw Hcw e p x.
  assert (Hcw0 : ~ (cw == 0)%Q)
    by (intros H0; rewrite H0 in Hcw; discriminate).
  pose proof (previewCellWidth_pos project) as Hp.
  pose proof (exportCellWidth_pos project) as Hx.
  assert (Hp0 : ~ (PrintPreview.cellWidth project == 0)%Q)
    by (intros H0; rewrite H0 in Hp; discriminate).
  assert (Hx0 : ~ (ExportModal.cellWidth project == 0)%Q)
    by (intros H0; rewrite H0 in Hx; discriminate).
  subst e p x.
  unfold TaskBar.getBarPosition, PrintPreview.getTaskBarStyle,
    ExportModal.getTaskBarStyle, TaskBar.getScaleValue,
    ChartCalendar.getScaleValue, TaskBar.startMinutes,
    ChartCalendar.startMinutes, TaskBar.hourSettings,
    ChartCalendar.hourSettings.
  set (cp := PrintPreview.cellWidth project) in *.
  set (cx := ExportModal.cellWidth project) in *.
  destruct (viewScale project); cbn [left width].
  all: repeat match goal with
         | |- _ /\ _ => split
         end.
  all: try (field; try split; assumption).
  all: try (apply Qmult_le_0_compat;
            [apply Q.le_max_l | apply Qlt_le_weak; assumption]).
  all: match goal with
       | |- (?c - 2 <= Qmax 1 ?d * ?c - 2)%Q =>
           assert (Hm : (1 * c <= Qmax 1 d * c)%Q)
             by (apply Qmult_le_compat_r;
                 [apply Q.le_max_l | apply Qlt_le_weak; assumption]);
           rewrite Qmult_1_l in Hm;
           unfold Qminus; apply Qplus_le_compat;
           [exact Hm | apply Qle_refl]
       end.
Qed.

(** An unscheduled task in the default day view, with cells of 40 pixels in
    the editor. *)
Lemma printed_bar_matches_editor_witness :
  (0 < 40)%Q /\
  (left (PrintPreview.getTaskBarStyle Fixture.dayProject Fixture.freshTask)
   / PrintPreview.cellWidth Fixture.dayProject
   == left (TaskBar.getBarPosition Fixture.freshTask Fixture.dayProject 40)
      / 40)%Q.
Proof.
  assert (H : (0 < 40)%Q) by reflexivity.
  split; [exact H | ].
  exact (proj1 (printed_bar_matches_editor Fixture.dayProject
                  Fixture.freshTask 40 H)).
Defined.
